(** * Project Health Scanner: the scoring pipeline of [main.py]

    A shallow embedding of [ProjectScanner] (repository walker, VCS
    inspector, manifest analyzer, quality heuristics, remote metadata
    fetcher, score aggregator) and the properties its specification
    states about it.

    Conventions of the embedding:
    - Python [int] is [Z]; Python [float] is an IEEE 754 binary64 value
      ([spec_float] at precision 53, round to nearest even);
    - Python [str] is [string]; the text of a file opened with the
      default encoding is taken as already decoded; the README, which
      the source opens as UTF-8 with [errors='ignore'], is decoded from
      its bytes, and its text is the list of its code points;
    - a [dict] with a fixed set of keys is a record, a key that may be
      missing is an [option] field; [dep_counts] is an association list
      in insertion order;
    - a value taken from a parsed JSON document is kept as the [json]
      value it is, and an operation on it raises where Python's does;
    - everything the code asks of the outside world (sub-process results,
      file contents, HTTP responses, the clock, [datetime.fromisoformat])
      is an explicit input;
    - a raised exception is [None] in the function that raises it, and is
      handled where the source has its [except]. *)

From Stdlib Require Import ZArith List Bool String Ascii Lia DecimalString.
From Stdlib Require Import Strings.Byte.
From Stdlib Require Import Floats.SpecFloat.
Import ListNotations.

Local Open Scope string_scope.
Local Open Scope Z_scope.

(* ===================================================================== *)
(** ** Python floats *)
(* ===================================================================== *)

Module Float64.

Definition float := spec_float.

Definition prec : Z := 53.
Definition emax : Z := 1024.

Definition add : float -> float -> float := SFadd prec emax.
Definition sub : float -> float -> float := SFsub prec emax.
Definition mul : float -> float -> float := SFmul prec emax.
Definition div : float -> float -> float := SFdiv prec emax.

(** [a < b], [a > b], [a <= b] and [a == b] on floats. *)
Definition ltb (a b : float) : bool := SFltb a b.
Definition gtb (a b : float) : bool :=
  match SFcompare a b with Some Gt => true | _ => false end.
Definition leb (a b : float) : bool := SFleb a b.
Definition eqb (a b : float) : bool := SFeqb a b.

(** The nearest binary64 value to an integer (ties to even); infinite
    when the integer is beyond the binary64 range. *)
Definition round_Z (n : Z) : float := binary_normalize prec emax n 0 false.

(** [float(n)] as Python's arithmetic applies it to an [int] operand:
    [OverflowError] when the integer is too large. *)
Definition of_int (n : Z) : option float :=
  match round_Z n with
  | S754_infinity _ => None
  | f => Some f
  end.

(** A decimal literal [n/d] (with [d] a power of ten) denotes the
    binary64 value nearest to it, which is the correctly rounded
    quotient of the two exactly representable integers. *)
Definition lit (n d : Z) : float := div (round_Z n) (round_Z d).

(** The built-ins [min(a, b)] and [max(a, b)]: the first argument is
    kept unless the second is strictly smaller (resp. greater). *)
Definition min (a b : float) : float := if ltb b a then b else a.
Definition max (a b : float) : float := if gtb b a then b else a.

(** The float literals of the score aggregator. *)
Definition f0_0 : float := Eval vm_compute in lit 0 10.
Definition f0_1 : float := Eval vm_compute in lit 1 10.
Definition f0_2 : float := Eval vm_compute in lit 2 10.
Definition f0_3 : float := Eval vm_compute in lit 3 10.
Definition f0_4 : float := Eval vm_compute in lit 4 10.
Definition f0_5 : float := Eval vm_compute in lit 5 10.
Definition f0_6 : float := Eval vm_compute in lit 6 10.
Definition f1_0 : float := Eval vm_compute in lit 10 10.
Definition f1_5 : float := Eval vm_compute in lit 15 10.
Definition f2_0 : float := Eval vm_compute in lit 20 10.
Definition f2_5 : float := Eval vm_compute in lit 25 10.
Definition f3_0 : float := Eval vm_compute in lit 30 10.
Definition f4_0 : float := Eval vm_compute in lit 40 10.
Definition f10_0 : float := Eval vm_compute in lit 100 10.

End Float64.

Import Float64.

(* ===================================================================== *)
(** ** Python strings *)
(* ===================================================================== *)

(** The [str] methods the scanner uses.  A character is a code point
    below 256. *)
Module PyStr.

(** [c.isspace()]. *)
Definition isspace (c : ascii) : bool :=
  let n := Z.of_N (N_of_ascii c) in
  ((9 <=? n) && (n <=? 13)) || ((28 <=? n) && (n <=? 32))
  || (n =? 133) || (n =? 160).

Definition len (s : string) : Z := Z.of_nat (String.length s).

(** Truth value of a string: non-empty. *)
Definition truthy (s : string) : bool :=
  match s with EmptyString => false | String _ _ => true end.

Fixpoint lstrip (s : string) : string :=
  match s with
  | EmptyString => EmptyString
  | String c s' => if isspace c then lstrip s' else s
  end.

Fixpoint rstrip (s : string) : string :=
  match s with
  | EmptyString => EmptyString
  | String c s' =>
      match rstrip s' with
      | EmptyString => if isspace c then EmptyString else String c EmptyString
      | r => String c r
      end
  end.

(** [s.strip()]. *)
Definition strip (s : string) : string := rstrip (lstrip s).

(** [s.rstrip(c)] for a one-character argument. *)
Fixpoint rstrip_char (c0 : ascii) (s : string) : string :=
  match s with
  | EmptyString => EmptyString
  | String c s' =>
      match rstrip_char c0 s' with
      | EmptyString => if Ascii.eqb c c0 then EmptyString else String c EmptyString
      | r => String c r
      end
  end.

(** [s.startswith(p)]. *)
Definition startswith (s p : string) : bool := String.prefix p s.

(** [sub in s]. *)
Fixpoint contains (sub s : string) : bool :=
  if String.prefix sub s then true
  else match s with
       | EmptyString => false
       | String _ s' => contains sub s'
       end.

(** [s.split(sep)] for a one-character separator. *)
Fixpoint split (sep : ascii) (s : string) : list string :=
  match s with
  | EmptyString => [EmptyString]
  | String c s' =>
      if Ascii.eqb c sep then EmptyString :: split sep s'
      else match split sep s' with
           | w :: ws => String c w :: ws
           | [] => [String c EmptyString]
           end
  end.

(** The lines a text file yields when iterated (and [f.readlines()]):
    each keeps its newline, and there is no empty last line. *)
Fixpoint lines (s : string) : list string :=
  match s with
  | EmptyString => []
  | String c s' =>
      if Ascii.eqb c "010"%char then String c EmptyString :: lines s'
      else match lines s' with
           | w :: ws => String c w :: ws
           | [] => [String c EmptyString]
           end
  end.

(** [s.replace(old, new)] for a non-empty [old]: occurrences are
    replaced from the left and do not overlap.  [skip] counts the
    characters of the occurrence just replaced that are still to be
    dropped. *)
Fixpoint replace_from (old new : string) (skip : nat) (s : string) : string :=
  match s with
  | EmptyString => EmptyString
  | String c s' =>
      match skip with
      | S k => replace_from old new k s'
      | O =>
          if String.prefix old s
          then new ++ replace_from old new (Nat.pred (String.length old)) s'
          else String c (replace_from old new O s')
      end
  end.

Definition replace (old new s : string) : string := replace_from old new O s.

(** [s.count(c)] for a one-character argument. *)
Fixpoint count (c0 : ascii) (s : string) : Z :=
  match s with
  | EmptyString => 0
  | String c s' => (if Ascii.eqb c c0 then 1 else 0) + count c0 s'
  end.

Fixpoint drop (n : nat) (s : string) : string :=
  match n, s with
  | O, _ => s
  | S k, String _ s' => drop k s'
  | S _, EmptyString => EmptyString
  end.

Fixpoint find_at (sub s : string) (i : Z) : Z :=
  if String.prefix sub s then i
  else match s with
       | EmptyString => -1
       | String _ s' => find_at sub s' (i + 1)
       end.

(** A slice bound, as Python normalises it. *)
Definition bound (s : string) (i : Z) : Z :=
  if i <? 0 then Z.max 0 (i + len s) else Z.min i (len s).

(** [s.find(sub, start)]: the lowest index at or after [start], or -1. *)
Definition find_from (sub s : string) (start : Z) : Z :=
  if (0 <=? start) && (len s <? start) then -1
  else let a := bound s start in find_at sub (drop (Z.to_nat a) s) a.

(** [s.find(sub)]. *)
Definition find (sub s : string) : Z := find_from sub s 0.

(** [s[a:b]]. *)
Definition slice (s : string) (a b : Z) : string :=
  let a' := bound s a in
  let b' := bound s b in
  if a' <? b' then String.substring (Z.to_nat a') (Z.to_nat (b' - a')) s
  else EmptyString.

(** [sep.join(l)]. *)
Fixpoint join (sep : string) (l : list string) : string :=
  match l with
  | [] => EmptyString
  | [x] => x
  | x :: rest => x ++ sep ++ join sep rest
  end.

(** [str(n)] for an [int]. *)
Definition of_int (n : Z) : string := NilZero.string_of_int (Z.to_int n).

End PyStr.

(* ===================================================================== *)
(** ** Text read as UTF-8 *)
(* ===================================================================== *)

Module Utf8.

(** A decoded text: the code points of its characters. *)
Definition text := list Z.

(** [len(content)]. *)
Definition len (content : text) : Z := Z.of_nat (List.length content).

Definition value (b : byte) : Z := Z.of_N (Byte.to_N b).

(** A continuation byte, [0x80..0xBF]. *)
Definition is_continuation (b : Z) : bool := (0x80 <=? b) && (b <=? 0xBF).

Definition code_point_2 (ch ch2 : Z) : Z :=
  Z.lor (Z.shiftl (Z.land ch 0x1F) 6) (Z.land ch2 0x3F).

Definition code_point_3 (ch ch2 ch3 : Z) : Z :=
  Z.lor (Z.shiftl (Z.land ch 0x0F) 12)
    (Z.lor (Z.shiftl (Z.land ch2 0x3F) 6) (Z.land ch3 0x3F)).

Definition code_point_4 (ch ch2 ch3 ch4 : Z) : Z :=
  Z.lor (Z.shiftl (Z.land ch 0x07) 18)
    (Z.lor (Z.shiftl (Z.land ch2 0x3F) 12)
       (Z.lor (Z.shiftl (Z.land ch3 0x3F) 6) (Z.land ch4 0x3F))).

(** [bytes.decode('utf-8', errors='ignore')]: well-formed sequences give
    their code point; an invalid start byte is dropped; a sequence with
    an invalid continuation byte is dropped up to that byte, where
    decoding goes on; a sequence cut off by the end of the data is
    dropped.  Overlong forms, surrogates and code points above U+10FFFF
    are invalid at their second byte. *)
Fixpoint decode_ignore (s : list byte) : text :=
  match s with
  | [] => []
  | b :: s1 =>
      let ch := value b in
      if ch <? 0x80 then ch :: decode_ignore s1
      else if ch <? 0xC2 then decode_ignore s1
      else if ch <? 0xE0 then
        match s1 with
        | [] => []
        | b2 :: s2 =>
            let ch2 := value b2 in
            if is_continuation ch2
            then code_point_2 ch ch2 :: decode_ignore s2
            else decode_ignore s1
        end
      else if ch <? 0xF0 then
        match s1 with
        | [] => []
        | b2 :: s2 =>
            let ch2 := value b2 in
            if negb (is_continuation ch2)
               || (if ch2 <? 0xA0 then ch =? 0xE0 else ch =? 0xED)
            then decode_ignore s1
            else
              match s2 with
              | [] => []
              | b3 :: s3 =>
                  let ch3 := value b3 in
                  if is_continuation ch3
                  then code_point_3 ch ch2 ch3 :: decode_ignore s3
                  else decode_ignore s2
              end
        end
      else if ch <? 0xF5 then
        match s1 with
        | [] => []
        | b2 :: s2 =>
            let ch2 := value b2 in
            if negb (is_continuation ch2)
               || (if ch2 <? 0x90 then ch =? 0xF0 else ch =? 0xF4)
            then decode_ignore s1
            else
              match s2 with
              | [] => []
              | b3 :: s3 =>
                  let ch3 := value b3 in
                  if is_continuation ch3
                  then
                    match s3 with
                    | [] => []
                    | b4 :: s4 =>
                        let ch4 := value b4 in
                        if is_continuation ch4
                        then code_point_4 ch ch2 ch3 ch4 :: decode_ignore s4
                        else decode_ignore s3
                    end
                  else decode_ignore s2
              end
        end
      else decode_ignore s1
  end.

(** The newline translation of a file opened in text mode: [\r\n] and
    a lone [\r] are read as [\n]. *)
Fixpoint translate_newlines (content : text) : text :=
  match content with
  | [] => []
  | c :: rest =>
      if c =? 13 then
        10 :: match rest with
              | [] => []
              | c' :: rest' =>
                  if c' =? 10 then translate_newlines rest'
                  else translate_newlines rest
              end
      else c :: translate_newlines rest
  end.

(** What [open(path, 'r', encoding='utf-8', errors='ignore').read()]
    makes of the bytes of a file. *)
Definition read (bytes : list byte) : text :=
  translate_newlines (decode_ignore bytes).

(** [s.encode('utf-8')] for a string of the embedding, whose characters
    are below U+0100: one byte below U+0080, two bytes from there. *)
Definition byte_of (n : Z) : byte :=
  match Byte.of_N (Z.to_N n) with
  | Some b => b
  | None => x00
  end.

Definition encode_char (c : ascii) : list byte :=
  let n := Z.of_N (N_of_ascii c) in
  if n <? 0x80 then [byte_of n]
  else [byte_of (Z.lor 0xC0 (Z.shiftr n 6)); byte_of (Z.lor 0x80 (Z.land n 0x3F))].

Fixpoint encode (s : string) : list byte :=
  match s with
  | EmptyString => []
  | String c rest => (encode_char c ++ encode rest)%list
  end.

End Utf8.

(* ===================================================================== *)
(** ** Exceptions *)
(* ===================================================================== *)

(** A computation that may raise: [None] is the raised exception. *)
Definition bind {A B : Type} (x : option A) (f : A -> option B) : option B :=
  match x with
  | Some a => f a
  | None => None
  end.

Notation "x <- e ;; k" := (bind e (fun x => k))
  (at level 61, e at next level, right associativity).

(** [try: body / except Exception: handler]. *)
Definition try_except {A : Type} (body : option A) (handler : A) : A :=
  match body with
  | Some a => a
  | None => handler
  end.

(* ===================================================================== *)
(** ** JSON values *)
(* ===================================================================== *)

(** A parsed JSON document, as [json.load] returns it: [None], a [bool],
    an [int], a [float], a [str], a [list] or a [dict]. *)
#[local] Set Warnings "-register-all".
Inductive json :=
  | JNull
  | JBool (b : bool)
  | JNumber (n : Z)
  | JFloat (x : float)
  | JString (s : string)
  | JArray (items : list json)
  | JObject (members : list (string * json)).

(** The values Python treats as numbers; a [bool] is an [int]. *)
Definition numeric (v : json) : bool :=
  match v with
  | JNumber _ => true
  | JBool _ => true
  | JFloat _ => true
  | _ => false
  end.

(** [v > c] for an [int] literal [c] of the scanner (each is a float
    exactly): [TypeError] unless [v] is a number. *)
Definition gt_int (v : json) (c : Z) : option bool :=
  match v with
  | JNumber n => Some (n >? c)
  | JBool b => Some (Z.b2z b >? c)
  | JFloat x => Some (gtb x (round_Z c))
  | _ => None
  end.

(** [v - n] for an [int] [n]: [TypeError] unless [v] is a number,
    [OverflowError] when [v] is a float and [n] is beyond the float
    range. *)
Definition sub_int (v : json) (n : Z) : option json :=
  match v with
  | JNumber a => Some (JNumber (a - n))
  | JBool b => Some (JNumber (Z.b2z b - n))
  | JFloat x => f <- of_int n ;; Some (JFloat (sub x f))
  | _ => None
  end.

(** [max(0, v)]: [0] is kept unless [v > 0]. *)
Definition max_0 (v : json) : option json :=
  b <- gt_int v 0 ;; Some (if b then v else JNumber 0).

(* ===================================================================== *)
(** ** Data model *)
(* ===================================================================== *)

(** A [datetime]: its wall-clock reading in microseconds and its
    [tzinfo] (the UTC offset, [None] for a naive value). *)
Record datetime := {
  wall : Z;
  tzinfo : option Z
}.

(** [datetime.now(tz)]: the clock read in the frame of [tz]. *)
Definition clock := option Z -> Z.

Definition microseconds_per_day : Z := 86400000000.

(** [(datetime.now(d.tzinfo) - d).days]: a [timedelta] is normalised so
    that its [days] is the floor of the difference. *)
Definition days_since (now : clock) (d : datetime) : Z :=
  (now (tzinfo d) - wall d) / microseconds_per_day.

(** The dict returned by [_get_git_info]. *)
Record git_info := {
  branch : string;
  last_commit : option datetime;
  uncommitted : Z;
  status : string;
  remote_status : string
}.

(** The dict returned by [_check_dependencies]. *)
Record dep_info := {
  has_deps : bool;
  languages : list string;
  dep_counts : list (string * Z);
  details : list string
}.

(** The dict returned by [_fetch_github_info]; ['stars'] and
    ['open_issues'] hold what the response held, the key ['open_prs'] is
    not set on every path. *)
Record github_info := {
  stars : json;
  open_issues : json;
  open_prs : option Z;
  last_activity : option datetime;
  workflow_status : string
}.

(** The dict returned by [_check_project_quality]. *)
Record quality_info := {
  has_readme : bool;
  readme_quality : Z;
  has_tests : bool;
  test_coverage : Z;
  has_ci_cd : bool;
  ci_cd_type : string;
  has_documentation : bool;
  code_quality_tools : Z;
  project_structure : Z
}.

(** The dataclass [ProjectHealth]. *)
Record ProjectHealth := {
  ph_name : string;
  ph_path : string;
  ph_git_status : string;
  ph_last_commit : option datetime;
  ph_uncommitted_changes : Z;
  ph_branch : string;
  ph_remote_status : string;
  ph_languages : list string;
  ph_dependencies_status : string;
  ph_issues_count : json;
  ph_health_score : float;
  ph_github_repo : option string;
  ph_open_issues : json;
  ph_open_prs : Z;
  ph_stars : json;
  ph_workflow_status : string;
  ph_last_github_activity : option datetime
}.

(* ===================================================================== *)
(** ** Score aggregator: [_calculate_health_score] *)
(* ===================================================================== *)

(** [n * x] for an [int] [n] and a [float] [x]. *)
Definition int_times (n : Z) (x : float) : option float :=
  f <- of_int n ;; Some (mul f x).

(** [sum(dep_info['dep_counts'].values())]. *)
Definition sum_values (d : list (string * Z)) : Z :=
  fold_left (fun acc kv => acc + snd kv) d 0.

(** Each adjustment of the aggregator is a step on the running score,
    in the order of the source. *)

Definition score_uncommitted (g : git_info) (score : float) : option float :=
  if uncommitted g >? 0 then
    if uncommitted g >? 50 then Some (sub score f3_0)
    else if uncommitted g >? 10 then Some (sub score f2_0)
    else x <- int_times (uncommitted g) f0_1 ;; Some (sub score (min f1_0 x))
  else Some score.

Definition score_commit_age (now : clock) (g : git_info) (score : float) : float :=
  match last_commit g with
  | Some lc =>
      let days_old := days_since now lc in
      if days_old >? 365 then sub score f4_0
      else if days_old >? 180 then sub score f2_5
      else if days_old >? 60 then sub score f1_5
      else if days_old >? 14 then sub score f0_5
      else score
  | None => score
  end.

Definition score_remote_status (g : git_info) (score : float) : float :=
  if String.eqb (remote_status g) "unknown" then sub score f0_5 else score.

Definition score_dependencies (d : dep_info) (score : float) : float :=
  if has_deps d then
    let score := add score f0_5 in
    let total_deps := sum_values (dep_counts d) in
    if (5 <=? total_deps) && (total_deps <=? 50) then add score f0_3
    else if total_deps >? 100 then sub score f0_5
    else score
  else score.

Definition score_languages (d : dep_info) (score : float) : float :=
  if Z.of_nat (List.length (languages d)) >? 1 then add score f0_2 else score.

Definition score_open_issues (open_issues : json) (score : float) : option float :=
  above_50 <- gt_int open_issues 50 ;;
  if above_50 then Some (sub score f1_5)
  else
    above_20 <- gt_int open_issues 20 ;;
    if above_20 then Some (sub score f1_0)
    else
      above_10 <- gt_int open_issues 10 ;;
      if above_10 then Some (sub score f0_5)
      else Some score.

Definition score_open_prs (n : Z) (score : float) : float :=
  if (1 <=? n) && (n <=? 5) then add score f0_3
  else if n >? 10 then sub score f0_3
  else score.

Definition score_stars (stars : json) (score : float) : option float :=
  above_1000 <- gt_int stars 1000 ;;
  if above_1000 then Some (add score f0_5)
  else
    above_100 <- gt_int stars 100 ;;
    if above_100 then Some (add score f0_3)
    else
      above_10 <- gt_int stars 10 ;;
      if above_10 then Some (add score f0_1)
      else Some score.

Definition score_github_activity (now : clock) (g : git_info) (gh : github_info)
    (score : float) : float :=
  match last_activity gh, last_commit g with
  | Some la, Some _ =>
      if days_since now la <=? 7 then add score f0_2 else score
  | _, _ => score
  end.

(** [github_info.get('open_prs', 0)]. *)
Definition get_open_prs (gh : github_info) : Z :=
  match open_prs gh with Some n => n | None => 0 end.

Definition score_github (now : clock) (g : git_info) (gh : option github_info)
    (score : float) : option float :=
  match gh with
  | Some gh =>
      score <- score_open_issues (open_issues gh) score ;;
      let score := score_open_prs (get_open_prs gh) score in
      score <- score_stars (stars gh) score ;;
      Some (score_github_activity now g gh score)
  | None => Some score
  end.

Definition score_readme (q : quality_info) (score : float) : option float :=
  if has_readme q then
    x <- int_times (readme_quality q) f0_1 ;; Some (add score (add f0_3 x))
  else Some score.

Definition score_documentation (q : quality_info) (score : float) : float :=
  if has_documentation q then add score f0_4 else score.

Definition score_tests (q : quality_info) (score : float) : option float :=
  if has_tests q then
    x <- int_times (test_coverage q) f0_1 ;; Some (add score (add f0_5 x))
  else Some score.

Definition score_ci_cd (q : quality_info) (score : float) : float :=
  if has_ci_cd q then add score f0_6 else score.

Definition score_quality_tools (q : quality_info) (score : float) : option float :=
  x <- int_times (code_quality_tools q) f0_1 ;;
  let quality_tools_bonus := min f0_5 x in
  Some (add score quality_tools_bonus).

Definition score_structure (q : quality_info) (score : float) : option float :=
  structure_bonus <- int_times (project_structure q) f0_1 ;;
  Some (add score structure_bonus).

Definition score_quality (q : option quality_info) (score : float) : option float :=
  match q with
  | Some q =>
      score <- score_readme q score ;;
      let score := score_documentation q score in
      score <- score_tests q score ;;
      let score := score_ci_cd q score in
      score <- score_quality_tools q score ;;
      score_structure q score
  | None => Some score
  end.

(** The sum of the baseline and all adjustments, before clamping. *)
Definition unclamped_score (now : clock) (g : git_info) (d : dep_info)
    (gh : option github_info) (q : option quality_info) : option float :=
  let score := f10_0 in
  score <- score_uncommitted g score ;;
  let score := score_commit_age now g score in
  let score := score_remote_status g score in
  let score := score_dependencies d score in
  let score := score_languages d score in
  score <- score_github now g gh score ;;
  score_quality q score.

(** [return max(0.0, min(10.0, score))]. *)
Definition clamp (score : float) : float := max f0_0 (min f10_0 score).

Definition _calculate_health_score (now : clock) (g : git_info) (d : dep_info)
    (gh : option github_info) (q : option quality_info) : option float :=
  score <- unclamped_score now g d gh q ;;
  Some (clamp score).

(* ===================================================================== *)
(** ** The outside world *)
(* ===================================================================== *)

(** The outcome of [subprocess.run(cmd, capture_output=True, text=True,
    timeout=5)]. *)
Inductive run_result :=
  | Completed (returncode : Z) (stdout : string)
  | TimeoutExpired
  | RunError.

(** The outcome of [urllib.request.urlopen(req, timeout=...)] followed by
    [json.loads(response.read().decode())]: a response with its status
    and the parsed body, or the exception [urlopen] raised (network
    failure, timeout, HTTP error).  The body is [None] when decoding or
    parsing raises and when the parsed value is not of the kind the
    code goes on with (for the repository document a JSON object, the
    [data.get] of anything else raising [AttributeError]; for the list
    of pull requests a value with a length, [len] of anything else
    raising [TypeError]): the same handler is entered. *)
Inductive http_result (A : Type) :=
  | Response (status : Z) (body : option A)
  | UrlError.

Arguments Response {A} status body.
Arguments UrlError {A}.

(** What the fetcher reads of the repository document of the hosting
    API, a JSON object: the values of three keys, whatever they are;
    [None] is a missing key. *)
Record repo_doc := {
  stargazers_count : option json;
  open_issues_count : option json;
  updated_at : option json
}.

(** A directory handed to [_analyze_project], with the answers the
    outside world gives about it. *)
Record project := {
  (** [project_path.name] and [str(project_path)] *)
  name : string;
  path : string;
  (** [(project_path / rel).exists()], [rel] without a trailing slash *)
  path_exists : string -> bool;
  (** the text of [project_path / rel] as [open(path, 'r')] and [read]
      give it; [None] when opening or reading raises *)
  read_text : string -> option string;
  (** the bytes of [project_path / rel]; [None] when opening or reading
      raises *)
  read_bytes : string -> option (list byte);
  (** [json.load] of [package.json]; [None] when it raises *)
  load_package_json : option json;
  (** [list(project_path.rglob(pattern))] *)
  rglob : string -> list string;
  (** the suffixes of the regular files under the project, in the order
      [rglob('*')] yields them *)
  file_suffixes : list string;
  (** whether [os.chdir(project_path)] succeeds *)
  chdir_ok : bool;
  (** [git branch --show-current], [git log -1 --format=%ci],
      [git status --porcelain], [git remote get-url origin] *)
  git_branch : run_result;
  git_log : run_result;
  git_status : run_result;
  git_remote : run_result;
  (** the two requests to the hosting API; the body of the second is
      represented by a list of its length, an entry by its number *)
  api_repo : http_result repo_doc;
  api_pulls : http_result (list Z)
}.

(** [(project_path / rel).exists()]: joining drops a trailing slash. *)
Definition exists_ (p : project) (rel : string) : bool :=
  path_exists p (PyStr.rstrip_char "/" rel).

(* ===================================================================== *)
(** ** Dicts and sets *)
(* ===================================================================== *)

Fixpoint dict_get {A : Type} (key : string) (d : list (string * A)) : option A :=
  match d with
  | [] => None
  | (k, v) :: rest => if String.eqb k key then Some v else dict_get key rest
  end.

(** [d[key] = v]: an existing key keeps its position. *)
Fixpoint dict_set {A : Type} (key : string) (v : A) (d : list (string * A))
    : list (string * A) :=
  match d with
  | [] => [(key, v)]
  | (k, v0) :: rest =>
      if String.eqb k key then (k, v) :: rest else (k, v0) :: dict_set key v rest
  end.

Fixpoint mem (x : string) (l : list string) : bool :=
  match l with
  | [] => false
  | y :: rest => String.eqb y x || mem x rest
  end.

(** [s.add(x)] on a set kept as a duplicate-free list. *)
Definition set_add (x : string) (s : list string) : list string :=
  if mem x s then s else s ++ [x].

(** The keys of a JSON object as a dict has them: once each. *)
Fixpoint keys (m : list (string * json)) : list string :=
  match m with
  | [] => []
  | (k, _) :: rest => set_add k (keys rest)
  end.

(** [data.get(key, default)]; [AttributeError] unless [data] is an
    object. *)
Definition json_get (data : json) (key : string) (default : json) : option json :=
  match data with
  | JObject m =>
      Some (match dict_get key m with Some v => v | None => default end)
  | _ => None
  end.

(** [len(v)]; [TypeError] on numbers, booleans and null. *)
Definition json_len (v : json) : option Z :=
  match v with
  | JObject m => Some (Z.of_nat (List.length (keys m)))
  | JArray items => Some (Z.of_nat (List.length items))
  | JString s => Some (PyStr.len s)
  | _ => None
  end.

(* ===================================================================== *)
(** ** VCS inspector: [_get_git_info] *)
(* ===================================================================== *)

Section Pipeline.

(** [datetime.now] and [datetime.fromisoformat] ([None] when the
    latter raises [ValueError]). *)
Variable now : clock.
Variable fromisoformat : string -> option datetime.

(** The text handed to [datetime.fromisoformat]: the output of
    [git log], cut at the first [+], with [T] for each space. *)
Definition commit_date_text (stdout : string) : string :=
  let commit_date := PyStr.strip stdout in
  let commit_date :=
    if PyStr.contains "+" commit_date
    then PyStr.strip (hd EmptyString (PyStr.split "+" commit_date))
    else commit_date in
  PyStr.replace " " "T" commit_date.

(** The last-commit time; a [ValueError] of the parser is caught and
    leaves it [None]. *)
Definition parse_last_commit (stdout : string) : option datetime :=
  if PyStr.truthy (PyStr.strip stdout) then
    try_except
      (d <- fromisoformat (commit_date_text stdout) ;; Some (Some d))
      None
  else None.

(** The number of non-blank lines of the output of [git status]. *)
Definition count_uncommitted (stdout : string) : Z :=
  if PyStr.truthy (PyStr.strip stdout) then
    Z.of_nat (List.length
      (filter (fun line => PyStr.truthy (PyStr.strip line))
              (PyStr.split "010" (PyStr.strip stdout))))
  else 0.

Definition _get_git_info (p : project) : option git_info :=
  if negb (chdir_ok p) then None else
  match git_branch p with
  | Completed returncode stdout =>
      if negb (returncode =? 0) then None else
      let branch :=
        if PyStr.truthy (PyStr.strip stdout) then PyStr.strip stdout
        else "main" in
      match git_log p with
      | Completed returncode stdout =>
          if negb (returncode =? 0) then None else
          let last_commit := parse_last_commit stdout in
          match git_status p with
          | Completed returncode stdout =>
              if negb (returncode =? 0) then None else
              let uncommitted := count_uncommitted stdout in
              Some {| branch := branch;
                      last_commit := last_commit;
                      uncommitted := uncommitted;
                      status := if uncommitted =? 0 then "clean" else "dirty";
                      remote_status := "unknown" |}
          | TimeoutExpired => None
          | RunError => None
          end
      | TimeoutExpired => None
      | RunError => None
      end
  | TimeoutExpired => None
  | RunError => None
  end.

(* =================================================================== *)
(** ** Language detection: [_detect_languages] *)
(* =================================================================== *)

Definition language_extensions : list (string * string) :=
  [ (".py", "Python"); (".js", "JavaScript"); (".ts", "TypeScript");
    (".go", "Go"); (".rs", "Rust"); (".java", "Java"); (".cpp", "C++");
    (".c", "C"); (".html", "HTML"); (".css", "CSS"); (".vue", "Vue");
    (".php", "PHP"); (".rb", "Ruby"); (".swift", "Swift");
    (".kt", "Kotlin") ].

Fixpoint detect_loop (suffixes : list string) (languages : list string)
    : list string :=
  match suffixes with
  | [] => languages
  | suffix :: rest =>
      match dict_get suffix language_extensions with
      | Some language =>
          let languages := set_add language languages in
          if (5 <=? List.length languages)%nat then languages
          else detect_loop rest languages
      | None => detect_loop rest languages
      end
  end.

(** The order of [list(languages)] is that of insertion here; Python
    leaves it unspecified. *)
Definition _detect_languages (p : project) : list string :=
  detect_loop (file_suffixes p) [].

(* =================================================================== *)
(** ** Manifest analyzer: [_check_dependencies] *)
(* =================================================================== *)

Definition dep_info_init : dep_info :=
  {| has_deps := false; languages := []; dep_counts := []; details := [] |}.

(** The four assignments every detector ends with. *)
Definition record_manifest (d : dep_info) (language key : string) (n : Z)
    (detail : string) : dep_info :=
  {| has_deps := true;
     languages := languages d ++ [language];
     dep_counts := dict_set key n (dep_counts d);
     details := details d ++ [detail] |}.

Definition check_package_json (p : project) (d : dep_info) : dep_info :=
  if exists_ p "package.json" then
    try_except
      (data <- load_package_json p ;;
       v <- json_get data "dependencies" (JObject []) ;;
       deps <- json_len v ;;
       v <- json_get data "devDependencies" (JObject []) ;;
       dev_deps <- json_len v ;;
       Some (record_manifest d "Node.js" "npm" (deps + dev_deps)
               ("npm: " ++ PyStr.of_int deps ++ " deps, "
                ++ PyStr.of_int dev_deps ++ " dev deps")))
      d
  else d.

Definition check_requirements_txt (p : project) (d : dep_info) : dep_info :=
  if exists_ p "requirements.txt" then
    try_except
      (content <- read_text p "requirements.txt" ;;
       let lines :=
         filter (fun line => PyStr.truthy (PyStr.strip line)
                             && negb (PyStr.startswith line "#"))
                (PyStr.lines content) in
       let dep_count := Z.of_nat (List.length lines) in
       Some (record_manifest d "Python" "pip" dep_count
               ("pip: " ++ PyStr.of_int dep_count ++ " requirements")))
      d
  else d.

(** The state of the loop over the lines of [pyproject.toml]. *)
Record poetry_state := {
  in_poetry_deps : bool;
  in_dev_deps : bool;
  poetry_deps : Z;
  dev_deps : Z
}.

Definition poetry_init : poetry_state :=
  {| in_poetry_deps := false; in_dev_deps := false;
     poetry_deps := 0; dev_deps := 0 |}.

(** A line that can declare a dependency: non-empty, not a comment,
    with a [=]. *)
Definition is_entry (line : string) : bool :=
  PyStr.truthy line && negb (PyStr.startswith line "#")
  && PyStr.contains "=" line.

(** One iteration of the loop. *)
Definition poetry_step (st : poetry_state) (line : string) : poetry_state :=
  let line := PyStr.strip line in
  if String.eqb line "[tool.poetry.dependencies]" then
    {| in_poetry_deps := true; in_dev_deps := false;
       poetry_deps := poetry_deps st; dev_deps := dev_deps st |}
  else if PyStr.startswith line "[tool.poetry.group."
          && PyStr.contains "dependencies]" line then
    {| in_poetry_deps := false; in_dev_deps := true;
       poetry_deps := poetry_deps st; dev_deps := dev_deps st |}
  else if PyStr.startswith line "["
          && negb (String.eqb line "[tool.poetry.dependencies]") then
    {| in_poetry_deps := false; in_dev_deps := false;
       poetry_deps := poetry_deps st; dev_deps := dev_deps st |}
  else if in_poetry_deps st && is_entry line then
    if negb (PyStr.startswith line "python") then
      {| in_poetry_deps := in_poetry_deps st; in_dev_deps := in_dev_deps st;
         poetry_deps := poetry_deps st + 1; dev_deps := dev_deps st |}
    else st
  else if in_dev_deps st && is_entry line then
    {| in_poetry_deps := in_poetry_deps st; in_dev_deps := in_dev_deps st;
       poetry_deps := poetry_deps st; dev_deps := dev_deps st + 1 |}
  else st.

Definition poetry_scan (lines : list string) : poetry_state :=
  fold_left poetry_step lines poetry_init.

(** The count taken from an inline [dependencies = [...]] list. *)
Definition inline_dependencies (content : string) (poetry_deps : Z) : Z :=
  if PyStr.contains "dependencies = [" content && (poetry_deps =? 0) then
    let deps_start := PyStr.find "dependencies = [" content in
    if negb (deps_start =? -1) then
      let deps_section :=
        PyStr.slice content deps_start (PyStr.find_from "]" content deps_start) in
      PyStr.count "034" deps_section / 2
    else poetry_deps
  else poetry_deps.

Definition check_pyproject_toml (p : project) (d : dep_info) : dep_info :=
  if exists_ p "pyproject.toml" then
    try_except
      (content <- read_text p "pyproject.toml" ;;
       let lines := PyStr.split "010" content in
       let st := poetry_scan lines in
       let dev_deps := dev_deps st in
       let poetry_deps := inline_dependencies content (poetry_deps st) in
       if (poetry_deps >? 0) || (dev_deps >? 0) then
         let total_deps := poetry_deps + dev_deps in
         Some (record_manifest d "Python" "poetry" total_deps
                 (if dev_deps >? 0
                  then "poetry: " ++ PyStr.of_int poetry_deps ++ " deps, "
                       ++ PyStr.of_int dev_deps ++ " dev deps"
                  else "poetry: " ++ PyStr.of_int poetry_deps ++ " deps"))
       else Some d)
      d
  else d.

Definition check_go_mod (p : project) (d : dep_info) : dep_info :=
  if exists_ p "go.mod" then
    try_except
      (content <- read_text p "go.mod" ;;
       let lines := PyStr.lines content in
       let dep_count :=
         Z.of_nat (List.length
           (filter (fun line =>
                      PyStr.truthy (PyStr.strip line)
                      && negb (PyStr.startswith (PyStr.strip line) "module")
                      && negb (PyStr.startswith (PyStr.strip line) "go"))
                   lines)) in
       Some (record_manifest d "Go" "go" dep_count
               ("go: " ++ PyStr.of_int dep_count ++ " modules")))
      d
  else d.

Definition _check_dependencies (p : project) : dep_info :=
  let dep_info := dep_info_init in
  let dep_info := check_package_json p dep_info in
  let dep_info := check_requirements_txt p dep_info in
  let dep_info := check_pyproject_toml p dep_info in
  check_go_mod p dep_info.

(* =================================================================== *)
(** ** Remote metadata fetcher: [_get_github_repo], [_fetch_github_info] *)
(* =================================================================== *)

(** The owner/repo part is kept when it has exactly one separator. *)
Definition validate_repo_part (repo_part : string) : option string :=
  if PyStr.contains "/" repo_part
     && (List.length (PyStr.split "/" repo_part) =? 2)%nat
  then Some repo_part else None.

Definition _get_github_repo (p : project) : option string :=
  if negb (chdir_ok p) then None else
  match git_remote p with
  | Completed returncode stdout =>
      if negb (returncode =? 0) then None else
      let remote_url := PyStr.strip stdout in
      if PyStr.contains "github.com" remote_url then
        if PyStr.startswith remote_url "git@github.com:" then
          validate_repo_part
            (PyStr.replace ".git" EmptyString
               (PyStr.replace "git@github.com:" EmptyString remote_url))
        else if PyStr.startswith remote_url "https://github.com/" then
          validate_repo_part
            (PyStr.replace ".git" EmptyString
               (PyStr.replace "https://github.com/" EmptyString remote_url))
        else None
      else None
  | TimeoutExpired => None
  | RunError => None
  end.

(** The dict of defaults, as written both in [_analyze_project] and at
    the end of [_fetch_github_info]. *)
Definition github_info_default : github_info :=
  {| stars := JNumber 0;
     open_issues := JNumber 0;
     open_prs := Some 0;
     last_activity := None;
     workflow_status := "unknown" |}.

(** [data.get(key, default)] on the value of a key. *)
Definition get_or (v : option json) (default : json) : json :=
  match v with Some x => x | None => default end.

(** The last-activity time.  A value that is not a string is false, or
    has no [replace]: the [AttributeError] is caught like the
    [ValueError] of the parser. *)
Definition parse_updated_at (data : repo_doc) : option datetime :=
  match updated_at data with
  | Some (JString s) =>
      if PyStr.truthy s then
        try_except
          (d <- fromisoformat (PyStr.replace "Z" "+00:00" s) ;; Some (Some d))
          None
      else None
  | Some _ => None
  | None => None
  end.

(** The handler of the inner [try]: the raw count stands for the
    issues. *)
Definition pulls_failed (data : repo_doc) (info : github_info) : github_info :=
  {| stars := stars info;
     open_issues := get_or (open_issues_count data) (JNumber 0);
     open_prs := Some 0;
     last_activity := last_activity info;
     workflow_status := workflow_status info |}.

(** [max(0, data.get('open_issues_count', 0) - open_prs)]. *)
Definition issues_without_prs (data : repo_doc) (n_open_prs : Z) : option json :=
  d <- sub_int (get_or (open_issues_count data) (JNumber 0)) n_open_prs ;;
  max_0 d.

(** The inner [try]: the request for the open pull requests.  When the
    subtraction raises, the handler overwrites the ['open_prs'] already
    set. *)
Definition fetch_pulls (p : project) (data : repo_doc) (info : github_info)
    : github_info :=
  match api_pulls p with
  | Response status body =>
      if status =? 200 then
        match body with
        | Some pr_data =>
            let n_open_prs := Z.of_nat (List.length pr_data) in
            match issues_without_prs data n_open_prs with
            | Some issues =>
                {| stars := stars info;
                   open_issues := issues;
                   open_prs := Some n_open_prs;
                   last_activity := last_activity info;
                   workflow_status := workflow_status info |}
            | None => pulls_failed data info
            end
        | None => pulls_failed data info
        end
      else info
  | UrlError => pulls_failed data info
  end.

Definition _fetch_github_info (p : project) : github_info :=
  match api_repo p with
  | Response status body =>
      if status =? 200 then
        match body with
        | Some data =>
            fetch_pulls p data
              {| stars := get_or (stargazers_count data) (JNumber 0);
                 open_issues := get_or (open_issues_count data) (JNumber 0);
                 open_prs := None;
                 last_activity := parse_updated_at data;
                 workflow_status := "unknown" |}
        | None => github_info_default
        end
      else github_info_default
  | UrlError => github_info_default
  end.

(* =================================================================== *)
(** ** Quality heuristics: [_check_project_quality] *)
(* =================================================================== *)

Definition quality_info_init : quality_info :=
  {| has_readme := false; readme_quality := 0;
     has_tests := false; test_coverage := 0;
     has_ci_cd := false; ci_cd_type := "none";
     has_documentation := false;
     code_quality_tools := 0;
     project_structure := 0 |}.

Definition readme_files : list string :=
  ["README.md"; "README.rst"; "README.txt"; "readme.md"].

(** [open(readme_path, 'r', encoding='utf-8', errors='ignore')] and
    [f.read()]. *)
Definition read_readme (p : project) (readme_file : string) : option Utf8.text :=
  bytes <- read_bytes p readme_file ;;
  Some (Utf8.read bytes).

(** The tier of a README that was read, from [len(content)]. *)
Definition readme_tier (content : Utf8.text) : Z :=
  if Utf8.len content >? 2000 then 5
  else if Utf8.len content >? 1000 then 4
  else if Utf8.len content >? 500 then 3
  else if Utf8.len content >? 200 then 2
  else 1.

Definition set_readme (q : quality_info) (tier : Z) : quality_info :=
  {| has_readme := true; readme_quality := tier;
     has_tests := has_tests q; test_coverage := test_coverage q;
     has_ci_cd := has_ci_cd q; ci_cd_type := ci_cd_type q;
     has_documentation := has_documentation q;
     code_quality_tools := code_quality_tools q;
     project_structure := project_structure q |}.

(** The loop over the candidates stops at the first that exists. *)
Fixpoint check_readme (p : project) (candidates : list string)
    (q : quality_info) : quality_info :=
  match candidates with
  | [] => q
  | readme_file :: rest =>
      if exists_ p readme_file then
        set_readme q
          (try_except
             (content <- read_readme p readme_file ;; Some (readme_tier content))
             1)
      else check_readme p rest q
  end.

Definition test_patterns : list string :=
  [ "test/"; "tests/"; "__tests__/"; "spec/";
    "*_test.py"; "*.test.js"; "*_test.js"; "*_spec.py"; "*.spec.js";
    "test_*.py"; "test*.py" ].

Definition count_tests (p : project) : Z :=
  fold_left
    (fun test_count pattern =>
       if PyStr.contains "/" pattern then
         if exists_ p (PyStr.rstrip_char "/" pattern)
         then test_count + 1 else test_count
       else
         let test_files := rglob p pattern in
         match test_files with
         | [] => test_count
         | _ :: _ => test_count + Z.of_nat (List.length test_files)
         end)
    test_patterns 0.

Definition check_tests (p : project) (q : quality_info) : quality_info :=
  let test_count := count_tests p in
  if test_count >? 0 then
    {| has_readme := has_readme q; readme_quality := readme_quality q;
       has_tests := true;
       test_coverage := Z.min 5 (Z.max 1 (test_count / 2));
       has_ci_cd := has_ci_cd q; ci_cd_type := ci_cd_type q;
       has_documentation := has_documentation q;
       code_quality_tools := code_quality_tools q;
       project_structure := project_structure q |}
  else q.

Definition ci_files : list string :=
  [ ".github/workflows/"; ".gitlab-ci.yml"; ".travis.yml";
    "azure-pipelines.yml"; "Jenkinsfile"; "circle.yml"; ".circleci/" ].

Definition ci_type (ci_file : string) : string :=
  if PyStr.contains "github" ci_file then "GitHub Actions"
  else if PyStr.contains "gitlab" ci_file then "GitLab CI"
  else if PyStr.contains "travis" ci_file then "Travis CI"
  else if PyStr.contains "azure" ci_file then "Azure Pipelines"
  else "Other CI".

Fixpoint check_ci (p : project) (candidates : list string)
    (q : quality_info) : quality_info :=
  match candidates with
  | [] => q
  | ci_file :: rest =>
      if exists_ p ci_file then
        {| has_readme := has_readme q; readme_quality := readme_quality q;
           has_tests := has_tests q; test_coverage := test_coverage q;
           has_ci_cd := true; ci_cd_type := ci_type ci_file;
           has_documentation := has_documentation q;
           code_quality_tools := code_quality_tools q;
           project_structure := project_structure q |}
      else check_ci p rest q
  end.

Definition doc_indicators : list string :=
  [ "docs/"; "doc/"; "documentation/"; "wiki/"; "sphinx/"; "mkdocs.yml";
    "docusaurus.config.js" ].

Definition check_documentation (p : project) (q : quality_info) : quality_info :=
  if existsb (exists_ p) doc_indicators then
    {| has_readme := has_readme q; readme_quality := readme_quality q;
       has_tests := has_tests q; test_coverage := test_coverage q;
       has_ci_cd := has_ci_cd q; ci_cd_type := ci_cd_type q;
       has_documentation := true;
       code_quality_tools := code_quality_tools q;
       project_structure := project_structure q |}
  else q.

Definition quality_files : list string :=
  [ ".eslintrc"; ".eslintrc.js"; ".eslintrc.json";
    ".flake8"; "setup.cfg"; ".pylintrc";
    ".prettierrc"; ".prettierrc.js"; ".prettierrc.json";
    ".pre-commit-config.yaml";
    "mypy.ini"; "pyproject.toml";
    ".editorconfig" ].

(** How many of the given paths exist. *)
Definition count_existing (p : project) (l : list string) : Z :=
  fold_left (fun n f => if exists_ p f then n + 1 else n) l 0.

Definition check_quality_tools (p : project) (q : quality_info) : quality_info :=
  {| has_readme := has_readme q; readme_quality := readme_quality q;
     has_tests := has_tests q; test_coverage := test_coverage q;
     has_ci_cd := has_ci_cd q; ci_cd_type := ci_cd_type q;
     has_documentation := has_documentation q;
     code_quality_tools := count_existing p quality_files;
     project_structure := project_structure q |}.

Definition common_dirs : list string :=
  ["src/"; "lib/"; "app/"; "components/"; "utils/"; "config/"].

Definition check_structure (p : project) (q : quality_info) : quality_info :=
  let structure_score := count_existing p common_dirs in
  let structure_score :=
    if exists_ p "package.json" || exists_ p "pyproject.toml"
    then structure_score + 1 else structure_score in
  {| has_readme := has_readme q; readme_quality := readme_quality q;
     has_tests := has_tests q; test_coverage := test_coverage q;
     has_ci_cd := has_ci_cd q; ci_cd_type := ci_cd_type q;
     has_documentation := has_documentation q;
     code_quality_tools := code_quality_tools q;
     project_structure := Z.min 5 structure_score |}.

(** With [path_exists] and [rglob] total, nothing in the body raises
    past the inner handler of the README check, so the outer
    [except] is not entered. *)
Definition _check_project_quality (p : project) : quality_info :=
  let quality_info := quality_info_init in
  let quality_info := check_readme p readme_files quality_info in
  let quality_info := check_tests p quality_info in
  let quality_info := check_ci p ci_files quality_info in
  let quality_info := check_documentation p quality_info in
  let quality_info := check_quality_tools p quality_info in
  check_structure p quality_info.

(* =================================================================== *)
(** ** Repository walker: [_analyze_project], [scan_projects] *)
(* =================================================================== *)

(** The [github_info] of [_analyze_project]: the defaults, replaced by
    the fetcher's answer when a repository identifier was found. *)
Definition remote_info (p : project) (github_repo : option string)
    : github_info :=
  match github_repo with
  | Some repo =>
      if PyStr.truthy repo then _fetch_github_info p
      else github_info_default
  | None => github_info_default
  end.

(** The body of the [try] of [_analyze_project]: [None] is an
    exception, [Some None] is [return None]. *)
Definition analyze_body (p : project) : option (option ProjectHealth) :=
  match _get_git_info p with
  | None => Some None
  | Some git_info =>
      let languages := _detect_languages p in
      let dep_info := _check_dependencies p in
      let github_repo := _get_github_repo p in
      let github_info := remote_info p github_repo in
      let quality_info := _check_project_quality p in
      health_score <-
        _calculate_health_score now git_info dep_info
          (Some github_info) (Some quality_info) ;;
      let dep_display :=
        if has_deps dep_info then PyStr.join ", " (details dep_info)
        else "No dependencies found" in
      (* [github_info['open_prs']]: [KeyError] when the key is not set *)
      n_open_prs <- open_prs github_info ;;
      Some (Some
        {| ph_name := name p;
           ph_path := path p;
           ph_git_status := status git_info;
           ph_last_commit := last_commit git_info;
           ph_uncommitted_changes := uncommitted git_info;
           ph_branch := branch git_info;
           ph_remote_status := remote_status git_info;
           ph_languages := languages;
           ph_dependencies_status := dep_display;
           ph_issues_count := open_issues github_info;
           ph_health_score := health_score;
           ph_github_repo := github_repo;
           ph_open_issues := open_issues github_info;
           ph_open_prs := n_open_prs;
           ph_stars := stars github_info;
           ph_workflow_status := workflow_status github_info;
           ph_last_github_activity := last_activity github_info |})
  end.

Definition _analyze_project (p : project) : option ProjectHealth :=
  if negb (exists_ p ".git") then None
  else try_except (analyze_body p) None.

(** An item of [base_path.iterdir()]. *)
Record dir_entry := {
  is_dir : bool;
  entry : project
}.

(** [health = self._analyze_project(item)] followed by
    [if health: self.projects.append(health)]. *)
Definition visit (projects : list ProjectHealth) (p : project)
    : list ProjectHealth :=
  match _analyze_project p with
  | Some health => projects ++ [health]
  | None => projects
  end.

(** [scan_projects], on the value of [self.projects] at the call; the
    result is [self.projects] at the return.  Printing is left out. *)
Definition scan_projects (base : project) (children : list dir_entry)
    (projects : list ProjectHealth) : list ProjectHealth :=
  let projects :=
    if exists_ base ".git" then visit projects base else projects in
  fold_left
    (fun projects item =>
       if is_dir item && negb (PyStr.startswith (name (entry item)) ".")
       then visit projects (entry item)
       else projects)
    children projects.

End Pipeline.

(* ===================================================================== *)
(** ** Vocabulary of the statements *)
(* ===================================================================== *)

(** A quality record makes the aggregator raise [OverflowError] when one
    of the counters it multiplies by [0.1] is beyond the float range. *)
Definition overflows (q : quality_info) : Prop :=
  (has_readme q = true /\ of_int (readme_quality q) = None) \/
  (has_tests q = true /\ of_int (test_coverage q) = None) \/
  of_int (code_quality_tools q) = None \/
  of_int (project_structure q) = None.

(** A remote record makes the aggregator raise [TypeError] when a count
    it compares with an [int] is not a number. *)
Definition counts_not_numeric (gh : github_info) : Prop :=
  numeric (open_issues gh) = false \/ numeric (stars gh) = false.

(** The README tier as the specification words it: the thresholds
    applied to the byte length of the file. *)
Definition tier_by_byte_length (bytes : list byte) : Z :=
  let size := Z.of_nat (List.length bytes) in
  if size >? 2000 then 5
  else if size >? 1000 then 4
  else if size >? 500 then 3
  else if size >? 200 then 2
  else 1.

(** A sub-operation of the inspector that timed out or exited non-zero. *)
Definition op_failed (r : run_result) : Prop :=
  r = TimeoutExpired \/ exists rc out, r = Completed rc out /\ rc <> 0.

(** The directories the walker looks at: the scan root and its non-hidden
    sub-directories. *)
Definition considered (base : project) (children : list dir_entry)
    (p : project) : Prop :=
  p = base \/
  exists item, In item children /\ is_dir item = true /\
               PyStr.startswith (name (entry item)) "." = false /\
               p = entry item.


(** The remote fields of a record at their defaults. *)
Definition remote_fields_default (h : ProjectHealth) : Prop :=
  ph_stars h = JNumber 0 /\ ph_open_issues h = JNumber 0 /\ ph_open_prs h = 0 /\
  ph_workflow_status h = "unknown" /\ ph_last_github_activity h = None.

(** The two requests of the fetcher, failed: [urlopen] raised, or the
    body of a 200 response did not parse. *)
Definition metadata_failed (p : project) : Prop :=
  api_repo p = UrlError \/ api_repo p = Response 200 None.

Definition pulls_failed_for (p : project) : Prop :=
  api_pulls p = UrlError \/ api_pulls p = Response 200 None.

(** The star and issue counts the fetcher takes from a repository
    document ([0] for a missing key) are numbers. *)
Definition numeric_counts (data : repo_doc) : bool :=
  numeric (get_or (stargazers_count data) (JNumber 0)) &&
  numeric (get_or (open_issues_count data) (JNumber 0)).

(** The repository document of a project, when the first request was
    answered with one, has numeric counts. *)
Definition metadata_numeric (p : project) : Prop :=
  forall data, api_repo p = Response 200 (Some data) ->
               numeric_counts data = true.

(* ===================================================================== *)
(** ** Sample projects *)
(* ===================================================================== *)

Module Sample.

Definition nl : string := String "010" EmptyString.

Fixpoint repeat_string (s : string) (n : nat) : string :=
  match n with
  | O => EmptyString
  | S k => s ++ repeat_string s k
  end.

(** Wall-clock readings are microseconds since 1970-01-01T00:00:00. *)
Definition at_2024_01_01_10h : Z := 1704103200000000.

(** The clock three days after the sample commit, and 400 days after. *)
Definition clock_3_days : clock :=
  fun _ => at_2024_01_01_10h + 3 * microseconds_per_day.
Definition clock_400_days : clock :=
  fun _ => at_2024_01_01_10h + 400 * microseconds_per_day.

(** [datetime.fromisoformat] on the one timestamp of the samples. *)
Definition iso (s : string) : option datetime :=
  if String.eqb s "2024-01-01T10:00:00"
  then Some {| wall := at_2024_01_01_10h; tzinfo := None |}
  else None.

(** A parser that rejects what it is given. *)
Definition iso_rejects (s : string) : option datetime := None.

(** A repository with a [.git] entry and nothing else, a clean working
    tree, no [origin] remote. *)
Definition bare : project :=
  {| name := "demo";
     path := "/home/dev/demo";
     path_exists := fun rel => String.eqb rel ".git";
     read_text := fun _ => None;
     read_bytes := fun _ => None;
     load_package_json := None;
     rglob := fun _ => [];
     file_suffixes := [];
     chdir_ok := true;
     git_branch := Completed 0 ("main" ++ nl);
     git_log := Completed 0 ("2024-01-01 10:00:00 +0100" ++ nl);
     git_status := Completed 0 EmptyString;
     git_remote := Completed 2 EmptyString;
     api_repo := UrlError;
     api_pulls := UrlError |}.

(** [p] with the given files (name and text) added; on disk they are
    UTF-8. *)
Definition with_files (p : project) (files : list (string * string)) : project :=
  {| name := name p;
     path := path p;
     path_exists := fun rel =>
       match dict_get rel files with
       | Some _ => true
       | None => path_exists p rel
       end;
     read_text := fun rel =>
       match dict_get rel files with
       | Some text => Some text
       | None => read_text p rel
       end;
     read_bytes := fun rel =>
       match dict_get rel files with
       | Some text => Some (Utf8.encode text)
       | None => read_bytes p rel
       end;
     load_package_json := load_package_json p;
     rglob := rglob p;
     file_suffixes := file_suffixes p;
     chdir_ok := chdir_ok p;
     git_branch := git_branch p;
     git_log := git_log p;
     git_status := git_status p;
     git_remote := git_remote p;
     api_repo := api_repo p;
     api_pulls := api_pulls p |}.

(** [p] with the given outcomes of [git log] and [git status]. *)
Definition with_git (p : project) (log status : run_result) : project :=
  {| name := name p;
     path := path p;
     path_exists := path_exists p;
     read_text := read_text p;
     read_bytes := read_bytes p;
     load_package_json := load_package_json p;
     rglob := rglob p;
     file_suffixes := file_suffixes p;
     chdir_ok := chdir_ok p;
     git_branch := git_branch p;
     git_log := log;
     git_status := status;
     git_remote := git_remote p;
     api_repo := api_repo p;
     api_pulls := api_pulls p |}.

(** [p] with an [origin] on the hosting service and the given outcomes
    of the two requests. *)
Definition with_remote (p : project) (repo : http_result repo_doc)
    (pulls : http_result (list Z)) : project :=
  {| name := name p;
     path := path p;
     path_exists := path_exists p;
     read_text := read_text p;
     read_bytes := read_bytes p;
     load_package_json := load_package_json p;
     rglob := rglob p;
     file_suffixes := file_suffixes p;
     chdir_ok := chdir_ok p;
     git_branch := git_branch p;
     git_log := git_log p;
     git_status := git_status p;
     git_remote := Completed 0 ("git@github.com:dev/demo.git" ++ nl);
     api_repo := repo;
     api_pulls := pulls |}.

(** 75 changed files, nothing but the [.git] entry. *)
Definition stale : project :=
  with_git bare (git_log bare)
    (Completed 0 (repeat_string (" M src/file.py" ++ nl) 75)).

(** A directory without a [.git] entry. *)
Definition plain_directory : project :=
  {| name := "notes";
     path := "/home/dev/notes";
     path_exists := fun _ => false;
     read_text := fun _ => None;
     read_bytes := fun _ => None;
     load_package_json := None;
     rglob := fun _ => [];
     file_suffixes := [];
     chdir_ok := true;
     git_branch := Completed 128 EmptyString;
     git_log := Completed 128 EmptyString;
     git_status := Completed 128 EmptyString;
     git_remote := Completed 128 EmptyString;
     api_repo := UrlError;
     api_pulls := UrlError |}.

(** The repository document: 42 stars, 7 open issues, no timestamp. *)
Definition doc_42_stars : repo_doc :=
  {| stargazers_count := Some (JNumber 42);
     open_issues_count := Some (JNumber 7);
     updated_at := None |}.

(** The metadata request answers, the pull-request request fails. *)
Definition pulls_unreachable : project :=
  with_remote bare (Response 200 (Some doc_42_stars)) UrlError.

(** Raw open-issue count 30 and ten open pull requests. *)
Definition doc_30_issues : repo_doc :=
  {| stargazers_count := Some (JNumber 0);
     open_issues_count := Some (JNumber 30);
     updated_at := None |}.

Definition ten_pulls : list Z := [101; 102; 103; 104; 105; 106; 107; 108; 109; 110].

Definition issues_30_prs_10 : project :=
  with_remote bare (Response 200 (Some doc_30_issues)) (Response 200 (Some ten_pulls)).

(** A repository document whose issue count is [null], answered with
    an empty list of pull requests. *)
Definition doc_null_issues : repo_doc :=
  {| stargazers_count := Some (JNumber 42);
     open_issues_count := Some JNull;
     updated_at := None |}.

Definition null_count : project :=
  with_remote bare (Response 200 (Some doc_null_issues)) (Response 200 (Some [])).

(** The same document, the pull-request request failing. *)
Definition null_count_pulls_unreachable : project :=
  with_remote bare (Response 200 (Some doc_null_issues)) UrlError.

(** A [pyproject.toml] with the runtime pin and two dependencies, one
    of them with a name that starts with [python]. *)
Definition pyproject_text : string :=
  "[tool.poetry.dependencies]" ++ nl ++
  "python = '^3.8'" ++ nl ++
  "python-dateutil = '^2.8'" ++ nl ++
  "requests = '^2.31'" ++ nl.

Definition poetry_project : project :=
  with_files bare [("pyproject.toml", pyproject_text)].

(** A Python project with both a [requirements.txt] and a
    [pyproject.toml]. *)
Definition pip_and_poetry : project :=
  with_files bare
    [ ("requirements.txt", "requests" ++ nl);
      ("pyproject.toml", pyproject_text) ].

(** A README of 2500 characters. *)
Definition with_readme : project :=
  with_files bare [("README.md", repeat_string "x" 2500)].

(** A README of 300 bytes: 150 times the two bytes of U+00E9. *)
Definition accented_bytes : list byte :=
  List.concat (List.repeat [xc3; xa9] 150).

Definition accented_readme : project :=
  {| name := name bare;
     path := path bare;
     path_exists := fun rel =>
       String.eqb rel "README.md" || path_exists bare rel;
     read_text := read_text bare;
     read_bytes := fun rel =>
       if String.eqb rel "README.md" then Some accented_bytes
       else read_bytes bare rel;
     load_package_json := load_package_json bare;
     rglob := rglob bare;
     file_suffixes := file_suffixes bare;
     chdir_ok := chdir_ok bare;
     git_branch := git_branch bare;
     git_log := git_log bare;
     git_status := git_status bare;
     git_remote := git_remote bare;
     api_repo := api_repo bare;
     api_pulls := api_pulls bare |}.

(** A README of 300 bytes: 100 lines of one letter, each ended by a
    carriage return and a line feed. *)
Definition crlf_bytes : list byte :=
  List.concat (List.repeat [x78; x0d; x0a] 100).

(** A record to stand for an analysis that returned nothing. *)
Definition no_record : ProjectHealth :=
  {| ph_name := EmptyString; ph_path := EmptyString;
     ph_git_status := EmptyString; ph_last_commit := None;
     ph_uncommitted_changes := 0; ph_branch := EmptyString;
     ph_remote_status := EmptyString; ph_languages := [];
     ph_dependencies_status := EmptyString; ph_issues_count := JNumber 0;
     ph_health_score := f0_0; ph_github_repo := None;
     ph_open_issues := JNumber 0; ph_open_prs := 0; ph_stars := JNumber 0;
     ph_workflow_status := EmptyString; ph_last_github_activity := None |}.

Definition record_of (r : option ProjectHealth) : ProjectHealth :=
  match r with Some h => h | None => no_record end.

End Sample.

(* ===================================================================== *)
(** ** Summary counts: [main] and [DashboardServer.generate_html] *)
(* ===================================================================== *)

(** [a >= b] on floats. *)
Definition geb (a b : float) : bool :=
  match SFcompare a b with
  | Some Gt => true
  | Some Eq => true
  | _ => false
  end.

(** The [int] operands 8 and 5 of the comparisons with a score are
    compared by value; both are floats exactly. *)
Definition f8 : float := Eval vm_compute in round_Z 8.
Definition f5 : float := Eval vm_compute in round_Z 5.

(** [p.health_score >= 8], [5 <= p.health_score < 8] and
    [p.health_score < 5]. *)
Definition is_healthy (h : ProjectHealth) : bool :=
  geb (ph_health_score h) f8.

Definition is_warning (h : ProjectHealth) : bool :=
  geb (ph_health_score h) f5 && ltb (ph_health_score h) f8.

Definition is_unhealthy (h : ProjectHealth) : bool :=
  ltb (ph_health_score h) f5.

(** [len([p for p in projects if cond(p)])]. *)
Definition count_if (cond : ProjectHealth -> bool) (projects : list ProjectHealth) : Z :=
  Z.of_nat (List.length (filter cond projects)).

(** The four figures [main] prints after the scan and the dashboard
    shows in its statistics row: total, healthy, warning, unhealthy. *)
Definition summary_counts (projects : list ProjectHealth) : Z * Z * Z * Z :=
  (Z.of_nat (List.length projects),
   count_if is_healthy projects,
   count_if is_warning projects,
   count_if is_unhealthy projects).

(* ===================================================================== *)
(** ** The directory listing of [test_minimal.py] *)
(* ===================================================================== *)

(** [[item for item in base_path.iterdir()
      if item.is_dir() and not item.name.startswith('.')]]. *)
Definition subdirs (children : list dir_entry) : list dir_entry :=
  filter (fun item => is_dir item && negb (PyStr.startswith (name (entry item)) "."))
         children.

(** [subdirs[:5]]: the sub-directories it prints. *)
Definition subdirs_shown (children : list dir_entry) : list dir_entry :=
  firstn 5 (subdirs children).

(* ===================================================================== *)
(** ** Vocabulary of the further properties *)
(* ===================================================================== *)

(** The records of one directory: one when it is analysed, none when it
    is skipped. *)
Definition records_of (now : clock) (iso : string -> option datetime)
    (p : project) : list ProjectHealth :=
  match _analyze_project now iso p with
  | Some health => [health]
  | None => []
  end.

(** A string with a character that is not white space. *)
Fixpoint has_text (s : string) : bool :=
  match s with
  | EmptyString => false
  | String c s' => negb (PyStr.isspace c) || has_text s'
  end.

(** The four manifests, each missing or not readable. *)
Definition no_usable_manifest (p : project) : Prop :=
  (exists_ p "package.json" = false \/ load_package_json p = None) /\
  (exists_ p "requirements.txt" = false \/ read_text p "requirements.txt" = None) /\
  (exists_ p "pyproject.toml" = false \/ read_text p "pyproject.toml" = None) /\
  (exists_ p "go.mod" = false \/ read_text p "go.mod" = None).

(** Each detector leaves the record alone or records one manifest with a
    count that is not negative. *)
Definition records_one (d d' : dep_info) (language key : string) : Prop :=
  d' = d \/
  exists n detail, 0 <= n /\ d' = record_manifest d language key n detail.




(** A file of plain ASCII text without carriage returns. *)
Definition plain_ascii (bytes : list byte) : bool :=
  forallb (fun b => (Utf8.value b <? 0x80) && negb (Utf8.value b =? 13)) bytes.

(* ===================================================================== *)
(** * Properties *)
(* ===================================================================== *)

(** ** Floats: order facts used by the aggregator *)

Lemma ltb_leb (a b : float) : ltb a b = true -> leb a b = true.
Proof.
  unfold ltb, leb, SFltb, SFleb.
  destruct (SFcompare a b) as [[ | | ] | ]; intros H; try discriminate H; reflexivity.
Qed.

Lemma gtb_zero_leb (a : float) : gtb a f0_0 = true -> leb f0_0 a = true.
Proof.
  unfold gtb, leb, SFleb, f0_0.
  destruct a as [ [ | ] | [ | ] | | [ | ] m e ]; simpl; intros H;
    try discriminate H; reflexivity.
Qed.

(** The clamp ends in [0.0, 10.0] whatever the sum was, NaN and the
    infinities included. *)
Lemma clamp_range (s : float) :
  leb f0_0 (clamp s) = true /\ leb (clamp s) f10_0 = true.
Proof.
  unfold clamp, max, min.
  destruct (ltb s f10_0) eqn:Hlt.
  - destruct (gtb s f0_0) eqn:Hgt.
    + split; [ apply gtb_zero_leb; exact Hgt | apply ltb_leb; exact Hlt ].
    + split; reflexivity.
  - split; reflexivity.
Qed.

(** ** Where the aggregator can raise *)

(** Small integers convert to a float. *)
Lemma of_int_small (n : Z) : -16 <= n <= 16 -> of_int n <> None.
Proof.
  intros H.
  assert (E : exists k : nat, n = Z.of_nat k - 16 /\ (k <= 32)%nat).
  { exists (Z.to_nat (n + 16)). split; lia. }
  destruct E as [k [-> Hk]].
  do 33 (destruct k as [ | k ]; [ vm_compute; discriminate | ]).
  lia.
Qed.

Lemma int_times_small (n : Z) (x : float) :
  -16 <= n <= 16 -> int_times n x <> None.
Proof.
  intros H. unfold int_times, bind.
  destruct (of_int n) eqn:E; [ discriminate | ].
  exfalso. exact (of_int_small n H E).
Qed.

Lemma int_times_none (n : Z) (x : float) :
  int_times n x = None -> of_int n = None.
Proof.
  unfold int_times, bind. destruct (of_int n); [ discriminate | reflexivity ].
Qed.

Lemma score_uncommitted_returns (g : git_info) (s : float) :
  score_uncommitted g s <> None.
Proof.
  unfold score_uncommitted.
  destruct (uncommitted g >? 0) eqn:H0; [ | discriminate ].
  destruct (uncommitted g >? 50) eqn:H50; [ discriminate | ].
  destruct (uncommitted g >? 10) eqn:H10; [ discriminate | ].
  unfold bind.
  destruct (int_times (uncommitted g) f0_1) eqn:E; [ discriminate | ].
  exfalso. apply (int_times_small (uncommitted g) f0_1); [ lia | exact E ].
Qed.

(** Case analysis on the next [int * float] of the goal: either it has a
    value, or the integer does not convert. *)
Ltac next_int_times :=
  match goal with
  | |- context [int_times ?n ?x] =>
      let E := fresh "E" in
      destruct (int_times n x) eqn:E; cbn [bind];
      [ | apply int_times_none in E ]
  end.

Lemma score_quality_none (q : quality_info) (s : float) :
  score_quality (Some q) s = None -> overflows q.
Proof.
  unfold score_quality, score_readme, score_tests, score_quality_tools,
    score_structure, overflows.
  destruct (has_readme q) eqn:Hr, (has_tests q) eqn:Ht; cbn [bind];
    repeat next_int_times; try discriminate; intros _; tauto.
Qed.

(** ** Counts of the remote record *)

Lemma gt_int_numeric v c : numeric v = true -> exists b, gt_int v c = Some b.
Proof.
  destruct v; cbn [numeric gt_int]; intros H; try discriminate H; eexists; reflexivity.
Qed.

Lemma gt_int_none v c : gt_int v c = None -> numeric v = false.
Proof.
  destruct v; cbn [numeric gt_int]; intros H; try discriminate H; reflexivity.
Qed.

Lemma gt_int_some v c b : gt_int v c = Some b -> numeric v = true.
Proof.
  destruct v; cbn [numeric gt_int]; intros H; try discriminate H; reflexivity.
Qed.

Lemma score_open_issues_none v score :
  score_open_issues v score = None <-> numeric v = false.
Proof.
  unfold score_open_issues. split.
  - destruct (gt_int v 50) as [b | ] eqn:E; cbn [bind].
    + intros H. exfalso.
      destruct (gt_int_numeric v 20 (gt_int_some _ _ _ E)) as [b2 E2].
      destruct (gt_int_numeric v 10 (gt_int_some _ _ _ E)) as [b1 E1].
      rewrite E2, E1 in H. cbn [bind] in H.
      destruct b; [ discriminate H | ].
      destruct b2; [ discriminate H | ].
      destruct b1; discriminate H.
    + intros _. exact (gt_int_none _ _ E).
  - intros H. destruct v; try discriminate H; reflexivity.
Qed.

Lemma score_stars_none v score :
  score_stars v score = None <-> numeric v = false.
Proof.
  unfold score_stars. split.
  - destruct (gt_int v 1000) as [b | ] eqn:E; cbn [bind].
    + intros H. exfalso.
      destruct (gt_int_numeric v 100 (gt_int_some _ _ _ E)) as [b2 E2].
      destruct (gt_int_numeric v 10 (gt_int_some _ _ _ E)) as [b1 E1].
      rewrite E2, E1 in H. cbn [bind] in H.
      destruct b; [ discriminate H | ].
      destruct b2; [ discriminate H | ].
      destruct b1; discriminate H.
    + intros _. exact (gt_int_none _ _ E).
  - intros H. destruct v; try discriminate H; reflexivity.
Qed.

(** The remote step raises exactly when there is remote data and one of
    its two counts is not a number. *)
Lemma score_github_none now g gh score :
  score_github now g gh score = None <->
  exists gh', gh = Some gh' /\ counts_not_numeric gh'.
Proof.
  unfold score_github, counts_not_numeric. split.
  - destruct gh as [gh' | ]; [ | discriminate ].
    intros H. exists gh'. split; [ reflexivity | ].
    destruct (score_open_issues (open_issues gh') score) as [s1 | ] eqn:E1.
    + cbn [bind] in H.
      destruct (score_stars (stars gh') (score_open_prs (get_open_prs gh') s1))
        as [s2 | ] eqn:E2; [ discriminate H | ].
      right. exact (proj1 (score_stars_none _ _) E2).
    + left. exact (proj1 (score_open_issues_none _ _) E1).
  - intros [gh' [-> [H | H]]].
    + rewrite (proj2 (score_open_issues_none _ score) H). reflexivity.
    + destruct (score_open_issues (open_issues gh') score) as [s1 | ];
        [ | reflexivity ].
      cbn [bind]. rewrite (proj2 (score_stars_none _ _) H). reflexivity.
Qed.

Lemma unclamped_score_none now g d gh q :
  unclamped_score now g d gh q = None ->
  (exists gh', gh = Some gh' /\ counts_not_numeric gh') \/
  (exists q', q = Some q' /\ overflows q').
Proof.
  unfold unclamped_score.
  destruct (score_uncommitted g f10_0) as [s | ] eqn:E.
  - cbn [bind].
    match goal with
    | |- context [score_github now g gh ?running] =>
        destruct (score_github now g gh running) as [s' | ] eqn:Eg
    end.
    + cbn [bind]. destruct q as [q' | ].
      * intros H. right. exists q'. split; [ reflexivity | ].
        eapply score_quality_none; exact H.
      * discriminate.
    + intros _. left. exact (proj1 (score_github_none _ _ _ _) Eg).
  - exfalso. exact (score_uncommitted_returns g f10_0 E).
Qed.

(** ** C1: the health score is clamped *)

(** C1. Whatever VCS, dependency, remote and quality data the aggregator
    is given, a score it returns satisfies [0.0 <= score <= 10.0]; the
    only other outcomes are the [TypeError] of comparing a remote count
    that is not a number and the [OverflowError] of multiplying a
    quality counter beyond the float range by [0.1]. *)
Theorem health_score_in_range (now : clock) (g : git_info) (d : dep_info)
    (gh : option github_info) (q : option quality_info) :
  match _calculate_health_score now g d gh q with
  | Some score => leb f0_0 score = true /\ leb score f10_0 = true
  | None => (exists gh', gh = Some gh' /\ counts_not_numeric gh') \/
            (exists q', q = Some q' /\ overflows q')
  end.
Proof.
  unfold _calculate_health_score.
  destruct (unclamped_score now g d gh q) as [s | ] eqn:E; cbn [bind].
  - apply clamp_range.
  - eapply unclamped_score_none; exact E.
Qed.

(** ** The VCS inspector *)

(** The inspector returns data exactly on one path, and what it returns
    there is determined by the three outputs. *)
Lemma get_git_info_some iso p g :
  _get_git_info iso p = Some g ->
  exists b l s,
    chdir_ok p = true /\
    git_branch p = Completed 0 b /\
    git_log p = Completed 0 l /\
    git_status p = Completed 0 s /\
    g = {| branch := if PyStr.truthy (PyStr.strip b) then PyStr.strip b else "main";
           last_commit := parse_last_commit iso l;
           uncommitted := count_uncommitted s;
           status := if count_uncommitted s =? 0 then "clean" else "dirty";
           remote_status := "unknown" |}.
Proof.
  unfold _get_git_info.
  destruct (chdir_ok p); [ | discriminate ].
  destruct (git_branch p) as [rc1 b | | ]; try discriminate.
  destruct (rc1 =? 0) eqn:E1; [ | discriminate ].
  destruct (git_log p) as [rc2 l | | ]; try discriminate.
  destruct (rc2 =? 0) eqn:E2; [ | discriminate ].
  destruct (git_status p) as [rc3 s | | ]; try discriminate.
  destruct (rc3 =? 0) eqn:E3; [ | discriminate ].
  apply Z.eqb_eq in E1, E2, E3. subst rc1 rc2 rc3.
  cbn [negb]. intros H. injection H as <-.
  exists b, l, s. repeat split.
Qed.

Lemma get_git_info_completed iso p b l s :
  chdir_ok p = true ->
  git_branch p = Completed 0 b ->
  git_log p = Completed 0 l ->
  git_status p = Completed 0 s ->
  exists g, _get_git_info iso p = Some g /\
            last_commit g = parse_last_commit iso l.
Proof.
  intros Hc Hb Hl Hs. unfold _get_git_info.
  rewrite Hc, Hb, Hl, Hs. cbn. eexists. split; reflexivity.
Qed.

Lemma op_failed_not_completed r out : op_failed r -> r <> Completed 0 out.
Proof.
  intros [-> | [rc [o [-> Hrc]]]]; [ discriminate | ].
  intros H. injection H as H _. contradiction.
Qed.

Lemma get_git_info_op_failed iso p :
  op_failed (git_branch p) \/ op_failed (git_log p) \/ op_failed (git_status p) ->
  _get_git_info iso p = None.
Proof.
  intros H.
  destruct (_get_git_info iso p) as [g | ] eqn:E; [ exfalso | reflexivity ].
  destruct (get_git_info_some _ _ _ E) as [b [l [s [_ [Hb [Hl [Hs _]]]]]]].
  destruct H as [H | [H | H]];
    eapply op_failed_not_completed; eauto.
Qed.

(** ** The walker *)

Lemma analyze_project_no_git now iso p :
  exists_ p ".git" = false -> _analyze_project now iso p = None.
Proof.
  intros H. unfold _analyze_project. rewrite H. reflexivity.
Qed.

Lemma analyze_project_no_git_info now iso p :
  _get_git_info iso p = None -> _analyze_project now iso p = None.
Proof.
  intros H. unfold _analyze_project, analyze_body. rewrite H.
  destruct (exists_ p ".git"); reflexivity.
Qed.

(** What went into a record that [_analyze_project] returns. *)
Lemma analyze_project_some now iso p h :
  _analyze_project now iso p = Some h ->
  exists_ p ".git" = true /\
  exists g score n,
    _get_git_info iso p = Some g /\
    _calculate_health_score now g (_check_dependencies p)
      (Some (remote_info iso p (_get_github_repo p)))
      (Some (_check_project_quality p)) = Some score /\
    open_prs (remote_info iso p (_get_github_repo p)) = Some n /\
    ph_path h = path p /\
    ph_remote_status h = remote_status g /\
    ph_health_score h = score /\
    ph_stars h = stars (remote_info iso p (_get_github_repo p)) /\
    ph_open_issues h = open_issues (remote_info iso p (_get_github_repo p)) /\
    ph_open_prs h = n /\
    ph_workflow_status h = workflow_status (remote_info iso p (_get_github_repo p)) /\
    ph_last_github_activity h = last_activity (remote_info iso p (_get_github_repo p)) /\
    ph_github_repo h = _get_github_repo p /\
    ph_uncommitted_changes h = uncommitted g.
Proof.
  unfold _analyze_project, analyze_body.
  destruct (exists_ p ".git"); [ | discriminate ].
  cbn [negb]. intros H. split; [ reflexivity | ]. revert H.
  destruct (_get_git_info iso p) as [g | ]; [ | discriminate ].
  destruct (_calculate_health_score now g (_check_dependencies p)
              (Some (remote_info iso p (_get_github_repo p)))
              (Some (_check_project_quality p))) as [score | ] eqn:Hscore;
    [ | discriminate ].
  cbn [bind].
  destruct (open_prs (remote_info iso p (_get_github_repo p))) as [n | ] eqn:Hprs;
    [ | discriminate ].
  cbn [bind try_except]. intros H. injection H as <-.
  exists g, score, n. cbn. repeat split; assumption.
Qed.

Lemma visit_in now iso projects p h :
  In h (visit now iso projects p) ->
  In h projects \/ _analyze_project now iso p = Some h.
Proof.
  unfold visit.
  destruct (_analyze_project now iso p) as [h' | ]; [ | tauto ].
  intros H. apply in_app_or in H. destruct H as [H | [-> | []]]; tauto.
Qed.

Lemma scan_children_in now iso children :
  forall projects h,
  In h (fold_left
          (fun projects item =>
             if is_dir item && negb (PyStr.startswith (name (entry item)) ".")
             then visit now iso projects (entry item)
             else projects)
          children projects) ->
  In h projects \/
  exists item, In item children /\ is_dir item = true /\
               PyStr.startswith (name (entry item)) "." = false /\
               _analyze_project now iso (entry item) = Some h.
Proof.
  induction children as [ | item rest IH ]; intros projects h H.
  - left. exact H.
  - cbn [fold_left] in H. apply IH in H.
    destruct H as [H | [it [Hin Hit]]].
    + destruct (is_dir item) eqn:Hd; cbn [andb] in H.
      * destruct (PyStr.startswith (name (entry item)) ".") eqn:Hn; cbn [negb] in H.
        -- left. exact H.
        -- apply visit_in in H. destruct H as [H | H]; [ left; exact H | ].
           right. exists item. repeat split; auto. left. reflexivity.
      * left. exact H.
    + right. exists it. split; [ right; exact Hin | exact Hit ].
Qed.

(** ** Quality heuristics *)

Lemma count_existing_bounds p l :
  0 <= count_existing p l <= Z.of_nat (List.length l).
Proof.
  unfold count_existing.
  assert (G : forall n, n <= fold_left (fun n f => if exists_ p f then n + 1 else n) l n
                        <= n + Z.of_nat (List.length l)).
  { induction l as [ | f rest IH ]; intros n; cbn [fold_left List.length].
    - lia.
    - destruct (exists_ p f).
      + specialize (IH (n + 1)). lia.
      + specialize (IH n). lia. }
  specialize (G 0). lia.
Qed.

Lemma readme_tier_range content : 1 <= readme_tier content <= 5.
Proof.
  unfold readme_tier.
  repeat match goal with |- context [if ?c then _ else _] => destruct c end; lia.
Qed.

(** The README check on a record that has no README yet. *)
Lemma check_readme_spec p candidates q :
  has_readme q = false -> readme_quality q = 0 ->
  match find (exists_ p) candidates with
  | Some f =>
      has_readme (check_readme p candidates q) = true /\
      readme_quality (check_readme p candidates q) =
        match read_readme p f with
        | Some content => readme_tier content
        | None => 1
        end
  | None =>
      has_readme (check_readme p candidates q) = false /\
      readme_quality (check_readme p candidates q) = 0
  end.
Proof.
  intros Hh Hq.
  induction candidates as [ | f rest IH ]; cbn [find check_readme].
  - split; assumption.
  - destruct (exists_ p f).
    + split; [ reflexivity | ]. cbn [set_readme readme_quality].
      destruct (read_readme p f); reflexivity.
    + exact IH.
Qed.

Lemma check_readme_coverage p candidates q :
  test_coverage (check_readme p candidates q) = test_coverage q.
Proof.
  induction candidates as [ | f rest IH ]; cbn [check_readme].
  - reflexivity.
  - destruct (exists_ p f); [ reflexivity | exact IH ].
Qed.

(** The later checks leave the README fields alone. *)
Lemma check_ci_readme p candidates q :
  has_readme (check_ci p candidates q) = has_readme q /\
  readme_quality (check_ci p candidates q) = readme_quality q /\
  has_tests (check_ci p candidates q) = has_tests q /\
  test_coverage (check_ci p candidates q) = test_coverage q.
Proof.
  induction candidates as [ | f rest IH ]; cbn [check_ci].
  - repeat split.
  - destruct (exists_ p f); [ repeat split | exact IH ].
Qed.

Lemma check_tests_readme p q :
  has_readme (check_tests p q) = has_readme q /\
  readme_quality (check_tests p q) = readme_quality q.
Proof.
  unfold check_tests. destruct (count_tests p >? 0); split; reflexivity.
Qed.

Lemma check_tests_coverage p q :
  0 <= test_coverage q <= 5 -> 0 <= test_coverage (check_tests p q) <= 5.
Proof.
  unfold check_tests. destruct (count_tests p >? 0); cbn; lia.
Qed.

Lemma check_documentation_fields p q :
  has_readme (check_documentation p q) = has_readme q /\
  readme_quality (check_documentation p q) = readme_quality q /\
  has_tests (check_documentation p q) = has_tests q /\
  test_coverage (check_documentation p q) = test_coverage q.
Proof.
  unfold check_documentation.
  destruct (existsb (exists_ p) doc_indicators); repeat split.
Qed.

(** The README fields of the final record are those the README check
    computed. *)
Lemma quality_readme_fields p :
  has_readme (_check_project_quality p) =
    has_readme (check_readme p readme_files quality_info_init) /\
  readme_quality (_check_project_quality p) =
    readme_quality (check_readme p readme_files quality_info_init).
Proof.
  unfold _check_project_quality.
  cbn [check_structure check_quality_tools has_readme readme_quality].
  destruct (check_documentation_fields p
              (check_ci p ci_files
                 (check_tests p (check_readme p readme_files quality_info_init))))
    as [-> [-> _]].
  destruct (check_ci_readme p ci_files
              (check_tests p (check_readme p readme_files quality_info_init)))
    as [-> [-> _]].
  apply check_tests_readme.
Qed.

(** Every ordinal of the quality record is within its documented range. *)
Lemma quality_ranges p :
  0 <= readme_quality (_check_project_quality p) <= 5 /\
  0 <= test_coverage (_check_project_quality p) <= 5 /\
  0 <= code_quality_tools (_check_project_quality p) <= 13 /\
  0 <= project_structure (_check_project_quality p) <= 5.
Proof.
  split; [ | split; [ | split ] ].
  - destruct (quality_readme_fields p) as [_ ->].
    pose proof (check_readme_spec p readme_files quality_info_init eq_refl eq_refl) as H.
    destruct (find (exists_ p) readme_files) as [f | ]; destruct H as [_ ->].
    + destruct (read_readme p f) as [c | ]; [ | lia ].
      pose proof (readme_tier_range c). lia.
    + lia.
  - unfold _check_project_quality.
    cbn [check_structure check_quality_tools test_coverage].
    destruct (check_documentation_fields p
                (check_ci p ci_files
                   (check_tests p (check_readme p readme_files quality_info_init))))
      as [_ [_ [_ ->]]].
    destruct (check_ci_readme p ci_files
                (check_tests p (check_readme p readme_files quality_info_init)))
      as [_ [_ [_ ->]]].
    apply check_tests_coverage.
    rewrite check_readme_coverage. cbn. lia.
  - unfold _check_project_quality.
    cbn [check_structure check_quality_tools code_quality_tools].
    pose proof (count_existing_bounds p quality_files) as H.
    change (Z.of_nat (List.length quality_files)) with 13 in H. lia.
  - unfold _check_project_quality.
    cbn [check_structure project_structure].
    pose proof (count_existing_bounds p common_dirs) as H.
    change (Z.of_nat (List.length common_dirs)) with 6 in H.
    destruct (exists_ p "package.json" || exists_ p "pyproject.toml"); lia.
Qed.

(** In the pipeline the aggregator is handed the record of the quality
    heuristics, whose counters are small: it raises exactly when a count
    of the remote record is not a number. *)
Lemma pipeline_score_none now g d gh p :
  _calculate_health_score now g d gh (Some (_check_project_quality p)) = None
  <-> exists gh', gh = Some gh' /\ counts_not_numeric gh'.
Proof.
  unfold _calculate_health_score. split.
  - destruct (unclamped_score now g d gh (Some (_check_project_quality p)))
      as [s | ] eqn:E; [ discriminate | ].
    intros _. apply unclamped_score_none in E.
    destruct E as [E | [q [Hq Hov]]]; [ exact E | ].
    exfalso. injection Hq as <-.
    destruct (quality_ranges p) as [H1 [H2 [H3 H4]]].
    destruct Hov as [[_ H] | [[_ H] | [H | H]]];
      revert H; apply of_int_small; lia.
  - intros H. unfold unclamped_score.
    destruct (score_uncommitted g f10_0) as [s | ]; [ | reflexivity ].
    cbn [bind].
    rewrite (proj2 (score_github_none now g gh _) H). reflexivity.
Qed.

Lemma pipeline_score_returns now g d gh p :
  numeric (open_issues gh) = true -> numeric (stars gh) = true ->
  exists score,
    _calculate_health_score now g d (Some gh) (Some (_check_project_quality p))
    = Some score.
Proof.
  intros Hi Hs.
  destruct (_calculate_health_score now g d (Some gh)
              (Some (_check_project_quality p))) as [score | ] eqn:E.
  - exists score. reflexivity.
  - exfalso. apply pipeline_score_none in E.
    destruct E as [gh' [Hgh [H | H]]]; injection Hgh as <-; congruence.
Qed.

(** The score of every record the pipeline produces is within
    [0.0, 10.0]. *)
Lemma record_score_in_range now iso p h :
  _analyze_project now iso p = Some h ->
  leb f0_0 (ph_health_score h) = true /\ leb (ph_health_score h) f10_0 = true.
Proof.
  intros H.
  destruct (analyze_project_some _ _ _ _ H)
    as [_ [g [score [n [_ [Hs [_ [_ [_ [-> _]]]]]]]]]].
  unfold _calculate_health_score in Hs.
  destruct (unclamped_score now g (_check_dependencies p)
              (Some (remote_info iso p (_get_github_repo p)))
              (Some (_check_project_quality p))) as [s | ];
    [ | discriminate ].
  cbn [bind] in Hs. injection Hs as <-. apply clamp_range.
Qed.

(** ** C10: the remote-sync status *)

(** C10. Every record the pipeline produces has remote-sync status
    ['unknown']: the inspector's data carries that value and nothing
    else, so the aggregator's remote-sync step subtracts 0.5 whatever
    the running score, and the deduction is in the record's health
    score: that score is the clamp of what the dependency, language,
    remote and quality steps make of the baseline 10.0, less the
    penalties for uncommitted changes and commit age, less 0.5. *)
Theorem remote_status_always_unknown now iso p h :
  _analyze_project now iso p = Some h ->
  ph_remote_status h = "unknown" /\
  exists g before after,
    _get_git_info iso p = Some g /\
    remote_status g = "unknown" /\
    (forall score, score_remote_status g score = sub score f0_5) /\
    (score <- score_uncommitted g f10_0 ;;
     Some (score_commit_age now g score)) = Some before /\
    (let score := sub before f0_5 in
     let score := score_dependencies (_check_dependencies p) score in
     let score := score_languages (_check_dependencies p) score in
     score <-
       score_github now g (Some (remote_info iso p (_get_github_repo p)))
         score ;;
     score_quality (Some (_check_project_quality p)) score) = Some after /\
    ph_health_score h = clamp after.
Proof.
  intros H.
  destruct (analyze_project_some _ _ _ _ H)
    as [_ [g [score [n [Hg [Hs [_ [_ [Hr [Hh _]]]]]]]]]].
  destruct (get_git_info_some _ _ _ Hg) as [b [l [s [_ [_ [_ [_ Eg]]]]]]].
  assert (Hu : remote_status g = "unknown") by (rewrite Eg; reflexivity).
  assert (Hstep : forall sc, score_remote_status g sc = sub sc f0_5).
  { intros sc. unfold score_remote_status. rewrite Hu. reflexivity. }
  split; [ congruence | ].
  unfold _calculate_health_score, unclamped_score in Hs.
  destruct (score_uncommitted g f10_0) as [s0 | ] eqn:E0;
    [ | discriminate Hs ].
  cbn [bind] in Hs. rewrite Hstep in Hs.
  destruct (score_github now g (Some (remote_info iso p (_get_github_repo p)))
              (score_languages (_check_dependencies p)
                 (score_dependencies (_check_dependencies p)
                    (sub (score_commit_age now g s0) f0_5))))
    as [s1 | ] eqn:E1; [ | discriminate Hs ].
  cbn [bind] in Hs.
  destruct (score_quality (Some (_check_project_quality p)) s1)
    as [s2 | ] eqn:E2; [ | discriminate Hs ].
  cbn [bind] in Hs. injection Hs as Hs.
  exists g, (score_commit_age now g s0), s2.
  split; [ exact Hg | ]. split; [ exact Hu | ]. split; [ exact Hstep | ].
  split; [ rewrite E0; reflexivity | ].
  split; [ cbv zeta; rewrite E1; cbn [bind]; exact E2 | ].
  rewrite Hh. symmetry. exact Hs.
Qed.

(** A clean repository with a commit of three days ago, no manifest, no
    remote and nothing the quality heuristics look for: the deduction is
    the whole difference to the baseline, the score is 9.5. *)
Lemma remote_status_always_unknown_witness :
  _analyze_project Sample.clock_3_days Sample.iso Sample.bare
    = Some (Sample.record_of
              (_analyze_project Sample.clock_3_days Sample.iso Sample.bare)) /\
  ph_remote_status
    (Sample.record_of
       (_analyze_project Sample.clock_3_days Sample.iso Sample.bare))
    = "unknown" /\
  ph_health_score
    (Sample.record_of
       (_analyze_project Sample.clock_3_days Sample.iso Sample.bare))
    = sub f10_0 f0_5.
Proof.
  assert (E : _analyze_project Sample.clock_3_days Sample.iso Sample.bare
              = Some (Sample.record_of
                        (_analyze_project Sample.clock_3_days Sample.iso
                           Sample.bare)))
    by (vm_compute; reflexivity).
  split; [ exact E | ].
  destruct (remote_status_always_unknown Sample.clock_3_days Sample.iso
              Sample.bare _ E)
    as [Hs [g [before [after [Hg [_ [_ [Hb [Ha Hh]]]]]]]]].
  split; [ exact Hs | ].
  rewrite Hh.
  vm_compute in Hg. injection Hg as <-.
  vm_compute in Hb. injection Hb as <-.
  vm_compute in Ha. injection Ha as <-.
  vm_compute. reflexivity.
Defined.

(** ** C6: failures of the inspector *)

Lemma parse_last_commit_rejected iso l :
  iso (commit_date_text l) = None -> parse_last_commit iso l = None.
Proof.
  intros H. unfold parse_last_commit.
  destruct (PyStr.truthy (PyStr.strip l)); [ | reflexivity ].
  rewrite H. reflexivity.
Qed.

(** C6. When one of the three git sub-operations times out or exits
    non-zero the inspector returns no data and [_analyze_project]
    returns no record; when all three complete and only the timestamp
    does not parse, the inspector returns its data with the last-commit
    time absent. *)
Theorem inspector_failure_skips_project now iso p :
  (op_failed (git_branch p) \/ op_failed (git_log p) \/ op_failed (git_status p) ->
   _get_git_info iso p = None /\ _analyze_project now iso p = None) /\
  (forall b l s,
     chdir_ok p = true ->
     git_branch p = Completed 0 b ->
     git_log p = Completed 0 l ->
     git_status p = Completed 0 s ->
     iso (commit_date_text l) = None ->
     exists g, _get_git_info iso p = Some g /\ last_commit g = None).
Proof.
  split.
  - intros H. pose proof (get_git_info_op_failed iso p H) as E.
    split; [ exact E | ]. apply analyze_project_no_git_info. exact E.
  - intros b l s Hc Hb Hl Hs Hp.
    destruct (get_git_info_completed iso p b l s Hc Hb Hl Hs) as [g [Hg Hlc]].
    exists g. split; [ exact Hg | ].
    rewrite Hlc. apply parse_last_commit_rejected. exact Hp.
Qed.

Lemma inspector_failure_skips_project_witness :
  (_get_git_info Sample.iso (Sample.with_git Sample.bare (Completed 0 EmptyString) TimeoutExpired) = None /\
   _analyze_project Sample.clock_3_days Sample.iso
     (Sample.with_git Sample.bare (Completed 0 EmptyString) TimeoutExpired) = None) /\
  exists g, _get_git_info Sample.iso_rejects Sample.bare = Some g /\ last_commit g = None.
Proof.
  split.
  - apply (inspector_failure_skips_project Sample.clock_3_days Sample.iso
             (Sample.with_git Sample.bare (Completed 0 EmptyString) TimeoutExpired)).
    right; right. left. reflexivity.
  - apply (proj2 (inspector_failure_skips_project Sample.clock_3_days
                    Sample.iso_rejects Sample.bare)
             ("main" ++ Sample.nl) ("2024-01-01 10:00:00 +0100" ++ Sample.nl)
             EmptyString);
      reflexivity.
Defined.

(** ** C5: only repositories are recorded *)

(** C5. A directory without a [.git] entry yields no record; every
    record in [self.projects] after the scan was there before it or is
    the record of a directory the walker considered that has a [.git]
    entry; and, paths identifying the directories considered and the
    scanner starting empty, no record carries the path of a directory
    without one. *)
Theorem only_repositories_are_recorded now iso base children :
  (forall p, exists_ p ".git" = false -> _analyze_project now iso p = None) /\
  (forall projects h,
     In h (scan_projects now iso base children projects) ->
     In h projects \/
     exists p, considered base children p /\
               exists_ p ".git" = true /\
               _analyze_project now iso p = Some h /\
               ph_path h = path p) /\
  (forall p,
     considered base children p ->
     exists_ p ".git" = false ->
     (forall p', considered base children p' -> path p' = path p -> p' = p) ->
     forall h, In h (scan_projects now iso base children []) -> ph_path h <> path p).
Proof.
  assert (Scan : forall projects h,
     In h (scan_projects now iso base children projects) ->
     In h projects \/
     exists p, considered base children p /\
               exists_ p ".git" = true /\
               _analyze_project now iso p = Some h /\
               ph_path h = path p).
  { intros projects h H. unfold scan_projects in H.
    apply scan_children_in in H.
    destruct H as [H | [item [Hin [Hd [Hn Ha]]]]].
    - destruct (exists_ base ".git") eqn:Hg; [ | left; exact H ].
      apply visit_in in H. destruct H as [H | H]; [ left; exact H | ].
      right. exists base.
      destruct (analyze_project_some _ _ _ _ H)
        as [Hgit [g [sc [n [_ [_ [_ [Hpath _]]]]]]]].
      repeat split; auto. left. reflexivity.
    - right. exists (entry item).
      destruct (analyze_project_some _ _ _ _ Ha)
        as [Hgit [g [sc [n [_ [_ [_ [Hpath _]]]]]]]].
      repeat split; auto. right. exists item. repeat split; auto. }
  split; [ | split ].
  - intros p. apply analyze_project_no_git.
  - exact Scan.
  - intros p Hp Hgit Huniq h Hin Hpath.
    destruct (Scan [] h Hin) as [[] | [p' [Hc [Hg' [_ Hp']]]]].
    assert (p' = p) by (apply Huniq; [ exact Hc | congruence ]).
    subst p'. congruence.
Qed.

Lemma only_repositories_are_recorded_witness :
  _analyze_project Sample.clock_3_days Sample.iso Sample.plain_directory = None /\
  (exists p,
     considered Sample.bare
       [ {| is_dir := true; entry := Sample.plain_directory |} ] p /\
     exists_ p ".git" = true /\
     _analyze_project Sample.clock_3_days Sample.iso p
       = Some (Sample.record_of
                 (_analyze_project Sample.clock_3_days Sample.iso Sample.bare))) /\
  (forall h,
     In h (scan_projects Sample.clock_3_days Sample.iso Sample.bare
             [ {| is_dir := true; entry := Sample.plain_directory |} ] []) ->
     ph_path h <> "/home/dev/notes").
Proof.
  pose proof (only_repositories_are_recorded Sample.clock_3_days Sample.iso
                Sample.bare
                [ {| is_dir := true; entry := Sample.plain_directory |} ])
    as [Skip [Scan Never]].
  split; [ | split ].
  - apply Skip. reflexivity.
  - destruct (Scan []
                (Sample.record_of
                   (_analyze_project Sample.clock_3_days Sample.iso Sample.bare)))
      as [[] | [p [Hc [Hg [Ha _]]]]].
    + vm_compute. left. reflexivity.
    + exists p. repeat split; assumption.
  - apply (Never Sample.plain_directory).
    + right. exists {| is_dir := true; entry := Sample.plain_directory |}.
      repeat split. left. reflexivity.
    + reflexivity.
    + intros p' [-> | [item [[<- | []] [_ [_ ->]]]]] Hpath.
      * discriminate Hpath.
      * reflexivity.
Defined.

(** ** C2: the stale, dirty project *)

(** C2 (as amended). With 75 uncommitted changes, a last commit 400 days
    old, the remote-sync status ['unknown'] the inspector reports, no
    manifest, no remote data, and a quality record with no README, no
    tests, no CI, no documentation, no quality tool and no conventional
    directory, the score is 2.5 = 10.0 - 3.0 - 4.0 - 0.5. *)
Theorem stale_dirty_project_score now g d gh q lc :
  uncommitted g = 75 ->
  last_commit g = Some lc ->
  days_since now lc = 400 ->
  remote_status g = "unknown" ->
  has_deps d = false ->
  languages d = [] ->
  gh = None \/ gh = Some github_info_default ->
  has_readme q = false ->
  has_tests q = false ->
  has_ci_cd q = false ->
  has_documentation q = false ->
  code_quality_tools q = 0 ->
  project_structure q = 0 ->
  _calculate_health_score now g d gh (Some q) = Some f2_5.
Proof.
  intros Hu Hlc Hdays Hr Hd Hl Hgh Hq1 Hq2 Hq3 Hq4 Hq5 Hq6.
  unfold _calculate_health_score, unclamped_score.
  unfold score_uncommitted, score_commit_age, score_remote_status,
    score_dependencies, score_languages, score_quality, score_readme,
    score_documentation, score_tests, score_ci_cd, score_quality_tools,
    score_structure.
  rewrite Hu, Hlc, Hdays, Hr, Hd, Hl, Hq1, Hq2, Hq3, Hq4, Hq5, Hq6.
  destruct Hgh as [-> | ->]; vm_compute; reflexivity.
Qed.

Lemma stale_dirty_project_score_witness :
  _calculate_health_score Sample.clock_400_days
    {| branch := "main";
       last_commit := Some {| wall := Sample.at_2024_01_01_10h; tzinfo := None |};
       uncommitted := 75;
       status := "dirty";
       remote_status := "unknown" |}
    dep_info_init (Some github_info_default) (Some quality_info_init)
  = Some f2_5.
Proof.
  apply (stale_dirty_project_score Sample.clock_400_days _ _ _ _
           {| wall := Sample.at_2024_01_01_10h; tzinfo := None |});
    try reflexivity.
  right. reflexivity.
Defined.

(** The scenario run through the pipeline: the inspector counts 75
    changes, the commit is 400 days old, nothing else is found, and the
    score of the record is 2.5, not 3.0. *)
Lemma stale_dirty_project_is_not_3 :
  option_map ph_uncommitted_changes
    (_analyze_project Sample.clock_400_days Sample.iso Sample.stale) = Some 75 /\
  option_map (days_since Sample.clock_400_days)
    (ph_last_commit
       (Sample.record_of
          (_analyze_project Sample.clock_400_days Sample.iso Sample.stale)))
    = Some 400 /\
  _check_dependencies Sample.stale = dep_info_init /\
  _check_project_quality Sample.stale = quality_info_init /\
  _get_github_repo Sample.stale = None /\
  option_map ph_health_score
    (_analyze_project Sample.clock_400_days Sample.iso Sample.stale) = Some f2_5 /\
  option_map ph_health_score
    (_analyze_project Sample.clock_400_days Sample.iso Sample.stale) <> Some f3_0.
Proof.
  repeat split; try (vm_compute; reflexivity).
  vm_compute. discriminate.
Qed.

(** ** C3: open issues and open pull requests *)

Lemma score_open_prs_10 score : score_open_prs 10 score = score.
Proof. reflexivity. Qed.

Lemma score_open_issues_20 score :
  score_open_issues (JNumber 20) score = Some (sub score f0_5).
Proof. reflexivity. Qed.

(** C3 (as amended). With a raw open-issue count of 30 and ten open pull
    requests the displayed issue count is 20 and the pull-request count
    10; the pull-request step leaves the score unchanged (10 is neither
    within 1..5 nor above 10) and the issue step subtracts 0.5 (20 is
    above 10 and not above 20).  These are the adjustments the
    aggregator's remote step makes: it goes on from the score less 0.5
    to the star and activity steps. *)
Theorem issues_30_prs_10_adjustments iso p data prs :
  api_repo p = Response 200 (Some data) ->
  open_issues_count data = Some (JNumber 30) ->
  api_pulls p = Response 200 (Some prs) ->
  List.length prs = 10%nat ->
  open_issues (_fetch_github_info iso p) = JNumber 20 /\
  open_prs (_fetch_github_info iso p) = Some 10 /\
  forall score,
    score_open_prs (get_open_prs (_fetch_github_info iso p)) score = score /\
    score_open_issues (open_issues (_fetch_github_info iso p)) score
      = Some (sub score f0_5) /\
    forall now g,
      score_github now g (Some (_fetch_github_info iso p)) score
      = (after_stars <-
           score_stars (stars (_fetch_github_info iso p)) (sub score f0_5) ;;
         Some (score_github_activity now g (_fetch_github_info iso p)
                 after_stars)).
Proof.
  intros Hrepo Hraw Hpulls Hlen.
  assert (E : open_issues (_fetch_github_info iso p) = JNumber 20 /\
              open_prs (_fetch_github_info iso p) = Some 10).
  { unfold _fetch_github_info, fetch_pulls, issues_without_prs.
    rewrite Hrepo. cbn [Z.eqb Pos.eqb]. rewrite Hpulls.
    cbn [Z.eqb Pos.eqb]. rewrite Hraw, Hlen. split; reflexivity. }
  destruct E as [Ei Ep].
  split; [ exact Ei | ]. split; [ exact Ep | ].
  intros score.
  assert (Hp : score_open_prs (get_open_prs (_fetch_github_info iso p)) score
               = score).
  { unfold get_open_prs. rewrite Ep. apply score_open_prs_10. }
  assert (Hi : score_open_issues (open_issues (_fetch_github_info iso p)) score
               = Some (sub score f0_5)).
  { rewrite Ei. apply score_open_issues_20. }
  split; [ exact Hp | ]. split; [ exact Hi | ].
  intros now g. unfold score_github. rewrite Hi. cbn [bind].
  unfold get_open_prs. rewrite Ep. rewrite score_open_prs_10. reflexivity.
Qed.

Lemma issues_30_prs_10_adjustments_witness :
  open_issues (_fetch_github_info Sample.iso Sample.issues_30_prs_10)
    = JNumber 20 /\
  open_prs (_fetch_github_info Sample.iso Sample.issues_30_prs_10) = Some 10 /\
  forall score,
    score_open_prs
      (get_open_prs (_fetch_github_info Sample.iso Sample.issues_30_prs_10)) score
      = score /\
    score_open_issues
      (open_issues (_fetch_github_info Sample.iso Sample.issues_30_prs_10)) score
      = Some (sub score f0_5) /\
    forall now g,
      score_github now g
        (Some (_fetch_github_info Sample.iso Sample.issues_30_prs_10)) score
      = (after_stars <-
           score_stars
             (stars (_fetch_github_info Sample.iso Sample.issues_30_prs_10))
             (sub score f0_5) ;;
         Some (score_github_activity now g
                 (_fetch_github_info Sample.iso Sample.issues_30_prs_10)
                 after_stars)).
Proof.
  apply (issues_30_prs_10_adjustments Sample.iso Sample.issues_30_prs_10
           Sample.doc_30_issues Sample.ten_pulls);
    reflexivity.
Defined.

(** The record of that project: 20 open issues, 10 open pull requests,
    and a score of 9.0, the baseline less 0.5 for the remote-sync status
    and 0.5 for the issues. *)
Example issues_30_prs_10_record :
  let h := Sample.record_of
             (_analyze_project Sample.clock_3_days Sample.iso
                Sample.issues_30_prs_10) in
  ph_open_issues h = JNumber 20 /\
  ph_open_prs h = 10 /\
  ph_health_score h = sub (sub f10_0 f0_5) f0_5.
Proof.
  cbv zeta. split; [ vm_compute; reflexivity | ].
  split; vm_compute; reflexivity.
Qed.

(** On that input neither adjustment is the one the scenario names:
    the pull-request step does not subtract 0.3 and the issue step does
    not subtract 1.0. *)
Lemma issues_30_prs_10_not_as_specified :
  open_issues (_fetch_github_info Sample.iso Sample.issues_30_prs_10)
    = JNumber 20 /\
  score_open_prs
    (get_open_prs (_fetch_github_info Sample.iso Sample.issues_30_prs_10)) f10_0
    <> sub f10_0 f0_3 /\
  score_open_issues
    (open_issues (_fetch_github_info Sample.iso Sample.issues_30_prs_10)) f10_0
    <> Some (sub f10_0 f1_0).
Proof.
  split; [ vm_compute; reflexivity | ].
  split; vm_compute; discriminate.
Qed.

(** ** C4: failures of the remote requests *)

(** When the metadata request does not yield a parsed 200 response the
    fetcher answers with the defaults. *)
Lemma fetch_metadata_failed iso p :
  metadata_failed p -> _fetch_github_info iso p = github_info_default.
Proof.
  unfold _fetch_github_info. intros [-> | ->]; reflexivity.
Qed.

(** When the metadata request succeeds and the pull-request request
    fails, the fetcher keeps the metadata and takes the raw count for
    the issues. *)
Lemma fetch_pulls_failed iso p data :
  api_repo p = Response 200 (Some data) ->
  pulls_failed_for p ->
  _fetch_github_info iso p =
    {| stars := get_or (stargazers_count data) (JNumber 0);
       open_issues := get_or (open_issues_count data) (JNumber 0);
       open_prs := Some 0;
       last_activity := parse_updated_at iso data;
       workflow_status := "unknown" |}.
Proof.
  unfold _fetch_github_info, fetch_pulls. intros -> [-> | ->]; reflexivity.
Qed.

(** The subtraction of the pull requests yields a number, and only from
    a number. *)
Lemma sub_int_numeric v n d :
  sub_int v n = Some d -> numeric v = true /\ numeric d = true.
Proof.
  destruct v; cbn [sub_int numeric]; try discriminate.
  - intros H. injection H as <-. split; reflexivity.
  - intros H. injection H as <-. split; reflexivity.
  - destruct (of_int n); cbn [bind]; [ | discriminate ].
    intros H. injection H as <-. split; reflexivity.
Qed.

Lemma max_0_numeric d v : max_0 d = Some v -> numeric v = true.
Proof.
  unfold max_0. destruct (gt_int d 0) as [b | ] eqn:E; cbn [bind];
    [ | discriminate ].
  intros H. injection H as <-. destruct b; [ | reflexivity ].
  exact (gt_int_some _ _ _ E).
Qed.

Lemma issues_without_prs_numeric data n v :
  issues_without_prs data n = Some v ->
  numeric (get_or (open_issues_count data) (JNumber 0)) = true /\
  numeric v = true.
Proof.
  unfold issues_without_prs.
  destruct (sub_int (get_or (open_issues_count data) (JNumber 0)) n)
    as [d | ] eqn:E; cbn [bind]; [ | discriminate ].
  intros H. split.
  - exact (proj1 (sub_int_numeric _ _ _ E)).
  - exact (max_0_numeric _ _ H).
Qed.

(** The star count of the fetcher's record is the one of the document. *)
Lemma fetch_stars iso p data :
  api_repo p = Response 200 (Some data) ->
  stars (_fetch_github_info iso p) = get_or (stargazers_count data) (JNumber 0).
Proof.
  unfold _fetch_github_info, fetch_pulls, pulls_failed. intros ->.
  cbn [Z.eqb Pos.eqb].
  destruct (api_pulls p) as [st' [prs | ] | ]; try reflexivity;
    destruct (st' =? 200); try reflexivity.
  destruct (issues_without_prs data (Z.of_nat (List.length prs)));
    reflexivity.
Qed.

(** The issue count of the fetcher's record is a number exactly when the
    one of the document is. *)
Lemma fetch_open_issues_numeric iso p data :
  api_repo p = Response 200 (Some data) ->
  numeric (open_issues (_fetch_github_info iso p))
  = numeric (get_or (open_issues_count data) (JNumber 0)).
Proof.
  unfold _fetch_github_info, fetch_pulls, pulls_failed. intros ->.
  cbn [Z.eqb Pos.eqb].
  destruct (api_pulls p) as [st' [prs | ] | ]; try reflexivity;
    destruct (st' =? 200); try reflexivity.
  destruct (issues_without_prs data (Z.of_nat (List.length prs)))
    as [v | ] eqn:E; [ | reflexivity ].
  destruct (issues_without_prs_numeric _ _ _ E) as [H1 H2].
  cbn [open_issues]. rewrite H1, H2. reflexivity.
Qed.

(** The fetcher hands on a count that is not a number exactly when the
    document it received holds one. *)
Lemma fetch_counts_not_numeric iso p :
  counts_not_numeric (_fetch_github_info iso p) <->
  exists data,
    api_repo p = Response 200 (Some data) /\ numeric_counts data = false.
Proof.
  unfold counts_not_numeric, numeric_counts. split.
  - destruct (api_repo p) as [st [data | ] | ] eqn:E.
    + destruct (st =? 200) eqn:Est.
      * apply Z.eqb_eq in Est. subst st.
        rewrite (fetch_open_issues_numeric iso p data E).
        rewrite (fetch_stars iso p data E).
        intros [H | H]; exists data; (split; [ reflexivity | ]); rewrite H.
        -- apply andb_false_r.
        -- reflexivity.
      * unfold _fetch_github_info. rewrite E, Est. cbn.
        intros [H | H]; discriminate H.
    + unfold _fetch_github_info. rewrite E.
      destruct (st =? 200); cbn; intros [H | H]; discriminate H.
    + unfold _fetch_github_info. rewrite E. cbn.
      intros [H | H]; discriminate H.
  - intros [data [E H]].
    rewrite (fetch_open_issues_numeric iso p data E).
    rewrite (fetch_stars iso p data E).
    apply andb_false_iff in H. destruct H as [H | H]; [ right | left ]; exact H.
Qed.

(** On every path of the fetcher the workflow status is ['unknown']. *)
Lemma fetch_workflow_status iso p :
  workflow_status (_fetch_github_info iso p) = "unknown".
Proof.
  unfold _fetch_github_info, fetch_pulls.
  destruct (api_repo p) as [st [data | ] | ]; try reflexivity;
    destruct (st =? 200); try reflexivity.
  destruct (api_pulls p) as [st' [prs | ] | ]; try reflexivity;
    destruct (st' =? 200); try reflexivity.
  destruct (issues_without_prs data (Z.of_nat (List.length prs)));
    reflexivity.
Qed.

Lemma fetch_failed_open_prs iso p :
  metadata_failed p \/ pulls_failed_for p ->
  open_prs (_fetch_github_info iso p) = Some 0.
Proof.
  intros [H | H].
  - rewrite (fetch_metadata_failed iso p H). reflexivity.
  - unfold _fetch_github_info.
    destruct (api_repo p) as [st [data | ] | ]; try reflexivity;
      destruct (st =? 200); try reflexivity.
    unfold fetch_pulls. destruct H as [-> | ->]; reflexivity.
Qed.

Lemma remote_info_failed_open_prs iso p r :
  metadata_failed p \/ pulls_failed_for p ->
  open_prs (remote_info iso p r) = Some 0.
Proof.
  intros H. unfold remote_info.
  destruct r as [repo | ]; [ | reflexivity ].
  destruct (PyStr.truthy repo); [ | reflexivity ].
  apply fetch_failed_open_prs. exact H.
Qed.

Lemma remote_info_workflow_status iso p r :
  workflow_status (remote_info iso p r) = "unknown".
Proof.
  unfold remote_info.
  destruct r as [repo | ]; [ | reflexivity ].
  destruct (PyStr.truthy repo); [ | reflexivity ].
  apply fetch_workflow_status.
Qed.

Lemma remote_info_metadata_failed iso p r :
  metadata_failed p -> remote_info iso p r = github_info_default.
Proof.
  intros H. unfold remote_info.
  destruct r as [repo | ]; [ | reflexivity ].
  destruct (PyStr.truthy repo); [ | reflexivity ].
  apply fetch_metadata_failed. exact H.
Qed.

(** A repository identifier that passed validation is not empty. *)
Lemma validate_repo_part_truthy r r' :
  validate_repo_part r = Some r' -> PyStr.truthy r' = true.
Proof.
  unfold validate_repo_part.
  destruct r as [ | c r0 ]; [ discriminate | ].
  destruct (PyStr.contains "/" (String c r0)
            && (List.length (PyStr.split "/" (String c r0)) =? 2)%nat);
    [ | discriminate ].
  intros H. injection H as <-. reflexivity.
Qed.

Lemma get_github_repo_truthy p r :
  _get_github_repo p = Some r -> PyStr.truthy r = true.
Proof.
  unfold _get_github_repo.
  destruct (chdir_ok p); [ | discriminate ].
  destruct (git_remote p) as [rc out | | ]; try discriminate.
  destruct (rc =? 0); [ | discriminate ]. cbn [negb].
  destruct (PyStr.contains "github.com" (PyStr.strip out)); [ | discriminate ].
  destruct (PyStr.startswith (PyStr.strip out) "git@github.com:").
  - apply validate_repo_part_truthy.
  - destruct (PyStr.startswith (PyStr.strip out) "https://github.com/");
      [ apply validate_repo_part_truthy | discriminate ].
Qed.

Lemma remote_info_counts_not_numeric iso p :
  counts_not_numeric (remote_info iso p (_get_github_repo p)) <->
  exists r data,
    _get_github_repo p = Some r /\
    api_repo p = Response 200 (Some data) /\ numeric_counts data = false.
Proof.
  unfold remote_info.
  destruct (_get_github_repo p) as [r | ] eqn:Er.
  - rewrite (get_github_repo_truthy p r Er).
    rewrite fetch_counts_not_numeric. split.
    + intros [data [E H]]. exists r, data.
      split; [ reflexivity | ]. split; assumption.
    + intros [r' [data [_ [E H]]]]. exists data. split; assumption.
  - unfold counts_not_numeric. cbn. split.
    + intros [H | H]; discriminate H.
    + intros [r' [data [H _]]]. discriminate H.
Qed.

(** The counts of the remote record are numbers when those of a document
    the first request was answered with are. *)
Lemma remote_info_numeric iso p :
  metadata_numeric p ->
  ~ counts_not_numeric (remote_info iso p (_get_github_repo p)).
Proof.
  intros Hnum H. apply remote_info_counts_not_numeric in H.
  destruct H as [r [data [_ [E H]]]].
  rewrite (Hnum data E) in H. discriminate H.
Qed.

(** [_analyze_project] returns nothing in four cases: no [.git] entry,
    no data from the inspector, a [TypeError] in the aggregator, a
    [KeyError] on ['open_prs']. *)
Lemma analyze_project_none now iso p :
  _analyze_project now iso p = None <->
  exists_ p ".git" = false \/
  _get_git_info iso p = None \/
  counts_not_numeric (remote_info iso p (_get_github_repo p)) \/
  open_prs (remote_info iso p (_get_github_repo p)) = None.
Proof.
  unfold _analyze_project, analyze_body.
  destruct (exists_ p ".git"); cbn [negb]; [ | tauto ].
  destruct (_get_git_info iso p) as [g | ]; [ | tauto ].
  destruct (_calculate_health_score now g (_check_dependencies p)
              (Some (remote_info iso p (_get_github_repo p)))
              (Some (_check_project_quality p))) as [sc | ] eqn:Es.
  - assert (Hnum : ~ counts_not_numeric
                       (remote_info iso p (_get_github_repo p))).
    { intros H.
      assert (E : _calculate_health_score now g (_check_dependencies p)
                    (Some (remote_info iso p (_get_github_repo p)))
                    (Some (_check_project_quality p)) = None).
      { apply pipeline_score_none. eexists. split; [ reflexivity | exact H ]. }
      congruence. }
    cbn [bind].
    destruct (open_prs (remote_info iso p (_get_github_repo p))) as [n | ].
    + cbn [bind try_except]. split; [ discriminate | ].
      intros [H | [H | [H | H]]]; try discriminate H. contradiction.
    + cbn [bind try_except]. tauto.
  - apply pipeline_score_none in Es.
    destruct Es as [gh' [Hgh H]]. injection Hgh as <-.
    cbn [bind try_except]. tauto.
Qed.

(** The inspector and the [.git] entry alone decide whether a record is
    produced, whenever the key ['open_prs'] is set and the counts of the
    remote record are numbers. *)
Lemma analyze_project_included now iso p :
  open_prs (remote_info iso p (_get_github_repo p)) <> None ->
  ~ counts_not_numeric (remote_info iso p (_get_github_repo p)) ->
  (_analyze_project now iso p <> None <->
   exists_ p ".git" = true /\ _get_git_info iso p <> None).
Proof.
  intros Hprs Hnum. rewrite analyze_project_none.
  destruct (exists_ p ".git"); split.
  - intros H. split; [ reflexivity | ]. intros E. apply H. tauto.
  - intros [_ H] [E | [E | [E | E]]];
      [ discriminate E | contradiction | contradiction | contradiction ].
  - intros H. exfalso. apply H. left. reflexivity.
  - intros [H _]. discriminate H.
Qed.

(** C4 (as amended). When a request of the fetcher fails, the inspector
    and the [.git] entry alone decide whether the record is produced,
    and a record produced has 0 open pull requests and workflow status
    ['unknown'].  When it is the metadata request that failed, every
    remote field is at its default.  When the metadata request
    succeeded and the pull-request request failed, the record keeps the
    star count and the last-activity time of the metadata and shows the
    raw open-issue count.  (The counts of a received document are
    taken to be numbers, as the hosting API sends them.) *)
Theorem remote_failure_is_contained now iso p :
  metadata_failed p \/ pulls_failed_for p ->
  metadata_numeric p ->
  (_analyze_project now iso p <> None <->
   exists_ p ".git" = true /\ _get_git_info iso p <> None) /\
  (forall h,
     _analyze_project now iso p = Some h ->
     ph_open_prs h = 0 /\
     ph_workflow_status h = "unknown" /\
     (metadata_failed p -> remote_fields_default h) /\
     (forall data,
        api_repo p = Response 200 (Some data) ->
        ph_github_repo h <> None ->
        ph_stars h = get_or (stargazers_count data) (JNumber 0) /\
        ph_open_issues h = get_or (open_issues_count data) (JNumber 0) /\
        ph_last_github_activity h = parse_updated_at iso data)).
Proof.
  intros Hfail Hnum.
  pose proof (remote_info_failed_open_prs iso p (_get_github_repo p) Hfail) as Hprs.
  split.
  - apply analyze_project_included.
    + rewrite Hprs. discriminate.
    + apply remote_info_numeric. exact Hnum.
  - intros h Hh.
    destruct (analyze_project_some _ _ _ _ Hh)
      as [_ [g [sc [n [_ [_ [Hn [_ [_ [_ [Hst [Hoi [Hop [Hw [Hla [Hrepo _]]]]]]]]]]]]]]]].
    assert (Hn0 : n = 0) by congruence. rewrite Hn0 in Hop.
    split; [ exact Hop | ].
    split; [ rewrite Hw; apply remote_info_workflow_status | ].
    split.
    + intros Hm. unfold remote_fields_default.
      rewrite Hst, Hoi, Hop, Hw, Hla.
      rewrite (remote_info_metadata_failed iso p _ Hm). repeat split.
    + intros data Hdata Hr.
      assert (Hp : pulls_failed_for p).
      { destruct Hfail as [[Hm | Hm] | Hp]; [ congruence | congruence | exact Hp ]. }
      rewrite Hst, Hoi, Hla.
      destruct (_get_github_repo p) as [r | ] eqn:Er; [ | congruence ].
      unfold remote_info. rewrite (get_github_repo_truthy p r Er).
      rewrite (fetch_pulls_failed iso p data Hdata Hp). repeat split.
Qed.

Lemma remote_failure_is_contained_witness :
  (_analyze_project Sample.clock_3_days Sample.iso Sample.pulls_unreachable <> None <->
   exists_ Sample.pulls_unreachable ".git" = true /\
   _get_git_info Sample.iso Sample.pulls_unreachable <> None) /\
  ph_stars
    (Sample.record_of
       (_analyze_project Sample.clock_3_days Sample.iso Sample.pulls_unreachable))
    = JNumber 42 /\
  remote_fields_default
    (Sample.record_of
       (_analyze_project Sample.clock_3_days Sample.iso
          (Sample.with_remote Sample.bare UrlError UrlError))).
Proof.
  assert (Hnum : metadata_numeric Sample.pulls_unreachable).
  { intros data H. injection H as <-. reflexivity. }
  assert (Hnum' : metadata_numeric
                    (Sample.with_remote Sample.bare UrlError UrlError)).
  { intros data H. discriminate H. }
  pose proof (remote_failure_is_contained Sample.clock_3_days Sample.iso
                Sample.pulls_unreachable (or_intror (or_introl eq_refl)) Hnum)
    as [Hin Hrec].
  split; [ exact Hin | ]. split.
  - destruct (Hrec (Sample.record_of
                      (_analyze_project Sample.clock_3_days Sample.iso
                         Sample.pulls_unreachable)))
      as [_ [_ [_ Hkeep]]].
    + vm_compute. reflexivity.
    + destruct (Hkeep Sample.doc_42_stars) as [Hstars _].
      * reflexivity.
      * vm_compute. discriminate.
      * exact Hstars.
  - pose proof (remote_failure_is_contained Sample.clock_3_days Sample.iso
                  (Sample.with_remote Sample.bare UrlError UrlError)
                  (or_introl (or_introl eq_refl)) Hnum')
      as [_ Hrec'].
    destruct (Hrec' (Sample.record_of
                       (_analyze_project Sample.clock_3_days Sample.iso
                          (Sample.with_remote Sample.bare UrlError UrlError))))
      as [_ [_ [Hdef _]]].
    + vm_compute. reflexivity.
    + apply Hdef. left. reflexivity.
Defined.

(** The pull-request request fails after the metadata request answered
    with 42 stars and 7 open issues: the record is produced, and its
    remote fields are not the defaults. *)
Lemma pulls_failure_keeps_metadata :
  pulls_failed_for Sample.pulls_unreachable /\
  _analyze_project Sample.clock_3_days Sample.iso Sample.pulls_unreachable
    = Some (Sample.record_of
              (_analyze_project Sample.clock_3_days Sample.iso
                 Sample.pulls_unreachable)) /\
  ~ remote_fields_default
      (Sample.record_of
         (_analyze_project Sample.clock_3_days Sample.iso
            Sample.pulls_unreachable)).
Proof.
  split; [ left; reflexivity | ].
  split; [ vm_compute; reflexivity | ].
  intros [Hstars _]. vm_compute in Hstars. discriminate.
Qed.

(** A failed metadata request leaves no document, so no count to be a
    number. *)
Lemma metadata_failed_numeric p : metadata_failed p -> metadata_numeric p.
Proof.
  intros [H | H] data Hd; rewrite H in Hd; discriminate Hd.
Qed.

(** A document whose issue count is [null]: the project is dropped when
    the pull-request request fails, and dropped as well when it answers.
    It is the count, not the failure, that decides. *)
Example null_count_drops_project :
  pulls_failed_for Sample.null_count_pulls_unreachable /\
  ~ metadata_numeric Sample.null_count_pulls_unreachable /\
  exists_ Sample.null_count_pulls_unreachable ".git" = true /\
  _get_git_info Sample.iso Sample.null_count_pulls_unreachable <> None /\
  _analyze_project Sample.clock_3_days Sample.iso
    Sample.null_count_pulls_unreachable = None /\
  _analyze_project Sample.clock_3_days Sample.iso Sample.null_count = None.
Proof.
  split; [ left; reflexivity | ].
  split.
  { intros H. specialize (H Sample.doc_null_issues eq_refl).
    vm_compute in H. discriminate H. }
  split; [ reflexivity | ].
  split; [ vm_compute; discriminate | ].
  split; vm_compute; reflexivity.
Qed.

(** A pull-request response with a status other than 200 raises nothing
    in the fetcher and sets no ['open_prs']: reading that key in
    [_analyze_project] raises [KeyError] and the project is dropped. *)
Lemma pulls_other_status_drops_record now iso p data st body r :
  api_repo p = Response 200 (Some data) ->
  api_pulls p = Response st body ->
  st <> 200 ->
  _get_github_repo p = Some r ->
  _analyze_project now iso p = None.
Proof.
  intros Hrepo Hpulls Hst Hr.
  unfold _analyze_project, analyze_body.
  destruct (exists_ p ".git"); [ | reflexivity ]. cbn [negb].
  destruct (_get_git_info iso p) as [g | ]; [ | reflexivity ].
  destruct (_calculate_health_score now g (_check_dependencies p)
              (Some (remote_info iso p (_get_github_repo p)))
              (Some (_check_project_quality p))) as [sc | ];
    [ | reflexivity ].
  cbn [bind]. rewrite Hr. unfold remote_info.
  rewrite (get_github_repo_truthy p r Hr).
  unfold _fetch_github_info, fetch_pulls. rewrite Hrepo, Hpulls.
  apply Z.eqb_neq in Hst. cbn [Z.eqb Pos.eqb]. rewrite Hst. reflexivity.
Qed.

(** ** C7: the README tier *)

Lemma readme_tier_thresholds content :
  (Utf8.len content > 2000 -> readme_tier content = 5) /\
  (1000 < Utf8.len content <= 2000 -> readme_tier content = 4) /\
  (500 < Utf8.len content <= 1000 -> readme_tier content = 3) /\
  (200 < Utf8.len content <= 500 -> readme_tier content = 2) /\
  (Utf8.len content <= 200 -> readme_tier content = 1).
Proof.
  unfold readme_tier.
  destruct (Utf8.len content >? 2000) eqn:E1;
  destruct (Utf8.len content >? 1000) eqn:E2;
  destruct (Utf8.len content >? 500) eqn:E3;
  destruct (Utf8.len content >? 200) eqn:E4;
  repeat split; intros; lia.
Qed.

(** C7 (as amended). The README fields come from the first candidate,
    in the order README.md, README.rst, README.txt, readme.md, that
    exists: the tier is 5, 4, 3, 2 or 1 as the number of characters of
    its text, the bytes of the file decoded as UTF-8 with undecodable
    bytes dropped and line ends translated, is above 2000, 1000, 500,
    200 or not, and 1 when the file cannot be read; with no candidate
    there is no README and the tier is 0. *)
Theorem readme_tier_by_length p :
  match find (exists_ p) readme_files with
  | Some f =>
      has_readme (_check_project_quality p) = true /\
      (forall bytes,
         read_bytes p f = Some bytes ->
         let content := Utf8.read bytes in
         (Utf8.len content > 2000 ->
            readme_quality (_check_project_quality p) = 5) /\
         (1000 < Utf8.len content <= 2000 ->
            readme_quality (_check_project_quality p) = 4) /\
         (500 < Utf8.len content <= 1000 ->
            readme_quality (_check_project_quality p) = 3) /\
         (200 < Utf8.len content <= 500 ->
            readme_quality (_check_project_quality p) = 2) /\
         (Utf8.len content <= 200 ->
            readme_quality (_check_project_quality p) = 1)) /\
      (read_bytes p f = None -> readme_quality (_check_project_quality p) = 1)
  | None =>
      has_readme (_check_project_quality p) = false /\
      readme_quality (_check_project_quality p) = 0
  end.
Proof.
  destruct (quality_readme_fields p) as [-> ->].
  pose proof (check_readme_spec p readme_files quality_info_init eq_refl eq_refl) as H.
  destruct (find (exists_ p) readme_files) as [f | ]; [ | exact H ].
  destruct H as [Hh Hq]. split; [ exact Hh | ]. rewrite Hq.
  unfold read_readme. split.
  - intros bytes ->. cbn [bind]. apply readme_tier_thresholds.
  - intros ->. reflexivity.
Qed.

Lemma readme_tier_by_length_witness :
  read_bytes Sample.with_readme "README.md"
    = Some (Utf8.encode (Sample.repeat_string "x" 2500)) /\
  Utf8.len (Utf8.read (Utf8.encode (Sample.repeat_string "x" 2500))) > 2000 /\
  readme_quality (_check_project_quality Sample.with_readme) = 5.
Proof.
  split; [ reflexivity | ].
  split; [ vm_compute; reflexivity | ].
  pose proof (readme_tier_by_length Sample.with_readme) as H.
  change (find (exists_ Sample.with_readme) readme_files)
    with (Some "README.md") in H.
  destruct H as [_ [H _]].
  destruct (H (Utf8.encode (Sample.repeat_string "x" 2500)) eq_refl)
    as [H5 _].
  apply H5. vm_compute. reflexivity.
Defined.

(** A README of 300 bytes, 150 characters of two bytes each: by its
    byte length the tier would be 2, the tier of the record is 1. *)
Lemma readme_tier_not_by_byte_length :
  find (exists_ Sample.accented_readme) readme_files = Some "README.md" /\
  read_bytes Sample.accented_readme "README.md" = Some Sample.accented_bytes /\
  List.length Sample.accented_bytes = 300%nat /\
  tier_by_byte_length Sample.accented_bytes = 2 /\
  Utf8.len (Utf8.read Sample.accented_bytes) = 150 /\
  readme_quality (_check_project_quality Sample.accented_readme) = 1 /\
  readme_quality (_check_project_quality Sample.accented_readme)
    <> tier_by_byte_length Sample.accented_bytes.
Proof.
  split; [ reflexivity | ].
  split; [ reflexivity | ].
  split; [ vm_compute; reflexivity | ].
  split; [ vm_compute; reflexivity | ].
  split; [ vm_compute; reflexivity | ].
  split; [ vm_compute; reflexivity | ].
  vm_compute. discriminate.
Qed.

(** The same on plain ASCII: 100 lines ended by a carriage return and a
    line feed are 300 bytes and 200 characters. *)
Example readme_line_ends_counted_once :
  List.length Sample.crlf_bytes = 300%nat /\
  Utf8.len (Utf8.read Sample.crlf_bytes) = 200 /\
  readme_tier (Utf8.read Sample.crlf_bytes) = 1 /\
  tier_by_byte_length Sample.crlf_bytes = 2.
Proof.
  split; [ vm_compute; reflexivity | ].
  split; [ vm_compute; reflexivity | ].
  split; vm_compute; reflexivity.
Qed.

(** ** C8: the bonus for several languages *)

(** C8, the code at the failing input.  A project with a
    [requirements.txt] and a [pyproject.toml] has one language, entered
    twice in [languages]; the aggregator adds the 0.2 it gives for more
    than one language. *)
Theorem one_language_counted_twice :
  languages (_check_dependencies Sample.pip_and_poetry) = ["Python"; "Python"] /\
  nodup string_dec (languages (_check_dependencies Sample.pip_and_poetry))
    = ["Python"] /\
  forall score,
    score_languages (_check_dependencies Sample.pip_and_poetry) score
    = add score f0_2.
Proof.
  split; [ vm_compute; reflexivity | ].
  split; [ vm_compute; reflexivity | ].
  intros score. unfold score_languages.
  change (languages (_check_dependencies Sample.pip_and_poetry))
    with ["Python"; "Python"].
  reflexivity.
Qed.

(** ** C9: counting the entries of the dependency section *)

Lemma startswith_head s c p' :
  PyStr.startswith s (String c p') = true ->
  PyStr.startswith s (String c EmptyString) = true.
Proof.
  unfold PyStr.startswith. destruct s as [ | c0 s0 ]; cbn; [ discriminate | ].
  destruct (ascii_dec c c0); [ | discriminate ].
  intros _. destruct s0; reflexivity.
Qed.

(** Inside the dependency section, a line that declares an entry adds
    one to the count unless its text starts with [python]. *)
Lemma poetry_step_entry st line :
  in_poetry_deps st = true ->
  is_entry (PyStr.strip line) = true ->
  PyStr.startswith (PyStr.strip line) "[" = false ->
  poetry_deps (poetry_step st line) =
    poetry_deps st + (if PyStr.startswith (PyStr.strip line) "python" then 0 else 1) /\
  in_poetry_deps (poetry_step st line) = true.
Proof.
  intros Hin He Hb. unfold poetry_step.
  destruct (String.eqb (PyStr.strip line) "[tool.poetry.dependencies]") eqn:E1.
  { apply String.eqb_eq in E1. rewrite E1 in Hb. discriminate Hb. }
  destruct (PyStr.startswith (PyStr.strip line) "[tool.poetry.group.") eqn:E2.
  { apply startswith_head in E2. congruence. }
  cbn [andb]. rewrite Hb. cbn [andb]. rewrite Hin, He. cbn [andb].
  destruct (PyStr.startswith (PyStr.strip line) "python"); cbn [negb].
  - split; [ lia | exact Hin ].
  - split; reflexivity.
Qed.

(** C9, the code at the failing input.  The dependency section holds
    the runtime pin and two dependencies; the count is 1, the entry
    [python-dateutil] being skipped with the pin. *)
Theorem python_prefixed_dependency_not_counted :
  poetry_deps (poetry_scan (PyStr.split "010" Sample.pyproject_text)) = 1 /\
  dep_counts (_check_dependencies Sample.poetry_project) = [("poetry", 1)] /\
  details (_check_dependencies Sample.poetry_project) = ["poetry: 1 deps"].
Proof.
  repeat split; vm_compute; reflexivity.
Qed.

(** ** The clamp at work *)

(** A project with every bonus: the sum is above 10.0 and the score is
    10.0. *)
Example clamp_above :
  let g := {| branch := "main"; last_commit := None; uncommitted := 0;
              status := "clean"; remote_status := "unknown" |} in
  let d := {| has_deps := true; languages := ["Node.js"; "Go"];
              dep_counts := [("npm", 12); ("go", 3)]; details := [] |} in
  let q := {| has_readme := true; readme_quality := 5;
              has_tests := true; test_coverage := 5;
              has_ci_cd := true; ci_cd_type := "GitHub Actions";
              has_documentation := true;
              code_quality_tools := 13; project_structure := 5 |} in
  option_map (ltb f10_0) (unclamped_score Sample.clock_3_days g d None (Some q))
    = Some true /\
  _calculate_health_score Sample.clock_3_days g d None (Some q) = Some f10_0.
Proof. split; vm_compute; reflexivity. Qed.

(** A synthetic quality record with a tier of -1000: the sum is below
    0.0 and the score is 0.0. *)
Example clamp_below :
  let g := {| branch := "main"; last_commit := None; uncommitted := 75;
              status := "dirty"; remote_status := "unknown" |} in
  let q := {| has_readme := true; readme_quality := -1000;
              has_tests := false; test_coverage := 0;
              has_ci_cd := false; ci_cd_type := "none";
              has_documentation := false;
              code_quality_tools := 0; project_structure := 0 |} in
  option_map (fun s => ltb s f0_0)
    (unclamped_score Sample.clock_3_days g dep_info_init None (Some q))
    = Some true /\
  _calculate_health_score Sample.clock_3_days g dep_info_init None (Some q)
    = Some f0_0.
Proof. split; vm_compute; reflexivity. Qed.

(* ===================================================================== *)
(** * Further properties *)
(* ===================================================================== *)

(** ** Sets kept as lists *)

Lemma mem_In x l : mem x l = true <-> In x l.
Proof.
  induction l as [ | y rest IH ]; cbn [mem In].
  - split; [ discriminate | tauto ].
  - rewrite orb_true_iff, IH, String.eqb_eq. tauto.
Qed.

Lemma set_add_In x y s : In y (set_add x s) <-> y = x \/ In y s.
Proof.
  unfold set_add. destruct (mem x s) eqn:E.
  - apply mem_In in E. split; [ tauto | ]. intros [-> | H]; assumption.
  - rewrite in_app_iff. cbn [In]. split; intros H; intuition congruence.
Qed.

Lemma set_add_NoDup x s : NoDup s -> NoDup (set_add x s).
Proof.
  intros H. unfold set_add. destruct (mem x s) eqn:E; [ exact H | ].
  assert (Hx : ~ In x s).
  { intros Hin. apply mem_In in Hin. congruence. }
  clear E. induction H as [ | y l Hy Hl IH ]; cbn [app].
  - constructor; [ intros [] | constructor ].
  - constructor.
    + rewrite in_app_iff. cbn [In]. intros [Hin | [-> | []]].
      * contradiction.
      * apply Hx. left. reflexivity.
    + apply IH. intros Hin. apply Hx. right. exact Hin.
Qed.

Lemma set_add_length x s :
  (List.length s <= List.length (set_add x s) <= S (List.length s))%nat.
Proof.
  unfold set_add. destruct (mem x s); [ lia | ].
  rewrite length_app. cbn [List.length]. lia.
Qed.

(** ** Language detection *)

Lemma detect_loop_spec suffixes :
  forall langs,
    NoDup langs ->
    (List.length langs <= 4)%nat ->
    (List.length (detect_loop suffixes langs) <= 5)%nat /\
    NoDup (detect_loop suffixes langs) /\
    (forall l, In l (detect_loop suffixes langs) ->
       In l langs \/
       exists suffix, In suffix suffixes /\
                      dict_get suffix language_extensions = Some l) /\
    ((List.length (detect_loop suffixes langs) < 5)%nat ->
     (forall l, In l langs -> In l (detect_loop suffixes langs)) /\
     forall suffix l,
       In suffix suffixes ->
       dict_get suffix language_extensions = Some l ->
       In l (detect_loop suffixes langs)).
Proof.
  induction suffixes as [ | suffix rest IH ]; intros langs Hnd Hlen;
    cbn [detect_loop].
  - split; [ lia | ]. split; [ exact Hnd | ]. split.
    + intros l Hin. left. exact Hin.
    + intros _. split; [ intros l Hin; exact Hin | intros s l [] ].
  - destruct (dict_get suffix language_extensions) as [lang | ] eqn:E.
    + pose proof (set_add_length lang langs) as Hl.
      pose proof (set_add_NoDup lang langs Hnd) as Hnd'.
      destruct (5 <=? List.length (set_add lang langs))%nat eqn:E5.
      * apply Nat.leb_le in E5.
        split; [ lia | ]. split; [ exact Hnd' | ]. split.
        -- intros l Hin. apply set_add_In in Hin. destruct Hin as [-> | Hin].
           ++ right. exists suffix. split; [ left; reflexivity | exact E ].
           ++ left. exact Hin.
        -- intros Hlt. lia.
      * apply Nat.leb_gt in E5.
        destruct (IH (set_add lang langs) Hnd' ltac:(lia)) as [H1 [H2 [H3 H4]]].
        split; [ exact H1 | ]. split; [ exact H2 | ]. split.
        -- intros l Hin. destruct (H3 l Hin) as [Hin' | [s [Hs Hd]]].
           ++ apply set_add_In in Hin'. destruct Hin' as [-> | Hin'].
              ** right. exists suffix. split; [ left; reflexivity | exact E ].
              ** left. exact Hin'.
           ++ right. exists s. split; [ right; exact Hs | exact Hd ].
        -- intros Hlt. destruct (H4 Hlt) as [Hkeep Hall]. split.
           ++ intros l Hin. apply Hkeep. apply set_add_In. right. exact Hin.
           ++ intros s l [<- | Hs] Hd.
              ** apply Hkeep. apply set_add_In. left. congruence.
              ** apply (Hall s l Hs Hd).
    + destruct (IH langs Hnd Hlen) as [H1 [H2 [H3 H4]]].
      split; [ exact H1 | ]. split; [ exact H2 | ]. split.
      * intros l Hin. destruct (H3 l Hin) as [Hin' | [s [Hs Hd]]].
        -- left. exact Hin'.
        -- right. exists s. split; [ right; exact Hs | exact Hd ].
      * intros Hlt. destruct (H4 Hlt) as [Hkeep Hall]. split.
        -- exact Hkeep.
        -- intros s l [<- | Hs] Hd.
           ++ congruence.
           ++ apply (Hall s l Hs Hd).
Qed.

(** X1. The languages detected are at most five, are listed once each,
    and each is the language of the suffix of some file of the project;
    when fewer than five are listed, none was missed: the language of
    every file with a known suffix is in the list. *)
Theorem detected_languages_capped p :
  (List.length (_detect_languages p) <= 5)%nat /\
  NoDup (_detect_languages p) /\
  (forall l, In l (_detect_languages p) ->
     exists suffix, In suffix (file_suffixes p) /\
                    dict_get suffix language_extensions = Some l) /\
  ((List.length (_detect_languages p) < 5)%nat ->
   forall suffix l,
     In suffix (file_suffixes p) ->
     dict_get suffix language_extensions = Some l ->
     In l (_detect_languages p)).
Proof.
  unfold _detect_languages.
  destruct (detect_loop_spec (file_suffixes p) [] (NoDup_nil _) ltac:(cbn; lia))
    as [H1 [H2 [H3 H4]]].
  split; [ exact H1 | ]. split; [ exact H2 | ]. split.
  - intros l Hin. destruct (H3 l Hin) as [[] | Hs]. exact Hs.
  - intros Hlt. apply (proj2 (H4 Hlt)).
Qed.

Lemma detected_languages_capped_witness :
  let p := {| name := "demo"; path := "/home/dev/demo";
              path_exists := fun _ => false; read_text := fun _ => None;
              read_bytes := fun _ => None;
              load_package_json := None; rglob := fun _ => [];
              file_suffixes := [".py"; ".md"; ".py"; ".go"];
              chdir_ok := true;
              git_branch := RunError; git_log := RunError;
              git_status := RunError; git_remote := RunError;
              api_repo := UrlError; api_pulls := UrlError |} in
  _detect_languages p = ["Python"; "Go"] /\ In "Go" (_detect_languages p).
Proof.
  intros p. split; [ reflexivity | ].
  destruct (detected_languages_capped p) as [_ [_ [_ H]]].
  apply (H ltac:(cbn; lia) ".go" "Go"); [ | reflexivity ].
  right; right; right; left. reflexivity.
Defined.

(** ** The manifest analyzer *)

Lemma json_len_nonneg v n : json_len v = Some n -> 0 <= n.
Proof.
  destruct v; cbn; intros H; try discriminate H; injection H as <-;
    unfold PyStr.len; lia.
Qed.

Lemma check_package_json_cases p d :
  records_one d (check_package_json p d) "Node.js" "npm".
Proof.
  unfold check_package_json, records_one.
  destruct (exists_ p "package.json"); [ | left; reflexivity ].
  destruct (load_package_json p) as [data | ]; [ | left; reflexivity ].
  cbn [bind].
  destruct (json_get data "dependencies" (JObject [])) as [v1 | ];
    [ | left; reflexivity ].
  cbn [bind]. destruct (json_len v1) as [n1 | ] eqn:E1; [ | left; reflexivity ].
  cbn [bind].
  destruct (json_get data "devDependencies" (JObject [])) as [v2 | ];
    [ | left; reflexivity ].
  cbn [bind]. destruct (json_len v2) as [n2 | ] eqn:E2; [ | left; reflexivity ].
  cbn [bind try_except]. right. eexists _, _. split; [ | reflexivity ].
  apply json_len_nonneg in E1, E2. lia.
Qed.

Lemma check_requirements_txt_cases p d :
  records_one d (check_requirements_txt p d) "Python" "pip".
Proof.
  unfold check_requirements_txt, records_one.
  destruct (exists_ p "requirements.txt"); [ | left; reflexivity ].
  destruct (read_text p "requirements.txt") as [content | ];
    [ | left; reflexivity ].
  cbn [bind try_except]. right. eexists _, _. split; [ | reflexivity ]. lia.
Qed.

Lemma poetry_step_nonneg st line :
  0 <= poetry_deps st /\ 0 <= dev_deps st ->
  0 <= poetry_deps (poetry_step st line) /\ 0 <= dev_deps (poetry_step st line).
Proof.
  intros [H1 H2]. unfold poetry_step.
  repeat match goal with
         | |- context [if ?c then _ else _] => destruct c
         end; cbn; lia.
Qed.

Lemma poetry_scan_nonneg lines :
  0 <= poetry_deps (poetry_scan lines) /\ 0 <= dev_deps (poetry_scan lines).
Proof.
  unfold poetry_scan.
  assert (G : forall st, 0 <= poetry_deps st /\ 0 <= dev_deps st ->
                         0 <= poetry_deps (fold_left poetry_step lines st) /\
                         0 <= dev_deps (fold_left poetry_step lines st)).
  { induction lines as [ | line rest IH ]; intros st H; cbn [fold_left].
    - exact H.
    - apply IH. apply poetry_step_nonneg. exact H. }
  apply G. cbn. lia.
Qed.

Lemma count_nonneg c s : 0 <= PyStr.count c s.
Proof.
  induction s as [ | c0 s IH ]; cbn [PyStr.count]; [ lia | ].
  destruct (Ascii.eqb c0 c); lia.
Qed.

Lemma inline_dependencies_nonneg content n :
  0 <= n -> 0 <= inline_dependencies content n.
Proof.
  intros H. unfold inline_dependencies.
  destruct (PyStr.contains "dependencies = [" content && (n =? 0)); [ | exact H ].
  destruct (negb (PyStr.find "dependencies = [" content =? -1)); [ | exact H ].
  apply Z.div_pos; [ apply count_nonneg | lia ].
Qed.

Lemma check_pyproject_toml_cases p d :
  records_one d (check_pyproject_toml p d) "Python" "poetry".
Proof.
  unfold check_pyproject_toml, records_one.
  destruct (exists_ p "pyproject.toml"); [ | left; reflexivity ].
  destruct (read_text p "pyproject.toml") as [content | ];
    [ | left; reflexivity ].
  cbn [bind].
  pose proof (poetry_scan_nonneg (PyStr.split "010" content)) as [H1 H2].
  pose proof (inline_dependencies_nonneg content _ H1) as H3.
  destruct ((inline_dependencies content
               (poetry_deps (poetry_scan (PyStr.split "010" content))) >? 0)
            || (dev_deps (poetry_scan (PyStr.split "010" content)) >? 0));
    cbn [try_except]; [ | left; reflexivity ].
  right. eexists _, _. split; [ | reflexivity ]. lia.
Qed.

Lemma check_go_mod_cases p d :
  records_one d (check_go_mod p d) "Go" "go".
Proof.
  unfold check_go_mod, records_one.
  destruct (exists_ p "go.mod"); [ | left; reflexivity ].
  destruct (read_text p "go.mod") as [content | ]; [ | left; reflexivity ].
  cbn [bind try_except]. right. eexists _, _. split; [ | reflexivity ]. lia.
Qed.

(** The shape of the result of the analyzer, detector by detector. *)
Lemma check_dependencies_cases p :
  exists d1 d2 d3,
    records_one dep_info_init d1 "Node.js" "npm" /\
    records_one d1 d2 "Python" "pip" /\
    records_one d2 d3 "Python" "poetry" /\
    records_one d3 (_check_dependencies p) "Go" "go".
Proof.
  unfold _check_dependencies.
  exists (check_package_json p dep_info_init),
         (check_requirements_txt p (check_package_json p dep_info_init)),
         (check_pyproject_toml p
            (check_requirements_txt p (check_package_json p dep_info_init))).
  split; [ apply check_package_json_cases | ].
  split; [ apply check_requirements_txt_cases | ].
  split; [ apply check_pyproject_toml_cases | apply check_go_mod_cases ].
Qed.

(** X2. In the record the analyzer returns, [has_deps] is set exactly
    when a manifest was recorded; [languages], [details] and
    [dep_counts] have one entry per recorded manifest, at most four; the
    keys are among npm, pip, poetry and go, the languages among Node.js,
    Python and Go, and no count is negative, so neither is their sum. *)
Theorem dependency_record_consistent p :
  (has_deps (_check_dependencies p) = true <-> languages (_check_dependencies p) <> []) /\
  List.length (languages (_check_dependencies p))
    = List.length (dep_counts (_check_dependencies p)) /\
  List.length (details (_check_dependencies p))
    = List.length (dep_counts (_check_dependencies p)) /\
  (List.length (dep_counts (_check_dependencies p)) <= 4)%nat /\
  (forall key n, In (key, n) (dep_counts (_check_dependencies p)) ->
     0 <= n /\ In key ["npm"; "pip"; "poetry"; "go"]) /\
  (forall l, In l (languages (_check_dependencies p)) ->
     In l ["Node.js"; "Python"; "Go"]) /\
  0 <= sum_values (dep_counts (_check_dependencies p)).
Proof.
  destruct (check_dependencies_cases p) as [d1 [d2 [d3 [H1 [H2 [H3 H4]]]]]].
  unfold records_one in *.
  destruct H1 as [-> | [n1 [t1 [P1 ->]]]];
  destruct H2 as [-> | [n2 [t2 [P2 ->]]]];
  destruct H3 as [-> | [n3 [t3 [P3 ->]]]];
  destruct H4 as [-> | [n4 [t4 [P4 ->]]]];
  cbn;
  (split; [ split; [ try discriminate; intros _; discriminate
                   | try reflexivity; intros H; exfalso; apply H; reflexivity ] | ]);
  (split; [ reflexivity | ]);
  (split; [ reflexivity | ]);
  (split; [ lia | ]);
  (split; [ intros key n H;
            repeat (destruct H as [H | H];
                    [ injection H as <- <-; split; [ lia | tauto ] | ]);
            destruct H | ]);
  (split; [ intros l H; tauto | ]);
  lia.
Qed.

(** X3. When each of the four manifests is missing or cannot be read or
    parsed, the analyzer returns its initial record, the record of the
    project shows "No dependencies found", and the dependency and
    language steps of the aggregator leave the score as it is. *)
Theorem unusable_manifests_are_ignored now iso p :
  no_usable_manifest p ->
  _check_dependencies p = dep_info_init /\
  (forall score,
     score_languages (_check_dependencies p)
       (score_dependencies (_check_dependencies p) score) = score) /\
  (forall h, _analyze_project now iso p = Some h ->
             ph_dependencies_status h = "No dependencies found").
Proof.
  intros [H1 [H2 [H3 H4]]].
  assert (E : _check_dependencies p = dep_info_init).
  { unfold _check_dependencies.
    assert (E1 : check_package_json p dep_info_init = dep_info_init).
    { unfold check_package_json. destruct H1 as [-> | ->]; [ reflexivity | ].
      destruct (exists_ p "package.json"); reflexivity. }
    rewrite E1.
    assert (E2 : check_requirements_txt p dep_info_init = dep_info_init).
    { unfold check_requirements_txt. destruct H2 as [-> | ->]; [ reflexivity | ].
      destruct (exists_ p "requirements.txt"); reflexivity. }
    rewrite E2.
    assert (E3 : check_pyproject_toml p dep_info_init = dep_info_init).
    { unfold check_pyproject_toml. destruct H3 as [-> | ->]; [ reflexivity | ].
      destruct (exists_ p "pyproject.toml"); reflexivity. }
    rewrite E3.
    unfold check_go_mod. destruct H4 as [-> | ->]; [ reflexivity | ].
    destruct (exists_ p "go.mod"); reflexivity. }
  split; [ exact E | ]. split.
  - intros score. rewrite E. reflexivity.
  - intros h Hh. unfold _analyze_project, analyze_body in Hh.
    destruct (exists_ p ".git"); [ | discriminate Hh ]. cbn [negb] in Hh.
    destruct (_get_git_info iso p) as [g | ]; [ | discriminate Hh ].
    rewrite E in Hh.
    destruct (_calculate_health_score now g dep_info_init
                (Some (remote_info iso p (_get_github_repo p)))
                (Some (_check_project_quality p))) as [sc | ];
      [ | discriminate Hh ].
    cbn [bind] in Hh.
    destruct (open_prs (remote_info iso p (_get_github_repo p))) as [n | ];
      [ | discriminate Hh ].
    cbn in Hh. injection Hh as <-. reflexivity.
Qed.

Lemma unusable_manifests_are_ignored_witness :
  _check_dependencies Sample.bare = dep_info_init /\
  ph_dependencies_status
    (Sample.record_of (_analyze_project Sample.clock_3_days Sample.iso Sample.bare))
    = "No dependencies found".
Proof.
  assert (H : no_usable_manifest Sample.bare).
  { repeat split; left; reflexivity. }
  destruct (unusable_manifests_are_ignored Sample.clock_3_days Sample.iso
              Sample.bare H) as [E [_ Hrec]].
  split; [ exact E | ]. apply Hrec. vm_compute. reflexivity.
Defined.

(** ** The repository identifier *)

Lemma split_nonempty sep s : PyStr.split sep s <> [].
Proof.
  destruct s as [ | c s ]; cbn [PyStr.split]; [ discriminate | ].
  destruct (Ascii.eqb c sep); [ discriminate | ].
  destruct (PyStr.split sep s); discriminate.
Qed.

(** Splitting at a character gives one piece more than the character
    occurs. *)
Lemma split_length sep s :
  Z.of_nat (List.length (PyStr.split sep s)) = 1 + PyStr.count sep s.
Proof.
  induction s as [ | c s IH ]; cbn [PyStr.split PyStr.count]; [ reflexivity | ].
  destruct (Ascii.eqb c sep).
  - cbn [List.length]. lia.
  - destruct (PyStr.split sep s) as [ | w ws ] eqn:E.
    + exfalso. exact (split_nonempty sep s E).
    + cbn [List.length] in *. lia.
Qed.

Lemma validate_repo_part_shape r r' :
  validate_repo_part r = Some r' -> r' = r /\ PyStr.count "/" r = 1.
Proof.
  unfold validate_repo_part.
  destruct (PyStr.contains "/" r); cbn [andb]; [ | discriminate ].
  destruct (List.length (PyStr.split "/" r) =? 2)%nat eqn:E; [ | discriminate ].
  intros H. injection H as <-. split; [ reflexivity | ].
  apply Nat.eqb_eq in E. pose proof (split_length "/" r) as L.
  rewrite E in L. lia.
Qed.

(** X4. An identifier is returned only when the working directory could
    be entered, [git remote get-url origin] exited with 0, and its
    output mentions [github.com] and starts with [git@github.com:] or
    [https://github.com/]; the identifier is that output without the
    prefix and without any [.git], it is not empty and holds exactly one
    slash. *)
Theorem github_repo_shape p r :
  _get_github_repo p = Some r ->
  PyStr.count "/" r = 1 /\
  PyStr.truthy r = true /\
  chdir_ok p = true /\
  exists out,
    git_remote p = Completed 0 out /\
    PyStr.contains "github.com" (PyStr.strip out) = true /\
    ((PyStr.startswith (PyStr.strip out) "git@github.com:" = true /\
      r = PyStr.replace ".git" EmptyString
            (PyStr.replace "git@github.com:" EmptyString (PyStr.strip out))) \/
     (PyStr.startswith (PyStr.strip out) "git@github.com:" = false /\
      PyStr.startswith (PyStr.strip out) "https://github.com/" = true /\
      r = PyStr.replace ".git" EmptyString
            (PyStr.replace "https://github.com/" EmptyString (PyStr.strip out)))).
Proof.
  intros H. pose proof (get_github_repo_truthy p r H) as Ht.
  unfold _get_github_repo in H.
  destruct (chdir_ok p); [ | discriminate H ]. cbn [negb] in H.
  destruct (git_remote p) as [rc out | | ]; try discriminate H.
  destruct (rc =? 0) eqn:Erc; [ | discriminate H ]. cbn [negb] in H.
  apply Z.eqb_eq in Erc. subst rc.
  destruct (PyStr.contains "github.com" (PyStr.strip out)) eqn:Ec;
    [ | discriminate H ].
  destruct (PyStr.startswith (PyStr.strip out) "git@github.com:") eqn:Es.
  - apply validate_repo_part_shape in H. destruct H as [-> Hc].
    split; [ exact Hc | ]. split; [ exact Ht | ]. split; [ reflexivity | ].
    exists out. split; [ reflexivity | ]. split; [ exact Ec | ].
    left. split; [ exact Es | reflexivity ].
  - destruct (PyStr.startswith (PyStr.strip out) "https://github.com/") eqn:Eh;
      [ | discriminate H ].
    apply validate_repo_part_shape in H. destruct H as [-> Hc].
    split; [ exact Hc | ]. split; [ exact Ht | ]. split; [ reflexivity | ].
    exists out. split; [ reflexivity | ]. split; [ exact Ec | ].
    right. split; [ exact Es | ]. split; [ exact Eh | reflexivity ].
Qed.

Lemma github_repo_shape_witness :
  _get_github_repo Sample.pulls_unreachable = Some "dev/demo" /\
  PyStr.count "/" "dev/demo" = 1.
Proof.
  split; [ reflexivity | ].
  apply (github_repo_shape Sample.pulls_unreachable "dev/demo"). reflexivity.
Defined.

(** ** The fetcher *)

Lemma max_0_int d : max_0 (JNumber d) = Some (JNumber (Z.max 0 d)).
Proof.
  unfold max_0. cbn [gt_int bind].
  destruct (d >? 0) eqn:E; do 2 f_equal; lia.
Qed.

(** X5. When both requests answer 200 with a parsed body and the raw
    issue count is an integer, the number of open pull requests is the
    length of the list and the open issues are the raw count less that
    number, cut at 0: never negative, and adding up to the raw count
    when it is not below the number of pull requests.  When the raw
    count is not a number the subtraction raises, and the handler sets
    the pull requests to 0 and hands the raw value on.  On every path
    the workflow status is ['unknown'] and a pull-request count that is
    set is not negative. *)
Theorem fetched_counts iso p :
  workflow_status (_fetch_github_info iso p) = "unknown" /\
  (forall n, open_prs (_fetch_github_info iso p) = Some n -> 0 <= n) /\
  (forall data prs raw,
     api_repo p = Response 200 (Some data) ->
     api_pulls p = Response 200 (Some prs) ->
     get_or (open_issues_count data) (JNumber 0) = JNumber raw ->
     let n := Z.of_nat (List.length prs) in
     open_prs (_fetch_github_info iso p) = Some n /\
     (exists issues,
        open_issues (_fetch_github_info iso p) = JNumber issues /\
        issues = Z.max 0 (raw - n) /\
        0 <= issues /\
        (n <= raw -> issues + n = raw)) /\
     stars (_fetch_github_info iso p)
     = get_or (stargazers_count data) (JNumber 0)) /\
  (forall data prs,
     api_repo p = Response 200 (Some data) ->
     api_pulls p = Response 200 (Some prs) ->
     numeric (get_or (open_issues_count data) (JNumber 0)) = false ->
     open_prs (_fetch_github_info iso p) = Some 0 /\
     open_issues (_fetch_github_info iso p)
     = get_or (open_issues_count data) (JNumber 0)).
Proof.
  split; [ apply fetch_workflow_status | ]. split; [ | split ].
  - intros n. unfold _fetch_github_info, fetch_pulls, pulls_failed.
    destruct (api_repo p) as [st [data | ] | ]; cbn;
      try (destruct (st =? 200); cbn);
      try (intros H; injection H as <-; lia).
    destruct (api_pulls p) as [st' [prs | ] | ]; cbn;
      try (destruct (st' =? 200); cbn);
      try (intros H; injection H as <-; lia);
      try discriminate.
    destruct (issues_without_prs data (Z.of_nat (List.length prs))); cbn;
      intros H; injection H as <-; lia.
  - intros data prs raw Hrepo Hpulls Hraw n.
    unfold _fetch_github_info, fetch_pulls, issues_without_prs.
    rewrite Hrepo, Hpulls. cbn [Z.eqb Pos.eqb]. rewrite Hraw.
    cbn [sub_int bind]. rewrite max_0_int. fold n.
    cbn [open_prs open_issues stars].
    split; [ reflexivity | ]. split; [ | reflexivity ].
    exists (Z.max 0 (raw - n)).
    split; [ reflexivity | ]. split; [ reflexivity | ]. split; lia.
  - intros data prs Hrepo Hpulls Hraw.
    unfold _fetch_github_info, fetch_pulls, issues_without_prs, pulls_failed.
    rewrite Hrepo, Hpulls. cbn [Z.eqb Pos.eqb].
    destruct (get_or (open_issues_count data) (JNumber 0));
      try discriminate Hraw; split; reflexivity.
Qed.

Lemma fetched_counts_witness :
  open_prs (_fetch_github_info Sample.iso Sample.issues_30_prs_10) = Some 10 /\
  exists issues,
    open_issues (_fetch_github_info Sample.iso Sample.issues_30_prs_10)
    = JNumber issues /\
    issues + 10 = 30.
Proof.
  destruct (fetched_counts Sample.iso Sample.issues_30_prs_10) as [_ [_ [H _]]].
  destruct (H Sample.doc_30_issues Sample.ten_pulls 30 eq_refl eq_refl eq_refl)
    as [Hp [[issues [Hi [_ [_ Hsum]]]] _]].
  split; [ exact Hp | ]. exists issues. split; [ exact Hi | ].
  apply Hsum. vm_compute. discriminate.
Defined.

(** ** White space *)

Lemma lstrip_has_text s : has_text (PyStr.lstrip s) = has_text s.
Proof.
  induction s as [ | c s IH ]; cbn [PyStr.lstrip has_text]; [ reflexivity | ].
  destruct (PyStr.isspace c) eqn:E.
  - rewrite IH. reflexivity.
  - cbn [has_text]. rewrite E. reflexivity.
Qed.

Lemma rstrip_truthy s : PyStr.truthy (PyStr.rstrip s) = has_text s.
Proof.
  induction s as [ | c s IH ]; cbn [PyStr.rstrip has_text]; [ reflexivity | ].
  destruct (PyStr.rstrip s) as [ | c' r ].
  - cbn [PyStr.truthy] in IH. rewrite <- IH.
    destruct (PyStr.isspace c); reflexivity.
  - cbn [PyStr.truthy] in *. rewrite <- IH. rewrite orb_true_r. reflexivity.
Qed.

Lemma rstrip_has_text s : has_text (PyStr.rstrip s) = has_text s.
Proof.
  induction s as [ | c s IH ]; cbn [PyStr.rstrip has_text]; [ reflexivity | ].
  pose proof (rstrip_truthy s) as T.
  destruct (PyStr.rstrip s) as [ | c' r ].
  - cbn [PyStr.truthy] in T. rewrite <- T.
    destruct (PyStr.isspace c) eqn:E; cbn [has_text]; rewrite ?E; reflexivity.
  - cbn [has_text] in *. rewrite IH. reflexivity.
Qed.

(** A string strips to a non-empty string exactly when it has text. *)
Lemma strip_truthy s : PyStr.truthy (PyStr.strip s) = has_text s.
Proof.
  unfold PyStr.strip. rewrite rstrip_truthy. apply lstrip_has_text.
Qed.

Lemma strip_has_text s : has_text (PyStr.strip s) = has_text s.
Proof.
  unfold PyStr.strip. rewrite rstrip_has_text. apply lstrip_has_text.
Qed.

(** A text has text exactly when one of its lines has. *)
Lemma split_newline_has_text s :
  existsb has_text (PyStr.split "010" s) = has_text s.
Proof.
  induction s as [ | c s IH ]; cbn [PyStr.split has_text existsb];
    [ reflexivity | ].
  destruct (Ascii.eqb c "010") eqn:E.
  - apply Ascii.eqb_eq in E. subst c. cbn [existsb has_text]. rewrite IH.
    reflexivity.
  - destruct (PyStr.split "010" s) as [ | w ws ] eqn:Es.
    + exfalso. exact (split_nonempty _ _ Es).
    + cbn [existsb has_text] in *. rewrite <- IH.
      rewrite orb_assoc. reflexivity.
Qed.

(** ** The inspector's counts *)

Lemma count_uncommitted_nonneg s : 0 <= count_uncommitted s.
Proof.
  unfold count_uncommitted. destruct (PyStr.truthy (PyStr.strip s)); lia.
Qed.

(** Nothing is uncommitted exactly when [git status] printed no text. *)
Lemma count_uncommitted_zero s :
  count_uncommitted s = 0 <-> has_text s = false.
Proof.
  unfold count_uncommitted. rewrite strip_truthy.
  destruct (has_text s) eqn:E.
  - split; [ | discriminate ]. intros H. exfalso.
    pose proof (split_newline_has_text (PyStr.strip s)) as X.
    rewrite strip_has_text, E in X.
    apply existsb_exists in X. destruct X as [line [Hin Hl]].
    assert (Hf : In line (filter (fun l => PyStr.truthy (PyStr.strip l))
                                 (PyStr.split "010" (PyStr.strip s)))).
    { apply filter_In. split; [ exact Hin | ]. rewrite strip_truthy. exact Hl. }
    destruct (filter (fun l => PyStr.truthy (PyStr.strip l))
                     (PyStr.split "010" (PyStr.strip s))) as [ | x xs ].
    + destruct Hf.
    + cbn [List.length] in H. lia.
  - split; reflexivity.
Qed.

(** The status is ['clean'] for a count of 0 and ['dirty'] otherwise,
    and the branch is not empty. *)
Lemma inspector_status_lemma iso p g :
  _get_git_info iso p = Some g ->
  0 <= uncommitted g /\
  (status g = "clean" <-> uncommitted g = 0) /\
  (status g = "dirty" <-> uncommitted g <> 0) /\
  PyStr.truthy (branch g) = true.
Proof.
  intros H.
  destruct (get_git_info_some _ _ _ H) as [b [l [s [_ [_ [_ [_ ->]]]]]]].
  cbn [uncommitted status branch].
  split; [ apply count_uncommitted_nonneg | ].
  destruct (count_uncommitted s =? 0) eqn:E.
  - apply Z.eqb_eq in E.
    split; [ split; [ intros _; exact E | reflexivity ] | ].
    split; [ split; [ discriminate | intros N; contradiction ] | ].
    destruct (PyStr.truthy (PyStr.strip b)) eqn:Eb; [ exact Eb | reflexivity ].
  - apply Z.eqb_neq in E.
    split; [ split; [ discriminate | intros N; contradiction ] | ].
    split; [ split; [ intros _; exact E | reflexivity ] | ].
    destruct (PyStr.truthy (PyStr.strip b)) eqn:Eb; [ exact Eb | reflexivity ].
Qed.

(** X6. When the inspector returns data, the count of uncommitted
    changes is not negative; it is 0 and the status is ['clean'] exactly
    when [git status --porcelain] printed nothing but white space, and
    the status is ['dirty'] otherwise.  The branch name is never empty:
    it is the output of [git branch --show-current] stripped, or
    ['main'] when that is empty. *)
Theorem inspector_status_matches_output iso p g :
  _get_git_info iso p = Some g ->
  exists b s,
    git_branch p = Completed 0 b /\
    git_status p = Completed 0 s /\
    0 <= uncommitted g /\
    (uncommitted g = 0 <-> has_text s = false) /\
    (status g = "clean" <-> has_text s = false) /\
    (status g = "dirty" <-> has_text s = true) /\
    PyStr.truthy (branch g) = true /\
    (has_text b = false -> branch g = "main") /\
    (has_text b = true -> branch g = PyStr.strip b).
Proof.
  intros H.
  destruct (get_git_info_some _ _ _ H) as [b [l [s [_ [Hb [_ [Hs ->]]]]]]].
  exists b, s. cbn [uncommitted status branch].
  pose proof (count_uncommitted_zero s) as Z0.
  pose proof (count_uncommitted_nonneg s) as N0.
  split; [ exact Hb | ]. split; [ exact Hs | ]. split; [ exact N0 | ].
  split; [ exact Z0 | ].
  rewrite (strip_truthy b).
  destruct (count_uncommitted s =? 0) eqn:E.
  - apply Z.eqb_eq in E. apply Z0 in E. rewrite E.
    split; [ split; reflexivity | ].
    split; [ split; discriminate | ].
    destruct (has_text b) eqn:Eb.
    + split; [ rewrite strip_truthy; exact Eb | ].
      split; [ discriminate | reflexivity ].
    + split; [ reflexivity | ]. split; [ reflexivity | discriminate ].
  - apply Z.eqb_neq in E.
    assert (Et : has_text s = true).
    { destruct (has_text s); [ reflexivity | ]. exfalso. apply E, Z0. reflexivity. }
    rewrite Et.
    split; [ split; discriminate | ].
    split; [ split; reflexivity | ].
    destruct (has_text b) eqn:Eb.
    + split; [ rewrite strip_truthy; exact Eb | ].
      split; [ discriminate | reflexivity ].
    + split; [ reflexivity | ]. split; [ reflexivity | discriminate ].
Qed.

Lemma inspector_status_matches_output_witness :
  exists g, _get_git_info Sample.iso Sample.stale = Some g /\
            status g = "dirty" /\ uncommitted g = 75.
Proof.
  destruct (_get_git_info Sample.iso Sample.stale) as [g | ] eqn:E.
  - exists g. split; [ reflexivity | ].
    destruct (inspector_status_matches_output Sample.iso Sample.stale g E)
      as [b [s [_ [Hs [_ [_ [_ [Hd _]]]]]]]].
    split.
    + apply Hd. vm_compute in Hs. injection Hs as <-. vm_compute. reflexivity.
    + vm_compute in E. injection E as <-. reflexivity.
  - vm_compute in E. discriminate E.
Defined.

(** ** The quality heuristics, check by check *)










(** ** Tests *)







(** ** The quality record as a whole *)



(** ** Interplay of the checks with the score *)








(** ** The record of a project *)

(** The record [_analyze_project] returns, field by field. *)
Lemma analyze_project_record now iso p h :
  _analyze_project now iso p = Some h ->
  exists g score n,
    exists_ p ".git" = true /\
    _get_git_info iso p = Some g /\
    _calculate_health_score now g (_check_dependencies p)
      (Some (remote_info iso p (_get_github_repo p)))
      (Some (_check_project_quality p)) = Some score /\
    open_prs (remote_info iso p (_get_github_repo p)) = Some n /\
    h = {| ph_name := name p;
           ph_path := path p;
           ph_git_status := status g;
           ph_last_commit := last_commit g;
           ph_uncommitted_changes := uncommitted g;
           ph_branch := branch g;
           ph_remote_status := remote_status g;
           ph_languages := _detect_languages p;
           ph_dependencies_status :=
             if has_deps (_check_dependencies p)
             then PyStr.join ", " (details (_check_dependencies p))
             else "No dependencies found";
           ph_issues_count := open_issues (remote_info iso p (_get_github_repo p));
           ph_health_score := score;
           ph_github_repo := _get_github_repo p;
           ph_open_issues := open_issues (remote_info iso p (_get_github_repo p));
           ph_open_prs := n;
           ph_stars := stars (remote_info iso p (_get_github_repo p));
           ph_workflow_status :=
             workflow_status (remote_info iso p (_get_github_repo p));
           ph_last_github_activity :=
             last_activity (remote_info iso p (_get_github_repo p)) |}.
Proof.
  unfold _analyze_project, analyze_body.
  destruct (exists_ p ".git"); [ | discriminate ]. cbn [negb].
  destruct (_get_git_info iso p) as [g | ]; [ | discriminate ].
  destruct (_calculate_health_score now g (_check_dependencies p)
              (Some (remote_info iso p (_get_github_repo p)))
              (Some (_check_project_quality p))) as [score | ] eqn:Hscore;
    [ | discriminate ].
  cbn [bind].
  destruct (open_prs (remote_info iso p (_get_github_repo p))) as [n | ] eqn:Hprs;
    [ | discriminate ].
  cbn [bind try_except]. intros H. injection H as <-.
  exists g, score, n. repeat split; assumption.
Qed.

Lemma remote_info_open_prs_nonneg iso p r n :
  open_prs (remote_info iso p r) = Some n -> 0 <= n.
Proof.
  unfold remote_info.
  destruct r as [repo | ]; [ destruct (PyStr.truthy repo) | ];
    try (cbn; intros H; injection H as <-; lia).
  unfold _fetch_github_info, fetch_pulls, pulls_failed.
  destruct (api_repo p) as [st [data | ] | ]; cbn;
    try (destruct (st =? 200); cbn);
    try (intros H; injection H as <-; lia).
  destruct (api_pulls p) as [st' [prs | ] | ]; cbn;
    try (destruct (st' =? 200); cbn);
    try (intros H; injection H as <-; lia);
    try discriminate.
  destruct (issues_without_prs data (Z.of_nat (List.length prs))); cbn;
    intros H; injection H as <-; lia.
Qed.

(** X12. Every record the pipeline produces is well formed: it carries
    the name and path of its directory; its git status is ['clean']
    when the count of uncommitted changes is 0 and ['dirty'] otherwise,
    and that count is not negative; its branch is not empty; it lists at
    most five languages; its issue count is its open-issue count; its
    open pull requests are not negative; its workflow status is
    ['unknown']; and it has the remote defaults when no repository
    identifier was found. *)
Theorem record_well_formed now iso p h :
  _analyze_project now iso p = Some h ->
  ph_name h = name p /\
  ph_path h = path p /\
  0 <= ph_uncommitted_changes h /\
  (ph_git_status h = "clean" <-> ph_uncommitted_changes h = 0) /\
  (ph_git_status h = "dirty" <-> ph_uncommitted_changes h <> 0) /\
  PyStr.truthy (ph_branch h) = true /\
  (List.length (ph_languages h) <= 5)%nat /\
  ph_issues_count h = ph_open_issues h /\
  0 <= ph_open_prs h /\
  ph_workflow_status h = "unknown" /\
  (ph_github_repo h = None -> remote_fields_default h).
Proof.
  intros H.
  destruct (analyze_project_record _ _ _ _ H) as [g [sc [n [_ [Hg [_ [Hn ->]]]]]]].
  cbn.
  destruct (inspector_status_lemma iso p g Hg) as [N0 [Hclean [Hdirty Hb]]].
  split; [ reflexivity | ]. split; [ reflexivity | ].
  split; [ exact N0 | ]. split; [ exact Hclean | ]. split; [ exact Hdirty | ].
  split; [ exact Hb | ].
  split; [ apply (detect_loop_spec (file_suffixes p) [] (NoDup_nil _));
           cbn; lia | ].
  split; [ reflexivity | ].
  split; [ exact (remote_info_open_prs_nonneg _ _ _ _ Hn) | ].
  split; [ apply remote_info_workflow_status | ].
  intros Hr. rewrite Hr in Hn. cbn in Hn. injection Hn as <-.
  rewrite Hr. cbn. repeat split.
Qed.

Lemma record_well_formed_witness :
  ph_git_status
    (Sample.record_of
       (_analyze_project Sample.clock_400_days Sample.iso Sample.stale))
  = "dirty".
Proof.
  destruct (record_well_formed Sample.clock_400_days Sample.iso Sample.stale
              (Sample.record_of
                 (_analyze_project Sample.clock_400_days Sample.iso Sample.stale)))
    as [_ [_ [_ [_ [Hd _]]]]].
  - vm_compute. reflexivity.
  - apply Hd. vm_compute. discriminate.
Defined.

(** ** Remote data and the score *)

(** X13. A project for which no repository identifier was found, or
    whose metadata request failed, is scored as if the aggregator had
    been given no remote data at all: the score of its record is the
    aggregator's result on the inspector's, the analyzer's and the
    quality data alone. *)
Theorem no_remote_data_no_remote_score now iso p h :
  _get_github_repo p = None \/ metadata_failed p ->
  _analyze_project now iso p = Some h ->
  remote_fields_default h /\
  exists g,
    _get_git_info iso p = Some g /\
    _calculate_health_score now g (_check_dependencies p) None
      (Some (_check_project_quality p)) = Some (ph_health_score h).
Proof.
  intros Hno H.
  assert (E : remote_info iso p (_get_github_repo p) = github_info_default).
  { destruct Hno as [-> | Hm]; [ reflexivity | ].
    apply remote_info_metadata_failed. exact Hm. }
  destruct (analyze_project_record _ _ _ _ H) as [g [sc [n [_ [Hg [Hs [Hn ->]]]]]]].
  rewrite E in Hs, Hn |- *. cbn in Hn. injection Hn as <-.
  split; [ cbn; repeat split | ].
  exists g. split; [ exact Hg | ]. cbn [ph_health_score].
  rewrite <- Hs. reflexivity.
Qed.

Lemma no_remote_data_no_remote_score_witness :
  remote_fields_default
    (Sample.record_of
       (_analyze_project Sample.clock_3_days Sample.iso
          (Sample.with_remote Sample.bare UrlError UrlError))).
Proof.
  apply (no_remote_data_no_remote_score Sample.clock_3_days Sample.iso
           (Sample.with_remote Sample.bare UrlError UrlError)).
  - right. left. reflexivity.
  - vm_compute. reflexivity.
Defined.

(** ** When a project is dropped *)




(** ** The walk *)

Lemma visit_records now iso projects p :
  visit now iso projects p = (projects ++ records_of now iso p)%list.
Proof.
  unfold visit, records_of.
  destruct (_analyze_project now iso p); [ reflexivity | ].
  rewrite app_nil_r. reflexivity.
Qed.

Lemma scan_children_records now iso children :
  forall projects,
    fold_left
      (fun projects item =>
         if is_dir item && negb (PyStr.startswith (name (entry item)) ".")
         then visit now iso projects (entry item)
         else projects)
      children projects
    = (projects
       ++ flat_map (fun item => records_of now iso (entry item)) (subdirs children))%list.
Proof.
  induction children as [ | item rest IH ]; intros projects;
    cbn [fold_left subdirs filter flat_map].
  - rewrite app_nil_r. reflexivity.
  - rewrite IH. fold (subdirs rest).
    destruct (is_dir item && negb (PyStr.startswith (name (entry item)) ".")).
    + rewrite visit_records. cbn [flat_map]. rewrite <- app_assoc. reflexivity.
    + reflexivity.
Qed.

Lemma scan_projects_records now iso base children projects :
  scan_projects now iso base children projects
  = (projects
     ++ records_of now iso base
     ++ flat_map (fun item => records_of now iso (entry item)) (subdirs children))%list.
Proof.
  unfold scan_projects. rewrite scan_children_records.
  rewrite app_assoc. f_equal.
  destruct (exists_ base ".git") eqn:Eg.
  - apply visit_records.
  - unfold records_of. rewrite (analyze_project_no_git now iso base Eg).
    rewrite app_nil_r. reflexivity.
Qed.

(** X15. [scan_projects] appends to [self.projects], in this order, the
    record of the scan root and the records of the sub-directories that
    are directories and not hidden (the ones [test_minimal.py] lists),
    each directory giving one record or none independently of the
    others.  So the list grows by at most one record per such directory
    plus one, and a second scan with the same scanner adds the same
    records again after the first ones. *)
Theorem scan_appends_records now iso base children projects :
  scan_projects now iso base children projects
    = (projects
       ++ records_of now iso base
       ++ flat_map (fun item => records_of now iso (entry item)) (subdirs children))%list /\
  (List.length (scan_projects now iso base children projects)
   <= List.length projects + 1 + List.length (subdirs children))%nat /\
  scan_projects now iso base children
    (scan_projects now iso base children [])
    = (scan_projects now iso base children []
       ++ scan_projects now iso base children [])%list.
Proof.
  pose proof (scan_projects_records now iso base children) as E.
  split; [ apply E | ]. split.
  - rewrite E, !length_app.
    assert (L1 : (List.length (records_of now iso base) <= 1)%nat).
    { unfold records_of. destruct (_analyze_project now iso base); cbn; lia. }
    assert (L2 : forall l,
               (List.length
                  (flat_map (fun item => records_of now iso (entry item)) l)
                <= List.length l)%nat).
    { induction l as [ | item rest IH ]; cbn [flat_map List.length]; [ lia | ].
      rewrite length_app. unfold records_of at 1.
      destruct (_analyze_project now iso (entry item)); cbn [List.length]; lia. }
    specialize (L2 (subdirs children)). lia.
  - rewrite (E (scan_projects now iso base children [])).
    rewrite (E []). reflexivity.
Qed.

(** ** The summary *)

(** A float that is not NaN is in exactly one of the three classes. *)
Lemma one_class (s : float) :
  s <> S754_nan ->
  Z.b2z (geb s f8) + Z.b2z (geb s f5 && ltb s f8) + Z.b2z (ltb s f5) = 1.
Proof.
  intros Hnan. unfold geb, ltb, SFltb, f8, f5.
  destruct s as [ [ | ] | [ | ] | | [ | ] m e ]; try reflexivity;
    [ contradiction | ].
  cbn [SFcompare].
  destruct (Z.compare_spec e (-49)) as [E1 | E1 | E1];
    destruct (Z.compare_spec e (-50)) as [E2 | E2 | E2];
    try lia;
    try reflexivity;
    destruct (Pos.compare_cont Eq m 4503599627370496);
    destruct (Pos.compare_cont Eq m 5629499534213120);
    reflexivity.
Qed.

Lemma counts_add_up projects :
  (forall h, In h projects -> ph_health_score h <> S754_nan) ->
  count_if is_healthy projects + count_if is_warning projects
  + count_if is_unhealthy projects
  = Z.of_nat (List.length projects).
Proof.
  unfold count_if.
  induction projects as [ | h rest IH ]; intros Hok; [ reflexivity | ].
  cbn [filter List.length].
  specialize (IH (fun h' Hin => Hok h' (or_intror Hin))).
  pose proof (one_class (ph_health_score h) (Hok h (or_introl eq_refl))) as C.
  unfold is_healthy at 1, is_warning at 1, is_unhealthy at 1.
  destruct (geb (ph_health_score h) f8);
    destruct (geb (ph_health_score h) f5 && ltb (ph_health_score h) f8);
    destruct (ltb (ph_health_score h) f5);
    cbn [Z.b2z] in C; cbn [List.length]; lia.
Qed.

Lemma leb_not_nan (a s : float) : leb a s = true -> s <> S754_nan.
Proof.
  intros H ->. unfold leb, SFleb in H. destruct a; discriminate H.
Qed.

Lemma scan_records_analysed now iso base children h :
  In h (scan_projects now iso base children []) ->
  exists p, _analyze_project now iso p = Some h.
Proof.
  rewrite scan_projects_records. cbn [app]. rewrite in_app_iff, in_flat_map.
  unfold records_of.
  intros [H | [item [_ H]]].
  - destruct (_analyze_project now iso base) as [h' | ] eqn:Ea; [ | destruct H ].
    destruct H as [<- | []]. exists base. exact Ea.
  - destruct (_analyze_project now iso (entry item)) as [h' | ] eqn:Ea;
      [ | destruct H ].
    destruct H as [<- | []]. exists (entry item). exact Ea.
Qed.

(** X16. After a scan that starts from an empty list, the three figures
    of the summary add up to the total: every record is healthy (score
    at least 8), in need of attention (at least 5 and below 8) or
    unhealthy (below 5), and in one class only. *)
Theorem summary_counts_add_up now iso base children :
  let '(total, healthy, warning, unhealthy) :=
    summary_counts (scan_projects now iso base children []) in
  healthy + warning + unhealthy = total /\
  0 <= healthy /\ 0 <= warning /\ 0 <= unhealthy.
Proof.
  unfold summary_counts. split.
  - apply counts_add_up. intros h Hin.
    destruct (scan_records_analysed now iso base children h Hin) as [p Hp].
    destruct (record_score_in_range now iso p h Hp) as [H0 _].
    exact (leb_not_nan _ _ H0).
  - unfold count_if. repeat split; lia.
Qed.

(** ** A [pyproject.toml] without dependency tables *)

Lemma prefix_trans a b s :
  String.prefix a b = true -> String.prefix b s = true -> String.prefix a s = true.
Proof.
  revert b s. induction a as [ | c a IH ]; intros b s Hab Hbs;
    [ destruct s; reflexivity | ].
  destruct b as [ | cb b ]; [ discriminate Hab | ].
  destruct s as [ | cs s ]; [ discriminate Hbs | ].
  cbn [String.prefix] in *.
  destruct (ascii_dec c cb) as [-> | ]; [ | discriminate Hab ].
  destruct (ascii_dec cb cs) as [-> | ]; [ | discriminate Hbs ].
  destruct (ascii_dec cs cs); [ | contradiction ].
  apply (IH b s Hab Hbs).
Qed.

(** A line that opens no poetry table leaves the loop outside the
    tables. *)
Lemma poetry_step_outside st line :
  in_poetry_deps st = false ->
  in_dev_deps st = false ->
  PyStr.startswith (PyStr.strip line) "[tool.poetry" = false ->
  poetry_step st line = st \/
  poetry_step st line
  = {| in_poetry_deps := false; in_dev_deps := false;
       poetry_deps := poetry_deps st; dev_deps := dev_deps st |}.
Proof.
  intros H1 H2 Hp. unfold poetry_step.
  destruct (String.eqb (PyStr.strip line) "[tool.poetry.dependencies]") eqn:E1.
  { apply String.eqb_eq in E1. rewrite E1 in Hp. discriminate Hp. }
  destruct (PyStr.startswith (PyStr.strip line) "[tool.poetry.group.") eqn:E2.
  { exfalso. unfold PyStr.startswith in *.
    assert (T : String.prefix "[tool.poetry" (PyStr.strip line) = true).
    { apply (prefix_trans _ "[tool.poetry.group."); [ reflexivity | exact E2 ]. }
    congruence. }
  cbn [andb].
  destruct (PyStr.startswith (PyStr.strip line) "["); cbn [andb negb];
    [ right; reflexivity | ].
  rewrite H1, H2. cbn [andb]. left. reflexivity.
Qed.

Lemma poetry_scan_outside lines :
  (forall line, In line lines ->
     PyStr.startswith (PyStr.strip line) "[tool.poetry" = false) ->
  poetry_scan lines = poetry_init.
Proof.
  unfold poetry_scan. intros H.
  assert (G : forall st,
             st = poetry_init -> fold_left poetry_step lines st = poetry_init).
  { induction lines as [ | line rest IH ]; intros st ->; cbn [fold_left];
      [ reflexivity | ].
    apply IH.
    - intros l Hl. apply H. right. exact Hl.
    - destruct (poetry_step_outside poetry_init line eq_refl eq_refl
                  (H line (or_introl eq_refl))) as [-> | ->]; reflexivity. }
  apply G. reflexivity.
Qed.

(** X17. A [pyproject.toml] in which no line opens a [[tool.poetry...]
    table and which holds no inline [dependencies = [] list adds
    nothing to the dependency record: no language, no count, no detail
    line, however many [key = value] lines it has. *)
Theorem pyproject_without_dependency_tables p d content :
  read_text p "pyproject.toml" = Some content ->
  (forall line, In line (PyStr.split "010" content) ->
     PyStr.startswith (PyStr.strip line) "[tool.poetry" = false) ->
  PyStr.contains "dependencies = [" content = false ->
  check_pyproject_toml p d = d.
Proof.
  intros Hr Hl Hc. unfold check_pyproject_toml.
  destruct (exists_ p "pyproject.toml"); [ | reflexivity ].
  rewrite Hr. cbn [bind].
  rewrite (poetry_scan_outside _ Hl).
  unfold inline_dependencies. rewrite Hc. reflexivity.
Qed.

Lemma pyproject_without_dependency_tables_witness :
  _check_dependencies
    (Sample.with_files Sample.bare
       [ ("pyproject.toml",
          "[tool.black]" ++ Sample.nl ++ "line-length = 100" ++ Sample.nl) ])
  = dep_info_init.
Proof.
  unfold _check_dependencies.
  change (check_requirements_txt _ (check_package_json _ dep_info_init))
    with dep_info_init.
  rewrite (pyproject_without_dependency_tables _ dep_info_init
             ("[tool.black]" ++ Sample.nl ++ "line-length = 100" ++ Sample.nl)).
  - reflexivity.
  - reflexivity.
  - intros line Hin. vm_compute in Hin.
    destruct Hin as [<- | [<- | [<- | []]]]; reflexivity.
  - reflexivity.
Defined.

(** ** The penalty for uncommitted changes *)

Lemma small_count_penalty n :
  1 <= n <= 10 ->
  exists x, int_times n f0_1 = Some x /\ min f1_0 x = x /\ leb x f1_0 = true.
Proof.
  intros H.
  assert (E : exists k : nat, n = Z.of_nat k + 1 /\ (k <= 9)%nat).
  { exists (Z.to_nat (n - 1)). split; lia. }
  destruct E as [k [-> Hk]].
  do 10 (destruct k as [ | k ];
         [ eexists; split; [ vm_compute; reflexivity | split; vm_compute; reflexivity ] | ]).
  lia.
Qed.

(** X18. The step for uncommitted changes never raises.  It leaves the
    score alone when nothing is uncommitted, subtracts 3.0 above 50
    changes and 2.0 above 10; for 1 to 10 changes it subtracts the count
    times 0.1, which is then at most 1.0, so the cap of 1.0 written in
    that branch never takes effect. *)
Theorem uncommitted_penalty g score :
  (uncommitted g <= 0 -> score_uncommitted g score = Some score) /\
  (1 <= uncommitted g <= 10 ->
   exists x,
     int_times (uncommitted g) f0_1 = Some x /\
     leb x f1_0 = true /\
     score_uncommitted g score = Some (sub score x)) /\
  (10 < uncommitted g <= 50 -> score_uncommitted g score = Some (sub score f2_0)) /\
  (50 < uncommitted g -> score_uncommitted g score = Some (sub score f3_0)).
Proof.
  unfold score_uncommitted.
  destruct (uncommitted g >? 0) eqn:E0;
    destruct (uncommitted g >? 50) eqn:E50;
    destruct (uncommitted g >? 10) eqn:E10;
    rewrite ?Z.gtb_ltb in *;
    repeat match goal with
           | H : (_ <? _) = true |- _ => apply Z.ltb_lt in H
           | H : (_ <? _) = false |- _ => apply Z.ltb_ge in H
           end;
    (split; [ intros; try lia; reflexivity | ]);
    (split; [ | split; intros; try lia; reflexivity ]);
    intros H; try lia.
  destruct (small_count_penalty (uncommitted g) H) as [x [E1 [E2 E3]]].
  exists x. rewrite E1. cbn [bind]. rewrite E2.
  split; [ reflexivity | ]. split; [ exact E3 | reflexivity ].
Qed.

Lemma uncommitted_penalty_witness :
  score_uncommitted
    {| branch := "main"; last_commit := None; uncommitted := 10;
       status := "dirty"; remote_status := "unknown" |} f10_0
  = Some (sub f10_0 f1_0).
Proof.
  destruct (uncommitted_penalty
              {| branch := "main"; last_commit := None; uncommitted := 10;
                 status := "dirty"; remote_status := "unknown" |} f10_0)
    as [_ [H _]].
  destruct H as [x [Ex [_ Hs]]]; [ cbn; lia | ].
  vm_compute in Ex. injection Ex as <-. exact Hs.
Defined.

(** ** Witnesses of the record properties *)

Lemma dependency_record_consistent_witness :
  has_deps (_check_dependencies Sample.pip_and_poetry) = true /\
  0 <= 1 /\ In "pip" ["npm"; "pip"; "poetry"; "go"].
Proof.
  destruct (dependency_record_consistent Sample.pip_and_poetry)
    as [Hd [_ [_ [_ [Hk _]]]]].
  split.
  - apply Hd. vm_compute. discriminate.
  - apply (Hk "pip" 1). vm_compute. left. reflexivity.
Defined.


(** ** Text and bytes of a README *)

(** One step of the decoder. *)
Lemma decode_ignore_cons b s1 :
  Utf8.decode_ignore (b :: s1) =
  let ch := Utf8.value b in
  if ch <? 0x80 then ch :: Utf8.decode_ignore s1
  else if ch <? 0xC2 then Utf8.decode_ignore s1
  else if ch <? 0xE0 then
    match s1 with
    | [] => []
    | b2 :: s2 =>
        let ch2 := Utf8.value b2 in
        if Utf8.is_continuation ch2
        then Utf8.code_point_2 ch ch2 :: Utf8.decode_ignore s2
        else Utf8.decode_ignore s1
    end
  else if ch <? 0xF0 then
    match s1 with
    | [] => []
    | b2 :: s2 =>
        let ch2 := Utf8.value b2 in
        if negb (Utf8.is_continuation ch2)
           || (if ch2 <? 0xA0 then ch =? 0xE0 else ch =? 0xED)
        then Utf8.decode_ignore s1
        else
          match s2 with
          | [] => []
          | b3 :: s3 =>
              let ch3 := Utf8.value b3 in
              if Utf8.is_continuation ch3
              then Utf8.code_point_3 ch ch2 ch3 :: Utf8.decode_ignore s3
              else Utf8.decode_ignore s2
          end
    end
  else if ch <? 0xF5 then
    match s1 with
    | [] => []
    | b2 :: s2 =>
        let ch2 := Utf8.value b2 in
        if negb (Utf8.is_continuation ch2)
           || (if ch2 <? 0x90 then ch =? 0xF0 else ch =? 0xF4)
        then Utf8.decode_ignore s1
        else
          match s2 with
          | [] => []
          | b3 :: s3 =>
              let ch3 := Utf8.value b3 in
              if Utf8.is_continuation ch3
              then
                match s3 with
                | [] => []
                | b4 :: s4 =>
                    let ch4 := Utf8.value b4 in
                    if Utf8.is_continuation ch4
                    then Utf8.code_point_4 ch ch2 ch3 ch4 :: Utf8.decode_ignore s4
                    else Utf8.decode_ignore s3
                end
              else Utf8.decode_ignore s2
          end
    end
  else Utf8.decode_ignore s1.
Proof. destruct s1 as [ | b2 [ | b3 [ | b4 s4 ] ] ]; reflexivity. Qed.

(** Decoding yields at most one character a byte. *)
Lemma decode_ignore_length s :
  (List.length (Utf8.decode_ignore s) <= List.length s)%nat.
Proof.
  assert (G : forall n s, (List.length s <= n)%nat ->
                (List.length (Utf8.decode_ignore s) <= List.length s)%nat).
  { clear s. induction n as [ | n IH ]; intros s Hs.
    - destruct s; [ cbn; lia | cbn in Hs; lia ].
    - destruct s as [ | b s1 ]; [ cbn; lia | ].
      rewrite decode_ignore_cons. cbv zeta.
      cbn [List.length] in Hs.
      pose proof (IH s1) as H1.
      destruct s1 as [ | b2 s2 ].
      { repeat match goal with
               | |- context [if ?c then _ else _] => destruct c
               end; cbn [List.length] in *; lia. }
      pose proof (IH s2) as H2.
      destruct s2 as [ | b3 s3 ].
      { repeat match goal with
               | |- context [if ?c then _ else _] => destruct c
               end; cbn [List.length] in *; lia. }
      pose proof (IH s3) as H3.
      destruct s3 as [ | b4 s4 ].
      { repeat match goal with
               | |- context [if ?c then _ else _] => destruct c
               end; cbn [List.length] in *; lia. }
      pose proof (IH s4) as H4.
      repeat match goal with
             | |- context [if ?c then _ else _] => destruct c
             end; cbn [List.length] in *; lia. }
  apply (G (List.length s)). lia.
Qed.

Lemma translate_newlines_length content :
  (List.length (Utf8.translate_newlines content) <= List.length content)%nat.
Proof.
  assert (G : forall n c, (List.length c <= n)%nat ->
                (List.length (Utf8.translate_newlines c) <= List.length c)%nat).
  { clear content. induction n as [ | n IH ]; intros c Hc.
    - destruct c; [ cbn; lia | cbn in Hc; lia ].
    - destruct c as [ | c1 rest ]; [ cbn; lia | ].
      cbn [List.length] in Hc.
      pose proof (IH rest) as H1.
      destruct rest as [ | c2 rest' ].
      + cbn. destruct (c1 =? 13); cbn; lia.
      + pose proof (IH rest') as H2.
        cbn [Utf8.translate_newlines] in *.
        destruct (c1 =? 13); [ destruct (c2 =? 10) | ];
          cbn [List.length] in *; lia. }
  apply (G (List.length content)). lia.
Qed.

(** The text of a file has at most as many characters as the file has
    bytes. *)
Lemma read_length bytes :
  Utf8.len (Utf8.read bytes) <= Z.of_nat (List.length bytes).
Proof.
  unfold Utf8.len, Utf8.read.
  pose proof (translate_newlines_length (Utf8.decode_ignore bytes)).
  pose proof (decode_ignore_length bytes). lia.
Qed.

Lemma decode_ignore_ascii bytes :
  forallb (fun b => Utf8.value b <? 0x80) bytes = true ->
  Utf8.decode_ignore bytes = map Utf8.value bytes.
Proof.
  induction bytes as [ | b rest IH ]; [ reflexivity | ].
  cbn [forallb map]. intros H. apply andb_true_iff in H. destruct H as [Hb Hrest].
  rewrite decode_ignore_cons. cbv zeta. rewrite Hb, (IH Hrest). reflexivity.
Qed.

Lemma translate_newlines_no_cr content :
  forallb (fun c => negb (c =? 13)) content = true ->
  Utf8.translate_newlines content = content.
Proof.
  induction content as [ | c rest IH ]; [ reflexivity | ].
  cbn [forallb]. intros H. apply andb_true_iff in H. destruct H as [Hc Hrest].
  cbn [Utf8.translate_newlines].
  destruct (c =? 13); [ discriminate Hc | ].
  rewrite (IH Hrest). reflexivity.
Qed.

(** Plain ASCII text without carriage returns is read byte by byte. *)
Lemma read_plain_ascii bytes :
  plain_ascii bytes = true -> Utf8.read bytes = map Utf8.value bytes.
Proof.
  unfold plain_ascii, Utf8.read. intros H.
  rewrite decode_ignore_ascii.
  - apply translate_newlines_no_cr. apply forallb_forall.
    intros c Hc. apply in_map_iff in Hc. destruct Hc as [b [<- Hb]].
    rewrite forallb_forall in H.
    specialize (H b Hb). apply andb_true_iff in H. tauto.
  - rewrite forallb_forall in *. intros b Hb.
    specialize (H b Hb). apply andb_true_iff in H. tauto.
Qed.

Lemma readme_tier_monotone content bytes :
  Utf8.len content <= Z.of_nat (List.length bytes) ->
  readme_tier content <= tier_by_byte_length bytes.
Proof.
  unfold readme_tier, tier_by_byte_length. cbv zeta. intros H.
  repeat match goal with
         | |- context [if ?c then _ else _] => destruct c eqn:?
         end; lia.
Qed.

Lemma readme_tier_same_length content bytes :
  Utf8.len content = Z.of_nat (List.length bytes) ->
  readme_tier content = tier_by_byte_length bytes.
Proof.
  unfold readme_tier, tier_by_byte_length. cbv zeta. intros ->. reflexivity.
Qed.

(** X19. The text of a README has at most as many characters as the
    file has bytes, so its tier is at most the one the thresholds give
    for the byte length; for a file of plain ASCII without carriage
    returns the two are the same. *)
Theorem readme_tier_and_file_size p f bytes :
  find (exists_ p) readme_files = Some f ->
  read_bytes p f = Some bytes ->
  Utf8.len (Utf8.read bytes) <= Z.of_nat (List.length bytes) /\
  readme_quality (_check_project_quality p) = readme_tier (Utf8.read bytes) /\
  readme_quality (_check_project_quality p) <= tier_by_byte_length bytes /\
  (plain_ascii bytes = true ->
   Utf8.len (Utf8.read bytes) = Z.of_nat (List.length bytes) /\
   readme_quality (_check_project_quality p) = tier_by_byte_length bytes).
Proof.
  intros Hf Hb.
  destruct (quality_readme_fields p) as [_ ->].
  pose proof (check_readme_spec p readme_files quality_info_init eq_refl eq_refl) as H.
  rewrite Hf in H. destruct H as [_ ->].
  unfold read_readme. rewrite Hb. cbn [bind].
  pose proof (read_length bytes) as Hlen.
  split; [ exact Hlen | ]. split; [ reflexivity | ].
  split; [ apply readme_tier_monotone; exact Hlen | ].
  intros Hp.
  assert (E : Utf8.len (Utf8.read bytes) = Z.of_nat (List.length bytes)).
  { rewrite (read_plain_ascii bytes Hp). unfold Utf8.len.
    rewrite length_map. reflexivity. }
  split; [ exact E | ]. apply readme_tier_same_length. exact E.
Qed.

Lemma readme_tier_and_file_size_witness :
  readme_quality (_check_project_quality Sample.with_readme) = 5 /\
  tier_by_byte_length (Utf8.encode (Sample.repeat_string "x" 2500)) = 5.
Proof.
  destruct (readme_tier_and_file_size Sample.with_readme "README.md"
              (Utf8.encode (Sample.repeat_string "x" 2500)) eq_refl eq_refl)
    as [_ [_ [_ H]]].
  assert (Hp : plain_ascii (Utf8.encode (Sample.repeat_string "x" 2500)) = true)
    by (vm_compute; reflexivity).
  destruct (H Hp) as [_ E].
  split; [ rewrite E | ]; vm_compute; reflexivity.
Defined.

(** ** The counts of a record *)

(** X20. The star count and the open-issue count of a record are
    numbers: a repository document that holds anything else for one of
    them, [null] or a string, produces no record.  The star count of
    the record is the one of the document. *)
Theorem record_counts_numeric now iso p h :
  _analyze_project now iso p = Some h ->
  numeric (ph_stars h) = true /\
  numeric (ph_open_issues h) = true /\
  forall data,
    ph_github_repo h <> None ->
    api_repo p = Response 200 (Some data) ->
    numeric_counts data = true /\
    ph_stars h = get_or (stargazers_count data) (JNumber 0).
Proof.
  intros H.
  assert (Hn : ~ counts_not_numeric (remote_info iso p (_get_github_repo p))).
  { intros Hc.
    assert (E : _analyze_project now iso p = None).
    { apply analyze_project_none. right. right. left. exact Hc. }
    congruence. }
  destruct (analyze_project_some _ _ _ _ H)
    as [_ [g [sc [n [_ [_ [_ [_ [_ [_ [Hst [Hoi [_ [_ [_ [Hrepo _]]]]]]]]]]]]]]]].
  rewrite Hst, Hoi, Hrepo. unfold counts_not_numeric in Hn.
  split.
  { destruct (numeric (stars (remote_info iso p (_get_github_repo p))));
      [ reflexivity | exfalso; apply Hn; right; reflexivity ]. }
  split.
  { destruct (numeric (open_issues (remote_info iso p (_get_github_repo p))));
      [ reflexivity | exfalso; apply Hn; left; reflexivity ]. }
  intros data Hr Hd.
  destruct (_get_github_repo p) as [r | ] eqn:Er; [ | congruence ].
  split.
  - destruct (numeric_counts data) eqn:E; [ reflexivity | ].
    exfalso. apply Hn. fold (counts_not_numeric (remote_info iso p (Some r))).
    rewrite <- Er. apply remote_info_counts_not_numeric.
    exists r, data. split; [ exact Er | ]. split; assumption.
  - unfold remote_info. rewrite (get_github_repo_truthy p r Er).
    apply fetch_stars. exact Hd.
Qed.

Lemma record_counts_numeric_witness :
  ph_stars
    (Sample.record_of
       (_analyze_project Sample.clock_3_days Sample.iso Sample.pulls_unreachable))
  = JNumber 42.
Proof.
  destruct (record_counts_numeric Sample.clock_3_days Sample.iso
              Sample.pulls_unreachable
              (Sample.record_of
                 (_analyze_project Sample.clock_3_days Sample.iso
                    Sample.pulls_unreachable)))
    as [_ [_ H]].
  - vm_compute. reflexivity.
  - destruct (H Sample.doc_42_stars) as [_ E].
    + vm_compute. discriminate.
    + reflexivity.
    + exact E.
Defined.
